(** * CyberShield: the abuse classifier, the escalation tracker and the
    dispatch loop, embedded from the Python sources.

    - [Text], [Regex]: the pieces of Python's [str] and [re] the classifier
      uses ([lower], [strip], [in], [join], [re.findall]).
    - [AbuseDetector]: [app/services/abuse_detector.py].
    - [ScreenshotGenerator]: [app/services/screenshot_generator.py], as far
      as its callers can observe it; [Layout] has the geometry of what it
      draws.
    - [ConnectionManager]: [app/services/websocket_manager.py].
    - [Main]: the receive loop of [websocket_endpoint] in [app/main.py].

    Scores are Python floats in the source.  Every weight is a multiple of
    0.5 and the only operations on scores are [max], [min], [+ 1.0] and
    [+ 0.5], all of which are exact on such values, so scores are modelled as
    rationals ([Q]) and compared with [==]. *)

From Stdlib Require Import ZArith QArith Qminmax Lqa String Ascii List Bool Lia.
From stdpp Require Import gmap strings pretty.

Import ListNotations.
#[local] Open Scope string_scope.
#[local] Open Scope list_scope.

(* ===================================================================== *)
(** * Text: Python string operations *)
(* ===================================================================== *)

(** A text is a [string] of 7-bit ASCII characters.  Characters with the
    high bit set are carried through unchanged: they have no case and are
    neither white space nor word characters. *)
Module Text.

Definition code (c : ascii) : nat := nat_of_ascii c.

Definition in_range (lo hi : nat) (c : ascii) : bool :=
  (lo <=? code c)%nat && (code c <=? hi)%nat.

(** [c.isupper()] for one character. *)
Definition isupper (c : ascii) : bool := in_range 65 90 c.

Definition islower (c : ascii) : bool := in_range 97 122 c.

Definition isdigit (c : ascii) : bool := in_range 48 57 c.

(** [c.isspace()]: tab, line feed, vertical tab, form feed, carriage
    return, the four separators 0x1c..0x1f and the blank. *)
Definition isspace (c : ascii) : bool :=
  in_range 9 13 c || in_range 28 31 c || (code c =? 32)%nat.

(** The class [\w] of [re]: letters, digits and the underscore. *)
Definition isword (c : ascii) : bool :=
  isupper c || islower c || isdigit c || (code c =? 95)%nat.

Definition lower_char (c : ascii) : ascii :=
  if isupper c then ascii_of_nat (code c + 32) else c.

(** [s.lower()] *)
Fixpoint lower (s : string) : string :=
  match s with
  | EmptyString => EmptyString
  | String c s' => String (lower_char c) (lower s')
  end.

Fixpoint lstrip (s : string) : string :=
  match s with
  | EmptyString => EmptyString
  | String c s' => if isspace c then lstrip s' else s
  end.

Fixpoint rstrip (s : string) : string :=
  match s with
  | EmptyString => EmptyString
  | String c s' =>
      match rstrip s' with
      | EmptyString => if isspace c then EmptyString else String c EmptyString
      | r => String c r
      end
  end.

(** [s.strip()] *)
Definition strip (s : string) : string := rstrip (lstrip s).

(** Truthiness of a [str]: the empty string is false. *)
Definition truthy (s : string) : bool :=
  match s with EmptyString => false | String _ _ => true end.

(** [s.startswith(p)] *)
Fixpoint startswith (p s : string) : bool :=
  match p, s with
  | EmptyString, _ => true
  | String _ _, EmptyString => false
  | String a p', String b s' => Ascii.eqb a b && startswith p' s'
  end.

(** [w in s]: [w] occurs in [s] as a contiguous substring. *)
Fixpoint contains (w s : string) : bool :=
  startswith w s ||
  match s with
  | EmptyString => false
  | String _ s' => contains w s'
  end.

(** [sep.join(l)] *)
Fixpoint join (sep : string) (l : list string) : string :=
  match l with
  | [] => EmptyString
  | [x] => x
  | x :: l' => x ++ sep ++ join sep l'
  end.

(** [sum(1 for c in s if p(c))] *)
Fixpoint count (p : ascii -> bool) (s : string) : nat :=
  match s with
  | EmptyString => 0
  | String c s' => (if p c then 1 else 0) + count p s'
  end.

(** The first [n] characters of [s] ([s[:n]]). *)
Fixpoint take (n : nat) (s : string) : string :=
  match n, s with
  | S n', String c s' => String c (take n' s')
  | _, _ => EmptyString
  end.

End Text.

(* ===================================================================== *)
(** * Regex: the fragment of [re] the patterns are written in *)
(* ===================================================================== *)

(** The five patterns of the detector are sequences of literals, [\s+],
    [\w+] and [\b], wrapped in one capture group that spans the whole
    match.  The matcher is a backtracking one, as [re] is: every item yields
    its possible continuations in priority order (a greedy [+] tries the
    longest run first) and the first complete path is the match. *)
Module Regex.

Inductive item : Type :=
  | Lit (s : string)      (* literal text, compared without case (re.IGNORECASE) *)
  | Spaces                (* \s+ *)
  | Words                 (* \w+ *)
  | Boundary.             (* \b *)

Definition pattern : Type := list item.

(** A position in the subject: the character just before it, if any, and
    the text that remains. *)
Definition pos : Type := option ascii * string.

Definition word_before (p : pos) : bool :=
  match fst p with Some c => Text.isword c | None => false end.

Definition word_after (p : pos) : bool :=
  match snd p with String c _ => Text.isword c | EmptyString => false end.

(** Consume the literal [l] at the head of the subject, ignoring case. *)
Fixpoint eat_lit (l : string) (prev : option ascii) (s : string) : option pos :=
  match l with
  | EmptyString => Some (prev, s)
  | String a l' =>
      match s with
      | String b s' =>
          if Ascii.eqb (Text.lower_char a) (Text.lower_char b)
          then eat_lit l' (Some b) s' else None
      | EmptyString => None
      end
  end.

(** All the ways to consume one or more characters of class [cls], the
    longest first. *)
Fixpoint eat_plus (cls : ascii -> bool) (s : string) : list pos :=
  match s with
  | String c s' =>
      if cls c then eat_plus cls s' ++ [(Some c, s')] else []
  | EmptyString => []
  end.

Definition step (i : item) (p : pos) : list pos :=
  match i with
  | Lit l => match eat_lit l (fst p) (snd p) with Some q => [q] | None => [] end
  | Spaces => eat_plus Text.isspace (snd p)
  | Words => eat_plus Text.isword (snd p)
  | Boundary => if xorb (word_before p) (word_after p) then [p] else []
  end.

(** All complete paths through the pattern from [p], in priority order. *)
Fixpoint paths (pat : pattern) (p : pos) : list pos :=
  match pat with
  | [] => [p]
  | i :: pat' => flat_map (paths pat') (step i p)
  end.

(** The match that starts exactly at [p], as the number of characters it
    spans. *)
Definition match_at (pat : pattern) (p : pos) : option nat :=
  match paths pat p with
  | q :: _ => Some (String.length (snd p) - String.length (snd q))
  | [] => None
  end.

(** The scan of [re.findall]: left to right, a match is recorded and the
    scan resumes where it ended.  [skip] counts the characters of the last
    match still to be stepped over. *)
Fixpoint scan (pat : pattern) (prev : option ascii) (s : string) (skip : nat)
  : list string :=
  match skip, s with
  | S k, String c s' => scan pat (Some c) s' k
  | S _, EmptyString => []
  | O, _ =>
      match match_at pat (prev, s), s with
      | Some n, String c s' => Text.take n s :: scan pat (Some c) s' (n - 1)
      | Some n, EmptyString => [Text.take n s]
      | None, String c s' => scan pat (Some c) s' 0
      | None, EmptyString => []
      end
  end.

(** [re.findall(pat, s, re.IGNORECASE)] for a pattern whose single group
    spans the whole match: the matched substrings, in order. *)
Definition findall (pat : pattern) (s : string) : list string :=
  scan pat None s 0.

End Regex.

(* ===================================================================== *)
(** * AbuseDetector: [app/services/abuse_detector.py] *)
(* ===================================================================== *)

Module AbuseDetector.

Import Text.
#[local] Open Scope Q_scope.

(** The strings [_classify_abuse_type] returns. *)
Inductive category : Type :=
  | CYBERBULLYING
  | SEXUAL_HARASSMENT
  | EXPLOITATION
  | BLACKMAIL
  | MENTAL_HARASSMENT
  | THREAT.

Definition category_eqb (a b : category) : bool :=
  match a, b with
  | CYBERBULLYING, CYBERBULLYING | SEXUAL_HARASSMENT, SEXUAL_HARASSMENT
  | EXPLOITATION, EXPLOITATION | BLACKMAIL, BLACKMAIL
  | MENTAL_HARASSMENT, MENTAL_HARASSMENT | THREAT, THREAT => true
  | _, _ => false
  end.

(** [self.abusive_keywords], in the insertion order of the dict literal
    (the order the [for] loop visits it in). *)
Definition abusive_keywords : list (string * Q) :=
  [ ("hate", 9); ("kill", 10); ("die", 9); ("death", 17 # 2);
    ("murder", 10); ("suicide", 19 # 2);
    ("bitch", 7); ("fuck", 13 # 2); ("shit", 6); ("damn", 11 # 2);
    ("hell", 5); ("bastard", 15 # 2); ("asshole", 7);
    ("stupid", 9 # 2); ("idiot", 5); ("loser", 4); ("ugly", 7 # 2);
    ("fat", 3); ("worthless", 6);
    ("nobody likes you", 8); ("everyone hates you", 17 # 2);
    ("you should", 7); ("go away", 4); ("shut up", 5) ].

(** [self.abusive_patterns] *)
Definition abusive_patterns : list Regex.pattern :=
  let b := Regex.Boundary in
  let s := Regex.Spaces in
  let w := Regex.Words in
  let l := Regex.Lit in
  [ [b; l "you"; s; l "are"; s; l "so"; s; w; b];
    [b; l "i"; s; l "hate"; s; l "you"; b];
    [b; l "go"; s; w; s; l "yourself"; b];
    [b; l "nobody"; s; w; s; l "you"; b];
    [b; l "you"; s; l "should"; s; w; b] ].

Definition phrases_to_check : list string :=
  [ "send me your nude"; "show me your body"; "give me your money"; "pay me $";
    "expose your secrets"; "share your photos"; "unless you"; "or else";
    "kill yourself"; "hurt yourself"; "nobody cares"; "i will kill you";
    "i will hurt you"; "i will find you"; "send pics baby" ].

(** The score given to a matched phrase and to a matched pattern. *)
Definition phrase_score : Q := 7.
Definition pattern_score : Q := 7.

(** The three loops of [analyze_text] thread [abuse_score] and append to
    [detected_keywords] or [detected_patterns]. *)
Definition keyword_step (text_lower : string) (acc : Q * list string)
    (entry : string * Q) : Q * list string :=
  if contains (fst entry) text_lower
  then (Qmax (fst acc) (snd entry), snd acc ++ [fst entry])
  else acc.

Definition keyword_loop (text_lower : string) (acc : Q * list string)
  : Q * list string :=
  fold_left (keyword_step text_lower) abusive_keywords acc.

Definition phrase_step (text_lower : string) (acc : Q * list string)
    (phrase : string) : Q * list string :=
  if contains phrase text_lower
  then (Qmax (fst acc) phrase_score, snd acc ++ [phrase])
  else acc.

Definition phrase_loop (text_lower : string) (acc : Q * list string)
  : Q * list string :=
  fold_left (phrase_step text_lower) phrases_to_check acc.

Definition pattern_step (text_lower : string) (acc : Q * list string)
    (pat : Regex.pattern) : Q * list string :=
  match Regex.findall pat text_lower with
  | [] => acc
  | matches => (Qmax (fst acc) pattern_score, snd acc ++ matches)
  end.

Definition pattern_loop (text_lower : string) (acc : Q * list string)
  : Q * list string :=
  fold_left (pattern_step text_lower) abusive_patterns acc.

(** [n / d] on the lengths and counts of the stylistic checks. *)
Definition ratio (n d : nat) : Q :=
  inject_Z (Z.of_nat n) / inject_Z (Z.of_nat d).

Definition Qgtb (a b : Q) : bool := negb (Qle_bool a b).

Definition is_punct (c : ascii) : bool :=
  Ascii.eqb c "!"%char || Ascii.eqb c "?"%char.

(** [caps_ratio > 0.7 and len(text) > 10].  The float quotient is rounded
    to nearest and so is the literal, hence the comparison agrees with the
    one on rationals for every text shorter than 2^49 characters. *)
Definition shouting (text : string) : bool :=
  Qgtb (ratio (count isupper text) (String.length text)) (7 # 10)
  && (10 <? String.length text)%nat.

(** [punct_ratio > 0.2] *)
Definition aggressive_punctuation (text : string) : bool :=
  Qgtb (ratio (count is_punct text) (String.length text)) (2 # 10).

(** The additive adjustments, made on the original [text]. *)
Definition style_adjust (text : string) (abuse_score : Q) : Q :=
  let s := if shouting text then abuse_score + 1 else abuse_score in
  if aggressive_punctuation text then s + (1 # 2) else s.

(** Category word lists of [_classify_abuse_type]. *)
Definition cyberbullying_words : list string :=
  [ "loser"; "stupid"; "idiot"; "worthless"; "nobody likes you";
    "everyone hates you"; "ugly"; "fat" ].

Definition sexual_harassment_words : list string :=
  [ "sexy"; "hot"; "nude"; "naked"; "send pics"; "show me"; "sexual"; "body";
    "breast"; "private"; "pics baby"; "send me your" ].

Definition exploitation_words : list string :=
  [ "money"; "pay me"; "give me"; "steal"; "scam"; "fraud"; "trick";
    "use you"; "give me your money"; "pay me $" ].

Definition blackmail_words : list string :=
  [ "expose"; "tell everyone"; "share photos"; "blackmail"; "secret";
    "unless you"; "or else"; "expose your secrets"; "share your photos" ].

Definition mental_harassment_words : list string :=
  [ "kill yourself"; "suicide"; "die"; "worthless"; "nobody cares"; "alone";
    "depressed"; "hurt yourself" ].

Definition threat_words : list string :=
  [ "kill"; "hurt"; "beat"; "destroy"; "revenge"; "get you"; "find you";
    "come for you"; "murder"; "violence" ].

(** [any(word in keywords_text for word in words)] *)
Definition any_word_in (words : list string) (keywords_text : string) : bool :=
  existsb (fun word => contains word keywords_text) words.

Definition _classify_abuse_type (keywords patterns : list string) : category :=
  let keywords_text := lower (join " " keywords) in
  if any_word_in threat_words keywords_text
     || existsb (fun pattern => contains "kill" pattern || contains "hurt" pattern)
          patterns
  then THREAT
  else if any_word_in mental_harassment_words keywords_text then MENTAL_HARASSMENT
  else if any_word_in blackmail_words keywords_text then BLACKMAIL
  else if any_word_in exploitation_words keywords_text then EXPLOITATION
  else if any_word_in sexual_harassment_words keywords_text then SEXUAL_HARASSMENT
  else if any_word_in cyberbullying_words keywords_text then CYBERBULLYING
  else CYBERBULLYING.

(** The [analysis] dict: either the early [{"reason": ...}] or the full
    record. *)
Record details : Type := {
  detected_keywords : list string;
  detected_patterns : list string;
  caps_ratio : Q;
  punct_ratio : Q;
  threshold_used : Q;
  classification : category
}.

Inductive analysis : Type :=
  | Reason (reason : string)
  | Details (d : details).

(** [analysis.get("classification")] *)
Definition get_classification (a : analysis) : option category :=
  match a with
  | Reason _ => None
  | Details d => Some (classification d)
  end.

(** [not text or not text.strip()] *)
Definition is_empty_text (text : string) : bool :=
  negb (truthy text) || negb (truthy (strip text)).

(** [abuse_score] after the keyword and the phrase loop. *)
Definition keyword_phase (text_lower : string) : Q * list string :=
  phrase_loop text_lower (keyword_loop text_lower (0, [])).

(** [abuse_score] after the pattern loop: the score the adjustments start
    from. *)
Definition pattern_phase (text_lower : string) : Q * list string :=
  pattern_loop text_lower (fst (keyword_phase text_lower), []).

Definition analyze_text (text : string) : bool * Q * analysis :=
  if is_empty_text text then (false, 0, Reason "Empty text")
  else
    let text_lower := strip (lower text) in
    let detected_keywords := snd (keyword_phase text_lower) in
    let '(abuse_score, detected_patterns) := pattern_phase text_lower in
    let has_ratios := (0 <? String.length text_lower)%nat in
    let abuse_score :=
      if has_ratios then style_adjust text abuse_score else abuse_score in
    let abuse_score := Qmin abuse_score 10 in
    let is_abusive := Qle_bool 4 abuse_score in
    (is_abusive, abuse_score,
     Details {|
       detected_keywords := detected_keywords;
       detected_patterns := detected_patterns;
       caps_ratio :=
         if has_ratios
         then ratio (count isupper text) (String.length text) else 0;
       punct_ratio :=
         if has_ratios
         then ratio (count is_punct text) (String.length text) else 0;
       threshold_used := 4;
       classification := _classify_abuse_type detected_keywords detected_patterns
     |}).

(** Projections of the returned triple. *)
Definition is_abusive_of (r : bool * Q * analysis) : bool := fst (fst r).
Definition score_of (r : bool * Q * analysis) : Q := snd (fst r).
Definition analysis_of (r : bool * Q * analysis) : analysis := snd r.

Definition get_abuse_severity (score : Q) : string :=
  if Qle_bool 8 score then "SEVERE"
  else if Qle_bool 6 score then "HIGH"
  else if Qle_bool 4 score then "MEDIUM"
  else "LOW".

Definition is_safe_content (text : string) : bool :=
  negb (is_abusive_of (analyze_text text)).

End AbuseDetector.

(* ===================================================================== *)
(** * Store: the rows of [app/models/database.py] the engine touches *)
(* ===================================================================== *)

Module Store.

Import AbuseDetector.

Record User : Type := {
  user_id : Z;
  username : string;
  email : string;
  full_name : string
}.

Record Message : Type := {
  message_id : Z;
  message_sender_id : Z;
  message_receiver_id : Z;
  message_content : string;
  message_is_abusive : bool;
  message_abuse_score : Q;
  message_abuse_type : option category
}.

Record Report : Type := {
  report_user_id : Z;            (* who the report is filed for: the receiver *)
  report_reported_user_id : Z;
  report_message_id : Z;
  report_evidence_file_path : string;
  report_status : string
}.

Record BlockedUser : Type := {
  blocked_user_id_of : Z;        (* user_id: who blocks *)
  blocked_blocked_user_id : Z;   (* blocked_user_id: who is blocked *)
  blocked_reason : string
}.

(** The tables.  [users] is keyed by primary key; the other tables are in
    insertion order. *)
Record database : Type := {
  users : gmap Z User;
  messages : list Message;
  reports : list Report;
  blocked_users : list BlockedUser
}.

(** The primary key SQLite gives the next inserted message. *)
Definition next_message_id (d : database) : Z :=
  Z.of_nat (List.length (messages d)) + 1.

Definition add_message (m : Message) (d : database) : database :=
  {| users := users d; messages := messages d ++ [m];
     reports := reports d; blocked_users := blocked_users d |}.

Definition add_report (r : Report) (d : database) : database :=
  {| users := users d; messages := messages d;
     reports := reports d ++ [r]; blocked_users := blocked_users d |}.

Definition add_block (b : BlockedUser) (d : database) : database :=
  {| users := users d; messages := messages d;
     reports := reports d; blocked_users := blocked_users d ++ [b] |}.

End Store.

(* ===================================================================== *)
(** * Files: what the evidence pipeline writes *)
(* ===================================================================== *)

Module Files.

Import AbuseDetector.

(** One entry of the pair's incident log, which is also the shape of the
    dicts [generate_evidence_report] reads with [.get]: a key may be
    absent. *)
Record incident : Type := {
  incident_id : option Z;
  incident_content : option string;
  incident_abuse_score : option Q;
  incident_timestamp : option string;
  incident_abuse_type : option category
}.

(** A row of the transcript handed to the renderer. *)
Record screenshot_message : Type := {
  shot_sender_name : string;
  shot_content : string;
  shot_created_at : string;
  shot_is_abusive : bool;
  shot_abuse_type : category;
  shot_abuse_score : Q
}.

Inductive font : Type := Arial | DefaultFont.

(** The rendered transcript. *)
Record image : Type := {
  image_font : font;
  image_sender_name : string;
  image_receiver_name : string;
  image_rows : list screenshot_message
}.

Record party : Type := {
  party_id : Z;
  party_username : string;
  party_full_name : string;
  party_email : string
}.

Record report_message : Type := {
  rm_id : option Z;
  rm_timestamp : option string;
  rm_content : option string;
  rm_abuse_score : Q;
  rm_abuse_type : category;
  rm_sender_ip : string;
  rm_evidence_level : string
}.

(** [report_data].  [average_abuse_score] holds the exact quotient; the
    source rounds it to two decimals for display. *)
Record report_data : Type := {
  report_id : string;
  generated_at : string;
  system : string;
  reporter : party;
  reported_user : party;
  incident_type : string;
  severity : string;
  total_abusive_messages : nat;
  evidence_messages : list report_message;
  abuse_types_detected : list category;
  average_abuse_score : Q;
  highest_abuse_score : Q
}.

(** The interpolated fields of README.txt. *)
Record readme : Type := {
  readme_report_id : string;
  readme_generated : string;
  readme_json_name : string;
  readme_image_name : string;
  readme_reporter : string * string;
  readme_reported : string * string;
  readme_total : nat;
  readme_severity : string;
  readme_abuse_types : list category
}.

(** A file of the temp directory, or a member of an archive, under its
    name. *)
Inductive member : Type :=
  | JsonFile (name : string) (data : report_data)
  | ImageFile (name : string) (img : image)
  | ReadmeFile (name : string) (text : readme).

Definition member_name (m : member) : string :=
  match m with
  | JsonFile n _ | ImageFile n _ | ReadmeFile n _ => n
  end.

Definition is_image (m : member) : bool :=
  match m with ImageFile _ _ => true | _ => false end.

(** The part of the disk under [reports/].  [archives] and [screenshots]
    list every file written, oldest first (a later write to the same path
    replaces the earlier file on disk); [temp] is the present content of
    [reports/temp]. *)
Record filesystem : Type := {
  archives : list (string * list member);
  screenshots : list (string * image);
  temp : list member
}.

Definition path_exists {A : Type} (path : string) (files : list (string * A)) : bool :=
  existsb (fun f => String.eqb (fst f) path) files.

End Files.

(* ===================================================================== *)
(** * Runtime: exceptions, the environment and the state the code mutates *)
(* ===================================================================== *)

(** One entry of [abuse_counters]. *)
Module Pair.

Record t : Type := {
  count : Z;
  messages : list Files.incident;
  last_reset : string
}.

End Pair.

Module Runtime.

Import AbuseDetector.

Inductive exn : Type :=
  | KeyError (key : string)
  | AttributeError (attr : string)       (* an attribute read on [None] *)
  | UnboundLocalError (name : string)
  | IndexError
  | OperationalError                     (* the database refuses the statement *)
  | OSError                              (* the image cannot be written *)
  | ValueError                           (* a timestamp that [fromisoformat] rejects *)
  | WebSocketDisconnect.

Inductive result (A : Type) : Type :=
  | Ok (a : A)
  | Raise (e : exn).

Arguments Ok {A} a.
Arguments Raise {A} e.

(** Whether a timestamp is readable: [f] stands for
    [datetime.fromisoformat(s.replace('Z', '+00:00')).strftime("%H:%M")],
    with [None] where the source raises ValueError. *)
Definition parses (f : string -> option string) (s : string) : bool :=
  match f s with Some _ => true | None => false end.

(** What the outside world answers while one frame is handled: the clock
    ([datetime.now()], as the file-name stamp and in ISO form), how
    [datetime.fromisoformat] reads a timestamp (it always reads what
    [isoformat()] has just returned), whether the database accepts the
    statements of the turn, whether the renderer can write its image, and
    whether the Arial fonts are installed.  [db_up] speaks for the whole
    turn: the database accepts every statement of it, or refuses already
    the first; a database that goes away between two statements of one turn
    is not told apart. *)
Record environment : Type := {
  now_stamp : string;
  now_iso : string;
  fromisoformat : string -> option string;
  now_iso_parses : parses fromisoformat now_iso = true;
  db_up : bool;
  image_writable : bool;
  fonts_installed : bool
}.

(** A [WebSocket] object, by identity. *)
Definition socket : Type := nat.

(** [message_data]: the inbound dict with the classifier's fields attached
    by the receive loop; ["id"] is absent until [store_message] sets it. *)
Record message_data : Type := {
  sender_id : Z;
  receiver_id : Z;
  content : string;
  is_abusive : bool;
  abuse_score : Q;
  abuse_type : option category;
  id : option Z
}.

(** What [send_text] puts on a socket, before [json.dumps]. *)
Inductive payload : Type :=
  | MessagePayload (m : message_data)
  | AlertPayload (message : string) (severity : string).

(** The [ConnectionManager] instance together with the database, the disk
    and the frames sent so far ([wire], oldest first). *)
Record state : Type := {
  active_connections : gmap Z socket;
  abuse_counters : gmap string Pair.t;
  db : Store.database;
  fs : Files.filesystem;
  wire : list (socket * payload)
}.

Definition set_active_connections (f : gmap Z socket -> gmap Z socket) (st : state)
  : state :=
  {| active_connections := f (active_connections st);
     abuse_counters := abuse_counters st; db := db st; fs := fs st;
     wire := wire st |}.

Definition set_abuse_counters (f : gmap string Pair.t -> gmap string Pair.t)
    (st : state) : state :=
  {| active_connections := active_connections st;
     abuse_counters := f (abuse_counters st); db := db st; fs := fs st;
     wire := wire st |}.

Definition set_db (f : Store.database -> Store.database) (st : state) : state :=
  {| active_connections := active_connections st;
     abuse_counters := abuse_counters st; db := f (db st); fs := fs st;
     wire := wire st |}.

Definition set_fs (f : Files.filesystem -> Files.filesystem) (st : state) : state :=
  {| active_connections := active_connections st;
     abuse_counters := abuse_counters st; db := db st; fs := f (fs st);
     wire := wire st |}.

Definition set_wire (f : list (socket * payload) -> list (socket * payload))
    (st : state) : state :=
  {| active_connections := active_connections st;
     abuse_counters := abuse_counters st; db := db st; fs := fs st;
     wire := f (wire st) |}.

(** A computation runs on the state and either returns or raises; what it
    did to the state before raising stays done. *)
Definition M (A : Type) : Type := state -> state * result A.

Definition ret {A : Type} (a : A) : M A := fun st => (st, Ok a).

Definition raise {A : Type} (e : exn) : M A := fun st => (st, Raise e).

Definition bind {A B : Type} (m : M A) (k : A -> M B) : M B :=
  fun st =>
    match m st with
    | (st', Ok a) => k a st'
    | (st', Raise e) => (st', Raise e)
    end.

Definition get : M state := fun st => (st, Ok st).

Definition modify (f : state -> state) : M unit := fun st => (f st, Ok tt).

(** [try: m except e: h] for the one exception [e]. *)
Definition try_except {A : Type} (m : M A) (catches : exn -> bool) (h : M A) : M A :=
  fun st =>
    match m st with
    | (st', Raise e) => if catches e then h st' else (st', Raise e)
    | r => r
    end.

End Runtime.

Declare Scope prog_scope.
Delimit Scope prog_scope with prog.
Notation "'let*' x ':=' m 'in' k" := (Runtime.bind m (fun x => k))
  (at level 10, x name, m at level 100, k at level 200) : prog_scope.
Notation "m ';;' k" := (Runtime.bind m (fun _ => k))
  (at level 100, k at level 200, right associativity) : prog_scope.

(* ===================================================================== *)
(** * ScreenshotGenerator: [app/services/screenshot_generator.py] *)
(* ===================================================================== *)

Module ScreenshotGenerator.

Import Runtime Files.
#[local] Open Scope prog_scope.

(** [__init__]: the Arial fonts, or the default font when loading them
    fails (the [try]/[except] of the constructor). *)
Record t : Type := { font_regular : font }.

Definition init (env : environment) : t :=
  {| font_regular := if fonts_installed env then Arial else DefaultFont |}.

Definition chat_screenshot_path (env : environment) : string :=
  "reports/screenshots/chat_screenshot_" +:+ now_stamp env +:+ ".png".

(** Every row has a timestamp [_draw_message] can read. *)
Definition drawable (env : environment) (messages : list screenshot_message) : bool :=
  forallb (fun message => parses (fromisoformat env) (shot_created_at message)) messages.

(** [generate_chat_screenshot]: draws the rows and saves the image under
    [reports/screenshots/].  [_draw_message] raises ValueError at the first
    row whose timestamp [fromisoformat] rejects, before anything is saved;
    [img.save] raises when the image cannot be written. *)
Definition generate_chat_screenshot (self : t) (env : environment)
    (messages : list screenshot_message) (sender_name receiver_name : string)
  : M string :=
  let img := {| image_font := font_regular self;
                image_sender_name := sender_name;
                image_receiver_name := receiver_name;
                image_rows := messages |} in
  if drawable env messages then
    let filepath := chat_screenshot_path env in
    if image_writable env then
      modify (set_fs (fun f =>
        {| archives := archives f;
           screenshots := screenshots f ++ [(filepath, img)];
           temp := temp f |})) ;;
      ret filepath
    else raise OSError
  else raise ValueError.

(** The rows [generate_evidence_screenshot] builds from the messages it
    is given. *)
Definition evidence_rows (sender_name : string)
    (abusive_messages : list screenshot_message) : list screenshot_message :=
  map (fun msg =>
         {| shot_sender_name := sender_name;
            shot_content := shot_content msg;
            shot_created_at := shot_created_at msg;
            shot_is_abusive := true;
            shot_abuse_type := shot_abuse_type msg;
            shot_abuse_score := shot_abuse_score msg |})
      abusive_messages.

(** [generate_evidence_screenshot]: [None] for an empty list, else the
    path of the rendered transcript. *)
Definition generate_evidence_screenshot (self : t) (env : environment)
    (abusive_messages : list screenshot_message)
    (sender_name receiver_name : string) : M (option string) :=
  match abusive_messages with
  | [] => ret None
  | _ =>
      let* path :=
        generate_chat_screenshot self env (evidence_rows sender_name abusive_messages)
          sender_name receiver_name in
      ret (Some path)
  end.

End ScreenshotGenerator.

(* ===================================================================== *)
(** * ConnectionManager: [app/services/websocket_manager.py] *)
(* ===================================================================== *)

Module ConnectionManager.

Import Runtime Files Store AbuseDetector.
#[local] Open Scope prog_scope.

(** [__init__], over a given database and an empty [reports/] tree. *)
Definition init (d : database) : state :=
  {| active_connections := ∅;
     abuse_counters := ∅;
     db := d;
     fs := {| archives := []; screenshots := []; temp := [] |};
     wire := [] |}.

Definition connect (websocket : socket) (user_id : Z) : M unit :=
  modify (set_active_connections (fun c => <[user_id := websocket]> c)).

Definition disconnect (user_id : Z) : M unit :=
  modify (set_active_connections (fun c =>
    match c !! user_id with
    | Some _ => delete user_id c
    | None => c
    end)).

(** [websocket.send_text(json.dumps(p))] *)
Definition send_text (websocket : socket) (p : payload) : M unit :=
  modify (set_wire (fun w => w ++ [(websocket, p)])).

(** [if user_id in self.active_connections: await ...send_text(...)] *)
Definition send_if_connected (user_id : Z) (p : payload) : M unit :=
  let* st := get in
  match active_connections st !! user_id with
  | Some websocket => send_text websocket p
  | None => ret tt
  end.

Definition send_personal_message (message : message_data) (user_id : Z) : M unit :=
  send_if_connected user_id (MessagePayload message).

(** [db.add(row); db.commit()]: OperationalError when the database does
    not accept the statements of the turn. *)
Definition commit (env : environment) (write : database -> database) : M unit :=
  if db_up env then modify (set_db write) else raise OperationalError.

(** [db.query(User).filter(User.id == uid).first()] *)
Definition query_user (env : environment) (uid : Z) : M (option User) :=
  if db_up env then
    let* st := get in ret (users (db st) !! uid)
  else raise OperationalError.

(** Returns the new row together with [message_data], which the source
    updates in place with the row's id. *)
Definition store_message (env : environment) (message_data : Runtime.message_data)
  : M (Message * Runtime.message_data) :=
  let* st := get in
  let new_message :=
    {| message_id := next_message_id (db st);
       message_sender_id := sender_id message_data;
       message_receiver_id := receiver_id message_data;
       message_content := content message_data;
       message_is_abusive := is_abusive message_data;
       message_abuse_score := abuse_score message_data;
       message_abuse_type := abuse_type message_data |} in
  commit env (add_message new_message) ;;
  ret (new_message,
       {| sender_id := sender_id message_data;
          receiver_id := receiver_id message_data;
          content := content message_data;
          is_abusive := is_abusive message_data;
          abuse_score := abuse_score message_data;
          abuse_type := abuse_type message_data;
          id := Some (message_id new_message) |}).

(* --------------------------------------------------------------------- *)
(** ** [generate_evidence_report] *)

(** [msg.get('abuse_score', 0)] and [msg.get('abuse_type', 'CYBERBULLYING')] *)
Definition get_abuse_score (msg : incident) : Q :=
  default 0%Q (incident_abuse_score msg).

Definition get_abuse_type (msg : incident) : category :=
  default CYBERBULLYING (incident_abuse_type msg).

(** An attribute read on the result of [.first()]. *)
Definition attributes (u : option User) : M User :=
  match u with
  | Some x => ret x
  | None => raise (AttributeError "username")
  end.

Definition party_of (uid : Z) (u : User) : party :=
  {| party_id := uid; party_username := username u;
     party_full_name := full_name u; party_email := email u |}.

Definition severity_of (messages : list incident) : string :=
  if existsb (fun msg => Qgtb (get_abuse_score msg) 8) messages
  then "HIGH" else "MEDIUM".

Definition evidence_level_of (abuse_score : Q) : string :=
  if Qgtb abuse_score 8 then "HIGH"
  else if Qgtb abuse_score 6 then "MEDIUM" else "LOW".

Definition report_message_of (msg : incident) : report_message :=
  {| rm_id := incident_id msg;
     rm_timestamp := incident_timestamp msg;
     rm_content := incident_content msg;
     rm_abuse_score := get_abuse_score msg;
     rm_abuse_type := get_abuse_type msg;
     rm_sender_ip := "192.168.1.100";
     rm_evidence_level := evidence_level_of (get_abuse_score msg) |}.

(** The [abuse_types] set, listed in order of first occurrence (Python
    lists a set in an order of its own). *)
Definition abuse_types_of (messages : list incident) : list category :=
  fold_left (fun seen msg =>
               if existsb (category_eqb (get_abuse_type msg)) seen
               then seen else seen ++ [get_abuse_type msg])
            messages [].

Definition total_score_of (messages : list incident) : Q :=
  fold_left (fun total msg => (total + get_abuse_score msg)%Q) messages 0%Q.

Definition highest_score_of (messages : list incident) : Q :=
  match messages with
  | [] => 0%Q
  | msg :: rest => fold_left (fun m x => Qmax m (get_abuse_score x)) rest (get_abuse_score msg)
  end.

Definition average_score_of (messages : list incident) : Q :=
  match messages with
  | [] => 0%Q
  | _ => (total_score_of messages / inject_Z (Z.of_nat (List.length messages)))%Q
  end.

Definition report_name (sender_id receiver_id : Z) (timestamp : string) : string :=
  "CR_" +:+ pretty sender_id +:+ "_" +:+ pretty receiver_id +:+ "_" +:+ timestamp.

(** The latest file written under [path], if any ([os.path.exists] and the
    read of [shutil.copy2]). *)
Definition read_file {A : Type} (path : string) (files : list (string * A)) : option A :=
  snd <$> find (fun f => String.eqb (fst f) path) (rev files).

(** [open(path, "w")] inside [reports/temp]: replaces a file of that name. *)
Definition write_temp (m : member) : M unit :=
  modify (set_fs (fun f =>
    {| archives := archives f; screenshots := screenshots f;
       temp := List.filter (fun x => negb (String.eqb (member_name x) (member_name m)))
                 (temp f) ++ [m] |})).

Definition in_temp (name : string) (f : filesystem) : bool :=
  existsb (fun x => String.eqb (member_name x) name) (temp f).

(** The archive as it stands when the [with zipfile.ZipFile(...)] block is
    left, by its end or by an exception. *)
Definition write_archive (zip_path : string) (members : list member) : M unit :=
  modify (set_fs (fun f =>
    {| archives := archives f ++ [(zip_path, members)];
       screenshots := screenshots f; temp := temp f |})).

(** [shutil.rmtree(temp_dir)] *)
Definition rmtree_temp : M unit :=
  modify (set_fs (fun f =>
    {| archives := archives f; screenshots := screenshots f; temp := [] |})).

(** The [report_data] dict, once the loop over [messages] and the
    aggregate block have filled it in. *)
Definition report_data_of (env : environment) (sender_id receiver_id : Z)
    (sender receiver : User) (messages : list incident) : report_data :=
  {| report_id := report_name sender_id receiver_id (now_stamp env);
     generated_at := now_iso env;
     system := "CyberShield v1.0";
     reporter := party_of receiver_id receiver;
     reported_user := party_of sender_id sender;
     incident_type := "Abusive Messaging";
     severity := severity_of messages;
     total_abusive_messages := List.length messages;
     evidence_messages := map report_message_of messages;
     abuse_types_detected := abuse_types_of messages;
     average_abuse_score := average_score_of messages;
     highest_abuse_score := highest_score_of messages |}.

Definition json_filename (env : environment) : string :=
  "report_data_" +:+ now_stamp env +:+ ".json".

Definition screenshot_filename (env : environment) : string :=
  "chat_evidence_" +:+ now_stamp env +:+ ".png".

Definition zip_path (env : environment) : string :=
  "reports/cybershield_report_" +:+ now_stamp env +:+ ".zip".

(** The rows handed to the screenshot generator. *)
Definition screenshot_messages_of (env : environment) (sender : User)
    (messages : list incident) : list screenshot_message :=
  map (fun msg =>
         {| shot_sender_name := full_name sender;
            shot_content := default ""%string (incident_content msg);
            shot_created_at := default (now_iso env) (incident_timestamp msg);
            shot_is_abusive := true;
            shot_abuse_type := get_abuse_type msg;
            shot_abuse_score := get_abuse_score msg |})
      messages.

Definition readme_of (env : environment) (sender_id receiver_id : Z)
    (sender receiver : User) (messages : list incident) : readme :=
  {| readme_report_id := report_name sender_id receiver_id (now_stamp env);
     readme_generated := now_iso env;
     readme_json_name := json_filename env;
     readme_image_name := screenshot_filename env;
     readme_reporter := (full_name receiver, username receiver);
     readme_reported := (full_name sender, username sender);
     readme_total := List.length messages;
     readme_severity := severity_of messages;
     readme_abuse_types := abuse_types_of messages |}.

Definition generate_evidence_report (env : environment)
    (sender_id receiver_id : Z) (messages : list incident) : M string :=
  let* sender := query_user env sender_id in
  let* receiver := query_user env receiver_id in
  (* 1. Create JSON report data *)
  let* receiver := attributes receiver in
  let* sender := attributes sender in
  let report_data := report_data_of env sender_id receiver_id sender receiver messages in
  let json_member := JsonFile (json_filename env) report_data in
  write_temp json_member ;;
  (* 2. Generate screenshot *)
  let screenshot_generator := ScreenshotGenerator.init env in
  let* screenshot_path :=
    ScreenshotGenerator.generate_evidence_screenshot screenshot_generator env
      (screenshot_messages_of env sender messages)
      (full_name sender) (full_name receiver) in
  (* Copy screenshot to temp directory: [temp_screenshot_path] is bound only
     inside this [if] *)
  let* st := get in
  let* temp_screenshot_path :=
    match screenshot_path with
    | Some path =>
        match read_file path (screenshots (fs st)) with
        | Some img =>
            write_temp (ImageFile (screenshot_filename env) img) ;;
            ret (Some (screenshot_filename env, img))
        | None => ret None
        end
    | None => ret None
    end in
  (* 3. Create README file *)
  let readme_member :=
    ReadmeFile "README.txt"
      (readme_of env sender_id receiver_id sender receiver messages) in
  write_temp readme_member ;;
  (* 4. Create ZIP file *)
  match temp_screenshot_path with
  | None =>
      (* [os.path.exists(temp_screenshot_path)] reads an unbound local; the
         [with] block is left with the JSON member only *)
      write_archive (zip_path env) [json_member] ;;
      raise (UnboundLocalError "temp_screenshot_path")
  | Some (name, img) =>
      let* st := get in
      let image_member := if in_temp name (fs st) then [ImageFile name img] else [] in
      write_archive (zip_path env) ([json_member] ++ image_member ++ [readme_member]) ;;
      (* Clean up temp directory *)
      rmtree_temp ;;
      ret (zip_path env)
  end.

(* --------------------------------------------------------------------- *)
(** ** [handle_abusive_message] *)

(** [f"{sender_id}_{receiver_id}"] *)
Definition pair_key (sender_id receiver_id : Z) : string :=
  pretty sender_id +:+ "_" +:+ pretty receiver_id.

Definition fresh_pair (env : environment) : Pair.t :=
  {| Pair.count := 0; Pair.messages := []; Pair.last_reset := now_iso env |}.

Definition add_count (p : Pair.t) : Pair.t :=
  {| Pair.count := Pair.count p + 1; Pair.messages := Pair.messages p;
     Pair.last_reset := Pair.last_reset p |}.

Definition append_message (i : incident) (p : Pair.t) : Pair.t :=
  {| Pair.count := Pair.count p; Pair.messages := Pair.messages p ++ [i];
     Pair.last_reset := Pair.last_reset p |}.

(** [self.abuse_counters[pair_key]] *)
Definition counter (key : string) : M Pair.t :=
  let* st := get in
  match abuse_counters st !! key with
  | Some p => ret p
  | None => raise (KeyError key)
  end.

(** [message_data["id"]] *)
Definition get_id (message_data : Runtime.message_data) : M Z :=
  match id message_data with
  | Some i => ret i
  | None => raise (KeyError "id")
  end.

(** [l[-1]] *)
Definition last_message (p : Pair.t) : M incident :=
  match last (Pair.messages p) with
  | Some i => ret i
  | None => raise IndexError
  end.

Definition warning_alert : payload :=
  AlertPayload
    "We've detected potentially abusive content in a recent message. Please be respectful in your communications."
    "warning".

Definition block_alert : payload :=
  AlertPayload
    "User has been automatically blocked due to multiple abusive messages. Reports have been generated."
    "critical".

Definition block_reason : string :=
  "Multiple instances of abusive messages detected".

Definition handle_abusive_message (env : environment)
    (message_data : Runtime.message_data) (analysis : AbuseDetector.analysis)
  : M unit :=
  let sender_id := sender_id message_data in
  let receiver_id := receiver_id message_data in
  let pair_key := pair_key sender_id receiver_id in
  (* Initialize counter if not exists *)
  let* st := get in
  match abuse_counters st !! pair_key with
  | None => modify (set_abuse_counters (fun c => <[pair_key := fresh_pair env]> c))
  | Some _ => ret tt
  end ;;
  (* Add to counter *)
  modify (set_abuse_counters (alter add_count pair_key)) ;;
  let* message_id := get_id message_data in
  modify (set_abuse_counters (alter (append_message
    {| incident_id := Some message_id;
       incident_content := Some (content message_data);
       incident_abuse_score := Some (abuse_score message_data);
       incident_timestamp := Some (now_iso env);
       incident_abuse_type := None |}) pair_key)) ;;
  (* Create a report for every abusive message for dashboard tracking *)
  let* p := counter pair_key in
  let* latest := last_message p in
  let* evidence_path := generate_evidence_report env sender_id receiver_id [latest] in
  commit env (add_report
    {| report_user_id := receiver_id;
       report_reported_user_id := sender_id;
       report_message_id := message_id;
       report_evidence_file_path := evidence_path;
       report_status := "pending" |}) ;;
  (* Check thresholds and take action *)
  let* p := counter pair_key in
  if (Pair.count p =? 1)%Z then
    (* First abusive message - send alert *)
    send_if_connected receiver_id warning_alert
  else if (3 <=? Pair.count p)%Z then
    (* Multiple abusive messages - block user *)
    commit env (add_block
      {| blocked_user_id_of := receiver_id;
         blocked_blocked_user_id := sender_id;
         blocked_reason := block_reason |}) ;;
    send_if_connected receiver_id block_alert ;;
    (* Reset counter after taking action *)
    modify (set_abuse_counters (fun c => <[pair_key := fresh_pair env]> c))
  else ret tt.

End ConnectionManager.

(* ===================================================================== *)
(** * Main: the receive loop of [websocket_endpoint] in [app/main.py] *)
(* ===================================================================== *)

Module Main.

Import Runtime AbuseDetector ConnectionManager.
#[local] Open Scope prog_scope.

(** The inbound frame after [json.loads]. *)
Record envelope : Type := {
  env_sender_id : Z;
  env_receiver_id : Z;
  env_content : string
}.

(** [message_data] once the three classifier fields are attached. *)
Definition classified (data : envelope) : Runtime.message_data :=
  let r := analyze_text (env_content data) in
  {| sender_id := env_sender_id data;
     receiver_id := env_receiver_id data;
     content := env_content data;
     is_abusive := is_abusive_of r;
     abuse_score := score_of r;
     abuse_type :=
       if is_abusive_of r then get_classification (analysis_of r) else None;
     id := None |}.

(** One turn of the [while True] loop, from the received frame on. *)
Definition on_frame (env : environment) (data : envelope) : M unit :=
  let r := analyze_text (env_content data) in
  let message_data := classified data in
  (* Store message in database *)
  let* stored := store_message env message_data in
  let message_data := snd stored in
  (* If abusive, handle according to threshold logic *)
  (if is_abusive_of r
   then handle_abusive_message env message_data (analysis_of r)
   else ret tt) ;;
  (* Send message to intended recipient *)
  send_personal_message message_data (receiver_id message_data).

(** The loop over the frames a client sends; the client going away ends it
    with [WebSocketDisconnect]. *)
Fixpoint receive_loop (frames : list (environment * envelope)) : M unit :=
  match frames with
  | [] => raise WebSocketDisconnect
  | (env, data) :: rest => on_frame env data ;; receive_loop rest
  end.

Definition is_disconnect (e : exn) : bool :=
  match e with WebSocketDisconnect => true | _ => false end.

Definition websocket_endpoint (websocket : socket) (user_id : Z)
    (frames : list (environment * envelope)) : M unit :=
  connect websocket user_id ;;
  try_except (receive_loop frames) is_disconnect (disconnect user_id).

(** What happens to the shared manager, seen from outside: connections
    open and close and frames arrive, in some order.  A frame whose
    handling raises leaves the state as the exception found it. *)
Inductive event : Type :=
  | Connect (websocket : socket) (user_id : Z)
  | Frame (env : environment) (data : envelope)
  | Disconnect (user_id : Z).

Definition step (st : state) (e : event) : state :=
  fst (match e with
       | Connect websocket user_id => connect websocket user_id st
       | Frame env data => on_frame env data st
       | Disconnect user_id => disconnect user_id st
       end).

Definition run (d : Store.database) (events : list event) : state :=
  fold_left step events (ConnectionManager.init d).

End Main.

(* ===================================================================== *)
(** * Views: definitions the statements below are written with *)
(* ===================================================================== *)

Module Views.
Import Text AbuseDetector.
#[local] Open Scope Q_scope.

(** The largest of a list of weights, 0 for none. *)
Definition maximum (weights : list Q) : Q := fold_right Qmax 0 weights.

Definition keyword_matches (text_lower : string) : list (string * Q) :=
  List.filter (fun e => contains (fst e) text_lower) abusive_keywords.

Definition phrase_matches (text_lower : string) : list string :=
  List.filter (fun p => contains p text_lower) phrases_to_check.

(** The weights of every keyword and phrase that occurs in the text. *)
Definition matched_weights (text_lower : string) : list Q :=
  map snd (keyword_matches text_lower)
  ++ map (fun _ => phrase_score) (phrase_matches text_lower).

Definition pattern_hit (text_lower : string) (pat : Regex.pattern) : bool :=
  match Regex.findall pat text_lower with [] => false | _ => true end.

(** Some structural pattern matches. *)
Definition pattern_matches (text_lower : string) : bool :=
  existsb (pattern_hit text_lower) abusive_patterns.

(** Some character of the text is not white space. *)
Fixpoint nonblank (s : string) : bool :=
  match s with
  | EmptyString => false
  | String c s' => negb (isspace c) || nonblank s'
  end.

(** The category word lists in the order [_classify_abuse_type] tests
    them. *)
Definition category_priority : list (category * list string) :=
  [ (THREAT, threat_words);
    (MENTAL_HARASSMENT, mental_harassment_words);
    (BLACKMAIL, blackmail_words);
    (EXPLOITATION, exploitation_words);
    (SEXUAL_HARASSMENT, sexual_harassment_words);
    (CYBERBULLYING, cyberbullying_words) ].

(** Some pattern match contains "kill" or "hurt". *)
Definition violent_pattern (patterns : list string) : bool :=
  existsb (fun pattern => contains "kill" pattern || contains "hurt" pattern) patterns.

(** A category applies when one of its words occurs in the joined
    keywords; THREAT also applies on a violent pattern match. *)
Definition overlaps (keywords_text : string) (patterns : list string)
    (entry : category * list string) : bool :=
  any_word_in (snd entry) keywords_text
  || (category_eqb (fst entry) THREAT && violent_pattern patterns).

(** The first category of the priority list that applies, CYBERBULLYING
    when none does. *)
Definition first_overlap (keywords_text : string) (patterns : list string)
  : category :=
  match find (overlaps keywords_text patterns) category_priority with
  | Some entry => fst entry
  | None => CYBERBULLYING
  end.

(** The terms the keyword and phrase loops look for: only these can appear
    in [detected_keywords]. *)
Definition detectable : list string :=
  map fst abusive_keywords ++ phrases_to_check.

(** The category [analyze_text] reports for a text. *)
Definition category_of (text : string) : option category :=
  get_classification (analysis_of (analyze_text text)).

(** The score [analyze_text] returns for a text that passes the guard. *)
Definition final_score (text : string) : Q :=
  let text_lower := strip (lower text) in
  let base := fst (pattern_phase text_lower) in
  Qmin (if (0 <? String.length text_lower)%nat
        then style_adjust text base else base) 10.

End Views.

(** The thin wrappers are unfolded before the list functions they wrap, so
    that comparing two terms never runs a loop over a concrete table. *)
Strategy expand
  [ AbuseDetector.keyword_loop AbuseDetector.phrase_loop AbuseDetector.pattern_loop
    AbuseDetector.keyword_phase AbuseDetector.pattern_phase
    Views.keyword_matches Views.phrase_matches Views.matched_weights
    Views.pattern_matches ].

(* ===================================================================== *)
(** * TrackerViews: the states the tracker's steps lead to *)
(* ===================================================================== *)

Module TrackerViews.

Import Runtime Files Store AbuseDetector ConnectionManager.

(** The state [send_if_connected] leaves. *)
Definition deliver (user_id : Z) (p : payload) (st : state) : state :=
  match active_connections st !! user_id with
  | Some websocket => set_wire (fun w => w ++ [(websocket, p)]) st
  | None => st
  end.

Definition key_of (md : message_data) : string :=
  pair_key (sender_id md) (receiver_id md).

(** The log entry [handle_abusive_message] appends for [md]. *)
Definition incident_of (env : environment) (md : message_data) (i : Z) : incident :=
  {| incident_id := Some i;
     incident_content := Some (content md);
     incident_abuse_score := Some (abuse_score md);
     incident_timestamp := Some (now_iso env);
     incident_abuse_type := None |}.

(** The pair's entry before the incident: the stored one, or a fresh one. *)
Definition pair_before (env : environment) (md : message_data)
    (c : gmap string Pair.t) : Pair.t :=
  default (fresh_pair env) (c !! key_of md).

(** [abuse_counters] once the incident is counted ... *)
Definition counted (env : environment) (md : message_data)
    (c : gmap string Pair.t) : gmap string Pair.t :=
  <[key_of md := add_count (pair_before env md c)]> c.

(** ... and logged. *)
Definition recorded (env : environment) (md : message_data) (i : Z)
    (c : gmap string Pair.t) : gmap string Pair.t :=
  <[key_of md := append_message (incident_of env md i)
                   (add_count (pair_before env md c))]> c.

Definition report_of (md : message_data) (i : Z) (evidence_path : string) : Report :=
  {| report_user_id := receiver_id md;
     report_reported_user_id := sender_id md;
     report_message_id := i;
     report_evidence_file_path := evidence_path;
     report_status := "pending" |}.

Definition block_of (md : message_data) : BlockedUser :=
  {| blocked_user_id_of := receiver_id md;
     blocked_blocked_user_id := sender_id md;
     blocked_reason := block_reason |}.

(** The state the threshold check leaves when the pair's count is [n]. *)
Definition escalated (env : environment) (md : message_data) (n : Z) (st : state)
  : state :=
  if (n =? 1)%Z then deliver (receiver_id md) warning_alert st
  else if (3 <=? n)%Z then
    set_abuse_counters (fun c => <[key_of md := fresh_pair env]> c)
      (deliver (receiver_id md) block_alert (set_db (add_block (block_of md)) st))
  else st.

(** The timestamp of every message can be read by the renderer (a message
    without one is drawn with the present instant). *)
Definition readable (env : environment) (messages : list incident) : bool :=
  forallb (fun msg =>
             parses (fromisoformat env) (default (now_iso env) (incident_timestamp msg)))
          messages.

(** The image and the archive members of a report that succeeds. *)
Definition evidence_image (env : environment) (sender receiver : User)
    (messages : list incident) : image :=
  {| image_font := ScreenshotGenerator.font_regular (ScreenshotGenerator.init env);
     image_sender_name := full_name sender;
     image_receiver_name := full_name receiver;
     image_rows :=
       ScreenshotGenerator.evidence_rows (full_name sender)
         (screenshot_messages_of env sender messages) |}.

Definition json_member_of (env : environment) (sender_id receiver_id : Z)
    (sender receiver : User) (messages : list incident) : member :=
  JsonFile (json_filename env)
    (report_data_of env sender_id receiver_id sender receiver messages).

Definition readme_member_of (env : environment) (sender_id receiver_id : Z)
    (sender receiver : User) (messages : list incident) : member :=
  ReadmeFile "README.txt" (readme_of env sender_id receiver_id sender receiver messages).

Definition evidence_members (env : environment) (sender_id receiver_id : Z)
    (sender receiver : User) (messages : list incident) : list member :=
  [ json_member_of env sender_id receiver_id sender receiver messages;
    ImageFile (screenshot_filename env) (evidence_image env sender receiver messages);
    readme_member_of env sender_id receiver_id sender receiver messages ].

(** The disk after a report that succeeds. *)
Definition evidence_written (env : environment) (sender_id receiver_id : Z)
    (sender receiver : User) (messages : list incident) (f : filesystem)
  : filesystem :=
  {| archives :=
       archives f
       ++ [(zip_path env, evidence_members env sender_id receiver_id sender receiver messages)];
     screenshots :=
       screenshots f
       ++ [(ScreenshotGenerator.chat_screenshot_path env, evidence_image env sender receiver messages)];
     temp := [] |}.

(** What [handle_abusive_message] does for a message whose id is [i]: the
    incident is recorded, the evidence packaged, the report row written and
    the thresholds checked; an error of the packaging or of the database
    ends the call where it occurs. *)
Definition handle_outcome (env : environment) (md : message_data) (i : Z)
    (st : state) : state * result unit :=
  let st1 := set_abuse_counters (recorded env md i) st in
  match generate_evidence_report env (sender_id md) (receiver_id md)
          [incident_of env md i] st1 with
  | (st2, Ok evidence_path) =>
      if db_up env then
        (escalated env md (Pair.count (pair_before env md (abuse_counters st)) + 1)
           (set_db (add_report (report_of md i evidence_path)) st2),
         Ok tt)
      else (st2, Raise OperationalError)
  | (st2, Raise e) => (st2, Raise e)
  end.

(** The state after a call in which the packaging and the database
    succeed; [su], [ru] are the rows of the sender and the receiver. *)
Definition handled (env : environment) (md : message_data) (i : Z)
    (su ru : User) (st : state) : state :=
  escalated env md (Pair.count (pair_before env md (abuse_counters st)) + 1)
    (set_db (add_report (report_of md i (zip_path env)))
       (set_fs (evidence_written env (sender_id md) (receiver_id md) su ru
                  [incident_of env md i])
          (set_abuse_counters (recorded env md i) st))).

(** The pair has no incident on record. *)
Definition pair_is_fresh (key : string) (st : state) : Prop :=
  match abuse_counters st !! key with
  | None => True
  | Some p => Pair.count p = 0%Z /\ Pair.messages p = []
  end.

(** The frames a call put on the wire after [w]. *)
Definition sent_to (st : state) (user_id : Z) (p : payload)
  : list (socket * payload) :=
  match active_connections st !! user_id with
  | Some websocket => [(websocket, p)]
  | None => []
  end.

(** [message_data] as [store_message] leaves it: with the row's id. *)
Definition with_id (md : message_data) (i : Z) : message_data :=
  {| sender_id := sender_id md; receiver_id := receiver_id md;
     content := content md; is_abusive := is_abusive md;
     abuse_score := abuse_score md; abuse_type := abuse_type md;
     id := Some i |}.

(** The row [store_message] inserts for [md]. *)
Definition row_of (md : message_data) (i : Z) : Message :=
  {| message_id := i;
     message_sender_id := sender_id md;
     message_receiver_id := receiver_id md;
     message_content := content md;
     message_is_abusive := is_abusive md;
     message_abuse_score := abuse_score md;
     message_abuse_type := abuse_type md |}.

(** The message the receive loop forwards for the frame [data] received in
    state [st]: classified, and carrying the id of its row. *)
Definition forwarded (data : Main.envelope) (st : state) : message_data :=
  with_id (Main.classified data) (next_message_id (db st)).

(** The state once the frame's message is stored. *)
Definition stored (data : Main.envelope) (st : state) : state :=
  set_db (add_message (row_of (Main.classified data) (next_message_id (db st)))) st.

(** One turn of the receive loop once the message is stored. *)
Definition after_store (env : environment) (data : Main.envelope) (st : state)
  : state * result unit :=
  let md := forwarded data st in
  if is_abusive md then
    match handle_abusive_message env md
            (analysis_of (analyze_text (Main.env_content data))) (stored data st) with
    | (st2, Ok _) => (deliver (receiver_id md) (MessagePayload md) st2, Ok tt)
    | (st2, Raise e) => (st2, Raise e)
    end
  else (deliver (receiver_id md) (MessagePayload md) (stored data st), Ok tt).

(** The counter and the log of every pair agree. *)
Definition counters_consistent (st : state) : Prop :=
  map_Forall (fun _ p => Pair.count p = Z.of_nat (List.length (Pair.messages p)))
    (abuse_counters st).

(** The alerts among the frames sent on a wire. *)
Definition is_alert (f : socket * payload) : bool :=
  match snd f with AlertPayload _ _ => true | MessagePayload _ => false end.

Definition alerts (w : list (socket * payload)) : list (socket * payload) :=
  List.filter is_alert w.

End TrackerViews.

(* ===================================================================== *)
(** * Fixture: two users and a few environments for the examples *)
(* ===================================================================== *)

Module Fixture.

Import Runtime Files Store AbuseDetector ConnectionManager.

Definition alice : User :=
  {| user_id := 1; username := "alice"; email := "alice@test.com";
     full_name := "Alice Johnson" |}.

Definition bob : User :=
  {| user_id := 2; username := "bob"; email := "bob@test.com";
     full_name := "Bob Smith" |}.

Definition two_users : database :=
  {| users := <[1%Z := alice]> (<[2%Z := bob]> ∅);
     Store.messages := []; reports := []; blocked_users := [] |}.

(** Timestamps of the form [YYYY-MM-DDTHH:MM:SS] are read, with the five
    characters after the [T] as the clock text; anything shorter is
    rejected. *)
Definition clock (timestamp : string) : option string :=
  if (String.length timestamp <? 19)%nat then None
  else Some (String.substring 11 5 timestamp).

(** Everything works. *)
Definition fair : environment :=
  {| now_stamp := "20240101_120000"; now_iso := "2024-01-01T12:00:00";
     fromisoformat := clock; now_iso_parses := eq_refl;
     db_up := true; image_writable := true; fonts_installed := false |}.

(** The renderer cannot write its image. *)
Definition no_image : environment :=
  {| now_stamp := "20240101_120000"; now_iso := "2024-01-01T12:00:00";
     fromisoformat := clock; now_iso_parses := eq_refl;
     db_up := true; image_writable := false; fonts_installed := false |}.

(** The database refuses every statement. *)
Definition db_down : environment :=
  {| now_stamp := "20240101_120000"; now_iso := "2024-01-01T12:00:00";
     fromisoformat := clock; now_iso_parses := eq_refl;
     db_up := false; image_writable := true; fonts_installed := false |}.

(** Nobody is connected. *)
Definition offline : state := ConnectionManager.init two_users.

(** Alice is connected on socket 7. *)
Definition alice_online : state :=
  set_active_connections (fun c => <[1%Z := 7%nat]> c) offline.

(** An abusive message from Bob to Alice, stored under id [i]. *)
Definition insult (i : Z) : message_data :=
  {| sender_id := 2; receiver_id := 1; content := "you idiot";
     is_abusive := true; abuse_score := 5;
     abuse_type := Some CYBERBULLYING; id := Some i |}.

Definition insult_analysis : analysis :=
  analysis_of (analyze_text "you idiot").

(** The state after Bob's first and second insult reach the tracker with
    Alice connected. *)
Definition after_first : state :=
  fst (handle_abusive_message fair (insult 1) insult_analysis alice_online).

Definition after_second : state :=
  fst (handle_abusive_message fair (insult 2) insult_analysis after_first).

(** Frames from Bob to Alice. *)
Definition greeting : Main.envelope :=
  {| Main.env_sender_id := 2; Main.env_receiver_id := 1;
     Main.env_content := "good morning" |}.

Definition insult_frame : Main.envelope :=
  {| Main.env_sender_id := 2; Main.env_receiver_id := 1;
     Main.env_content := "you idiot" |}.

End Fixture.

(* ===================================================================== *)
(** * DetectorViews: more names for what [analyze_text] returns *)
(* ===================================================================== *)

Module DetectorViews.

Import Text AbuseDetector.

(** The [detected_keywords] and [detected_patterns] entries of the
    analysis, empty for the early "Empty text" return. *)
Definition keywords_of (text : string) : list string :=
  match analysis_of (analyze_text text) with
  | Details d => detected_keywords d
  | Reason _ => []
  end.

Definition patterns_of (text : string) : list string :=
  match analysis_of (analyze_text text) with
  | Details d => detected_patterns d
  | Reason _ => []
  end.

(** The last character of a string is not white space. *)
Fixpoint ends_solid (k : string) : bool :=
  match k with
  | EmptyString => false
  | String c EmptyString => negb (isspace c)
  | String _ k' => ends_solid k'
  end.

(** A term with no white space at either end (and at least one character):
    [strip] cannot cut into it. *)
Definition solid (k : string) : bool :=
  match k with
  | EmptyString => false
  | String c _ => negb (isspace c) && ends_solid k
  end.

(** Every character of the text is 7-bit ASCII.  On such texts [lower],
    [strip], [isupper] and the character classes of [Text] and [Regex] are
    those of Python's [str] and [re]. *)
Fixpoint ascii_only (text : string) : bool :=
  match text with
  | EmptyString => true
  | String c text' => (code c <? 128)%nat && ascii_only text'
  end.

(** A multiple of one half. *)
Definition half_integer (q : Q) : Prop := exists n : Z, (q == n # 2)%Q.

End DetectorViews.

(* ===================================================================== *)
(** * Samples: further messages for the examples *)
(* ===================================================================== *)

Module Samples.

Import Runtime AbuseDetector.

(** A threat from Bob to Alice as the receive loop classifies it, stored
    under id [i]. *)
Definition threat (i : Z) : message_data :=
  {| sender_id := 2; receiver_id := 1; content := "i will kill you";
     is_abusive := true; abuse_score := 10;
     abuse_type := Some THREAT; id := Some i |}.

(** The rows of the evidence image for one logged insult and one logged
    threat of Bob's. *)
Definition rows : list Files.screenshot_message :=
  [ {| Files.shot_sender_name := "Bob Smith"; Files.shot_content := "you idiot";
       Files.shot_created_at := "2024-01-01T12:00:00"; Files.shot_is_abusive := true;
       Files.shot_abuse_type := CYBERBULLYING; Files.shot_abuse_score := 5 |};
    {| Files.shot_sender_name := "Bob Smith"; Files.shot_content := "i will kill you";
       Files.shot_created_at := "2024-01-01T12:01:00"; Files.shot_is_abusive := true;
       Files.shot_abuse_type := CYBERBULLYING; Files.shot_abuse_score := 10 |} ].

(** A clock reading for timestamps of the form [YYYY-MM-DDTHH:MM:SS]: the
    five characters after the [T]; anything shorter does not parse. *)
Definition clock (timestamp : string) : option string :=
  if (String.length timestamp <? 19)%nat then None
  else Some (String.substring 11 5 timestamp).

End Samples.

(* ===================================================================== *)
(** * SessionViews: states compared up to the block table *)
(* ===================================================================== *)

Module SessionViews.

Import Runtime Store.

(** Two states that differ at most in the rows of [blocked_users]. *)
Definition agree_but_blocks (st1 st2 : state) : Prop :=
  active_connections st1 = active_connections st2
  /\ abuse_counters st1 = abuse_counters st2
  /\ users (db st1) = users (db st2)
  /\ messages (db st1) = messages (db st2)
  /\ reports (db st1) = reports (db st2)
  /\ fs st1 = fs st2
  /\ wire st1 = wire st2.

(** [st] with the row "[user_id] has blocked [blocked_user_id]" on file. *)
Definition blocked_by (user_id blocked_user_id : Z) (st : state) : state :=
  set_db (add_block {| blocked_user_id_of := user_id;
                       blocked_blocked_user_id := blocked_user_id;
                       blocked_reason := "manual" |}) st.

End SessionViews.

(* ===================================================================== *)
(** * PairViews: the characters of a counter key *)
(* ===================================================================== *)

Module PairViews.

(** [c in s], for a character. *)
Fixpoint mentions (c : ascii) (s : string) : bool :=
  match s with
  | EmptyString => false
  | String x s' => Ascii.eqb x c || mentions c s'
  end.

End PairViews.

(* ===================================================================== *)
(** * RowViews: what a stored message row says about its content *)
(* ===================================================================== *)

Module RowViews.

Import AbuseDetector Store.

(** The row carries the classifier's verdict on its own content, and a
    category exactly when it is flagged. *)
Definition graded (m : Message) : Prop :=
  message_is_abusive m = is_abusive_of (analyze_text (message_content m))
  /\ message_abuse_score m = score_of (analyze_text (message_content m))
  /\ (message_is_abusive m = true <-> (4 <= message_abuse_score m)%Q)
  /\ (message_abuse_type m = None <-> message_is_abusive m = false).

End RowViews.

(* ===================================================================== *)
(** * Layout: what [generate_chat_screenshot] and [_draw_message] draw *)
(* ===================================================================== *)

(** The geometry of the transcript image, in pixels.  Colours are kept as
    the source's strings; the texts are kept by what they say, not as
    rendered glyphs.  [fromisoformat] stands for
    [datetime.fromisoformat(...).strftime("%H:%M")]: the clock text of a
    timestamp, or [None] where the source raises ValueError. *)
Module Layout.

Import Text Files AbuseDetector.
#[local] Open Scope Z_scope.

Definition width : Z := 800.
Definition message_height : Z := 80.
Definition padding : Z := 20.
Definition header_height : Z := 60.
Definition bubble_width : Z := 500.

(** [total_height] *)
Definition total_height (messages : list screenshot_message) : Z :=
  header_height + Z.of_nat (List.length messages) * (message_height + 10) + padding * 2.

Inductive caption : Type :=
  | Warning                                   (* "ABUSIVE CONTENT DETECTED" *)
  | AbuseInfo (abuse_type : category) (abuse_score : Q)
  | Content (text : string)
  | Clock (time_str : string).

Record label : Type := {
  label_x : Z;
  label_y : Z;
  label_caption : caption;
  label_fill : string
}.

(** One [rounded_rectangle] with the texts drawn on it. *)
Record bubble : Type := {
  bubble_left : Z;
  bubble_top : Z;
  bubble_right : Z;
  bubble_bottom : Z;
  bubble_fill : string;
  bubble_outline : string;
  bubble_outline_width : Z;
  bubble_labels : list label
}.

(** [content[:60] + "..."] for a content of more than 60 characters. *)
Definition shown (content : string) : string :=
  if (60 <? String.length content)%nat then take 60 content +:+ "..." else content.

Definition _draw_message (fromisoformat : string -> option string)
    (message : screenshot_message) (y_offset : Z) (current_sender : string)
  : option (bubble * Z) :=
  let is_sender := String.eqb (shot_sender_name message) current_sender in
  let is_abusive := shot_is_abusive message in
  let bubble_height := message_height in
  let bubble_x := if is_sender then width - bubble_width - padding else padding in
  let bubble_color :=
    if is_sender then (if is_abusive then "#ffebee" else "#e3f2fd")
    else (if is_abusive then "#ffebee" else "#f5f5f5") in
  let text_color :=
    if is_sender then (if is_abusive then "#d32f2f" else "#1976d2")
    else (if is_abusive then "#d32f2f" else "#424242") in
  let warning_y := y_offset + 5 in
  let warning :=
    if is_abusive then
      [ {| label_x := bubble_x + 10; label_y := warning_y;
           label_caption := Warning; label_fill := "#d32f2f" |};
        {| label_x := bubble_x + 10; label_y := warning_y + 15;
           label_caption := AbuseInfo (shot_abuse_type message) (shot_abuse_score message);
           label_fill := "#d32f2f" |} ]
    else [] in
  let content_y := if is_abusive then warning_y + 35 else y_offset + 10 in
  let content := shown (shot_content message) in
  match fromisoformat (shot_created_at message) with
  | None => None
  | Some time_str =>
      Some ({| bubble_left := bubble_x; bubble_top := y_offset;
               bubble_right := bubble_x + bubble_width;
               bubble_bottom := y_offset + bubble_height;
               bubble_fill := bubble_color;
               bubble_outline := if is_abusive then "#d32f2f" else "#e0e0e0";
               bubble_outline_width := if is_abusive then 2 else 1;
               bubble_labels :=
                 warning
                 ++ [ {| label_x := bubble_x + 10; label_y := content_y;
                         label_caption := Content content; label_fill := text_color |};
                      {| label_x := bubble_x + bubble_width - 50;
                         label_y := y_offset + bubble_height - 20;
                         label_caption := Clock time_str; label_fill := "#757575" |} ] |},
            y_offset + bubble_height + 10)
  end.

(** The loop [for message in messages: y_offset = self._draw_message(...)]:
    the bubbles drawn, top to bottom, and the final [y_offset]. *)
Fixpoint draw_messages (fromisoformat : string -> option string)
    (messages : list screenshot_message) (y_offset : Z) (sender_name : string)
  : option (list bubble * Z) :=
  match messages with
  | [] => Some ([], y_offset)
  | message :: rest =>
      match _draw_message fromisoformat message y_offset sender_name with
      | None => None
      | Some (b, y_offset') =>
          match draw_messages fromisoformat rest y_offset' sender_name with
          | None => None
          | Some (bs, y_end) => Some (b :: bs, y_end)
          end
      end
  end.

(** The canvas of [generate_chat_screenshot] and what is drawn below the
    header. *)
Definition generate_chat_screenshot (fromisoformat : string -> option string)
    (messages : list screenshot_message) (sender_name receiver_name : string)
  : option (Z * Z * list bubble) :=
  match draw_messages fromisoformat messages (header_height + padding) sender_name with
  | None => None
  | Some (bubbles, _) => Some (width, total_height messages, bubbles)
  end.

(** The label's anchor lies on the bubble. *)
Definition anchored (b : bubble) (l : label) : Prop :=
  bubble_left b <= label_x l <= bubble_right b
  /\ bubble_top b <= label_y l <= bubble_bottom b.

(** The bubbles are stacked: each starts 10 pixels below the one before. *)
Fixpoint stacked (y : Z) (bubbles : list bubble) : Prop :=
  match bubbles with
  | [] => True
  | b :: rest => bubble_top b = y /\ stacked (bubble_bottom b + 10) rest
  end.

(** What one bubble looks like, wherever it is drawn. *)
Definition well_placed (y : Z) (b : bubble) : Prop :=
  bubble_top b = y
  /\ bubble_bottom b = y + message_height
  /\ padding <= bubble_left b
  /\ bubble_right b = bubble_left b + bubble_width
  /\ bubble_right b <= width - padding
  /\ Forall (anchored b) (bubble_labels b)
  /\ Forall (fun l => match label_caption l with
                      | Content text => (String.length text <= 63)%nat
                      | _ => True
                      end) (bubble_labels b).

End Layout.

(* ===================================================================== *)
(** * KeywordFallback: [_analyze_with_keywords] of [app/ai/abuse_detector.py] *)
(* ===================================================================== *)

(** The detector of the REST routes falls back on this scorer when no
    language-model client is configured or the client fails.  Its score is
    an integer on a scale of 0 to 100. *)
Module KeywordFallback.

Import Text.

Definition abusive_keywords : list string :=
  [ "idiot"; "stupid"; "dumb"; "moron"; "loser";
    "bitch"; "slut"; "whore"; "cunt"; "pussy";
    "kill yourself"; "kys"; "die"; "hate you";
    "ugly"; "fat"; "worthless"; "pathetic"; "useless";
    "retard"; "retarded"; "fuck you"; "fucking"; "asshole" ].

(** The [analysis] dict. *)
Record analysis : Type := {
  analysis_is_abusive : bool;
  analysis_abuse_score : Z;
  categories : list string;
  explanation : string;
  matched_keywords : list string
}.

(** [[keyword for keyword in self.abusive_keywords if keyword in text_lower]] *)
Definition matches_of (text : string) : list string :=
  let text_lower := lower text in
  List.filter (fun keyword => contains keyword text_lower) abusive_keywords.

Definition _analyze_with_keywords (text : string) : bool * Z * analysis :=
  let matches := matches_of text in
  let match_count := Z.of_nat (List.length matches) in
  let abuse_score :=
    if (match_count =? 0)%Z then 0%Z else Z.min 100 (match_count * 25) in
  let is_abusive := (25 <=? abuse_score)%Z in
  (is_abusive, abuse_score,
   {| analysis_is_abusive := is_abusive;
      analysis_abuse_score := abuse_score;
      categories := if is_abusive then ["keyword_detected"] else [];
      explanation :=
        if is_abusive
        then "Detected " +:+ pretty match_count +:+ " abusive keywords"
        else "No abusive content detected";
      matched_keywords := if is_abusive then matches else [] |}).

Definition is_abusive_of (r : bool * Z * analysis) : bool := fst (fst r).
Definition score_of (r : bool * Z * analysis) : Z := snd (fst r).
Definition analysis_of (r : bool * Z * analysis) : analysis := snd r.

End KeywordFallback.

(* ===================================================================== *)
(** * Facts about texts *)
(* ===================================================================== *)

Section TextFacts.
Import Text.

Lemma append_cons (c : ascii) (a b : string) :
  String c a +:+ b = String c (a +:+ b).
Proof. reflexivity. Qed.

Lemma append_nil (b : string) : "" +:+ b = b.
Proof. reflexivity. Qed.

Lemma append_assoc (a b c : string) : (a +:+ b) +:+ c = a +:+ b +:+ c.
Proof.
  induction a as [|x a IH]; [reflexivity|].
  rewrite !append_cons. now rewrite IH.
Qed.

Lemma append_empty (a : string) : a +:+ "" = a.
Proof.
  induction a as [|x a IH]; [reflexivity|].
  rewrite append_cons. now rewrite IH.
Qed.

Lemma startswith_app (w b : string) : startswith w (w +:+ b) = true.
Proof.
  induction w as [|c w IH]; [reflexivity|].
  rewrite append_cons. simpl. rewrite Ascii.eqb_refl. exact IH.
Qed.

Lemma startswith_contains (w s : string) :
  startswith w s = true -> contains w s = true.
Proof. intros H. destruct s; simpl; rewrite H; reflexivity. Qed.

Lemma contains_app (a w b : string) : contains w (a +:+ w +:+ b) = true.
Proof.
  induction a as [|c a IH].
  - apply startswith_contains. exact (startswith_app w b).
  - rewrite append_cons. simpl. rewrite IH. apply orb_true_r.
Qed.

Lemma startswith_split (w s : string) :
  startswith w s = true -> exists b, s = w +:+ b.
Proof.
  revert s. induction w as [|c w IH]; intros s H.
  - exists s. reflexivity.
  - destruct s as [|d s]; [discriminate|]. simpl in H.
    apply andb_true_iff in H as [Hc Hw].
    apply Ascii.eqb_eq in Hc. subst d.
    destruct (IH _ Hw) as [b ->]. exists b. reflexivity.
Qed.

Lemma contains_split (w s : string) :
  contains w s = true -> exists a b, s = a +:+ w +:+ b.
Proof.
  induction s as [|c s IH]; simpl; intros H.
  - rewrite orb_false_r in H. destruct (startswith_split _ _ H) as [b Hb].
    exists "", b. exact Hb.
  - apply orb_true_iff in H as [H|H].
    + destruct (startswith_split _ _ H) as [b Hb]. exists "", b. exact Hb.
    + destruct (IH H) as (a & b & ->). exists (String c a), b. reflexivity.
Qed.

(** Occurrence is transitive: a part of a part is a part. *)
Lemma contains_trans (w k s : string) :
  contains w k = true -> contains k s = true -> contains w s = true.
Proof.
  intros Hw Hk.
  destruct (contains_split _ _ Hw) as (a & b & ->).
  destruct (contains_split _ _ Hk) as (a' & b' & ->).
  replace (a' +:+ (a +:+ w +:+ b) +:+ b') with ((a' +:+ a) +:+ w +:+ (b +:+ b')).
  - apply contains_app.
  - rewrite !append_assoc. reflexivity.
Qed.

Lemma contains_refl (w : string) : contains w w = true.
Proof.
  apply startswith_contains.
  rewrite <- (append_empty w) at 2. apply startswith_app.
Qed.

Lemma lower_app (a b : string) : lower (a +:+ b) = lower a +:+ lower b.
Proof.
  induction a as [|c a IH]; [reflexivity|].
  rewrite append_cons. simpl. rewrite append_cons. now rewrite IH.
Qed.

Lemma contains_lower (w s : string) :
  contains w s = true -> contains (lower w) (lower s) = true.
Proof.
  intros H. destruct (contains_split _ _ H) as (a & b & ->).
  rewrite !lower_app. apply contains_app.
Qed.

(** A member of the joined list occurs in the joined text. *)
Lemma contains_join (sep k : string) (l : list string) :
  In k l -> contains k (join sep l) = true.
Proof.
  induction l as [|x l IH]; intros Hin; [destruct Hin|].
  destruct Hin as [->|Hin].
  - destruct l as [|y l]; simpl.
    + apply contains_refl.
    + apply (contains_app "" k).
  - specialize (IH Hin). destruct l as [|y l]; [destruct Hin|].
    change (join sep (x :: y :: l)) with (x +:+ sep +:+ join sep (y :: l)).
    destruct (contains_split _ _ IH) as (a & b & E). rewrite E.
    replace (x +:+ sep +:+ a +:+ k +:+ b) with ((x +:+ sep +:+ a) +:+ k +:+ b).
    + apply contains_app.
    + rewrite !append_assoc. reflexivity.
Qed.

End TextFacts.

(* ===================================================================== *)
(** * Scores *)
(* ===================================================================== *)

Section ScoreFacts.
Import Text AbuseDetector Views.
#[local] Open Scope Q_scope.

Lemma fold_left_invariant {A B : Type} (P : A -> Prop) (f : A -> B -> A)
    (l : list B) (a : A) :
  P a -> (forall x b, P x -> P (f x b)) -> P (fold_left f l a).
Proof.
  intros Ha Hf. revert a Ha.
  induction l as [|b l IH]; intros a Ha; simpl; [exact Ha|].
  apply IH, Hf, Ha.
Qed.

Lemma Qmax_nonneg (a b : Q) : 0 <= a -> 0 <= Qmax a b.
Proof. intros H. eapply Qle_trans; [exact H | apply Q.le_max_l]. Qed.

Lemma keyword_loop_nonneg (t : string) (acc : Q * list string) :
  0 <= fst acc -> 0 <= fst (keyword_loop t acc).
Proof.
  intros H. unfold keyword_loop.
  apply (fold_left_invariant (fun x => 0 <= fst x)); [exact H|].
  intros x b Hx. unfold keyword_step.
  destruct (contains (fst b) t); simpl; [apply Qmax_nonneg|]; exact Hx.
Qed.

Lemma phrase_loop_nonneg (t : string) (acc : Q * list string) :
  0 <= fst acc -> 0 <= fst (phrase_loop t acc).
Proof.
  intros H. unfold phrase_loop.
  apply (fold_left_invariant (fun x => 0 <= fst x)); [exact H|].
  intros x b Hx. unfold phrase_step.
  destruct (contains b t); simpl; [apply Qmax_nonneg|]; exact Hx.
Qed.

Lemma pattern_loop_nonneg (t : string) (acc : Q * list string) :
  0 <= fst acc -> 0 <= fst (pattern_loop t acc).
Proof.
  intros H. unfold pattern_loop.
  apply (fold_left_invariant (fun x => 0 <= fst x)); [exact H|].
  intros x b Hx. unfold pattern_step.
  destruct (Regex.findall b t); simpl; [|apply Qmax_nonneg]; exact Hx.
Qed.

Lemma keyword_phase_nonneg (t : string) : 0 <= fst (keyword_phase t).
Proof.
  unfold keyword_phase. apply phrase_loop_nonneg, keyword_loop_nonneg.
  simpl. lra.
Qed.

Lemma pattern_phase_nonneg (t : string) : 0 <= fst (pattern_phase t).
Proof.
  unfold pattern_phase.
  generalize (keyword_phase_nonneg t). generalize (keyword_phase t).
  intros [q d] H. apply pattern_loop_nonneg. exact H.
Qed.

Lemma style_adjust_ge (text : string) (s : Q) : s <= style_adjust text s.
Proof.
  unfold style_adjust.
  destruct (shouting text), (aggressive_punctuation text); lra.
Qed.


Lemma analyze_text_score (text : string) :
  is_empty_text text = false ->
  score_of (analyze_text text) = final_score text
  /\ is_abusive_of (analyze_text text) = Qle_bool 4 (final_score text).
Proof.
  intros H. unfold analyze_text, final_score. rewrite H.
  destruct (pattern_phase (strip (lower text))) as [s pats].
  split; reflexivity.
Qed.

Lemma final_score_range (text : string) :
  0 <= final_score text /\ final_score text <= 10.
Proof.
  unfold final_score. split.
  - apply Q.min_glb; [|lra].
    pose proof (pattern_phase_nonneg (strip (lower text))) as Hb.
    destruct (0 <? String.length (strip (lower text)))%nat; [|exact Hb].
    eapply Qle_trans; [exact Hb | apply style_adjust_ge].
  - apply Q.le_min_r.
Qed.

End ScoreFacts.

(** C1.  For every text, the score [analyze_text] returns lies in [0, 10],
    and the returned flag is true exactly when that score is at least 4. *)
Theorem analyze_text_score_in_range_and_threshold (text : string) :
  (0 <= AbuseDetector.score_of (AbuseDetector.analyze_text text))%Q
  /\ (AbuseDetector.score_of (AbuseDetector.analyze_text text) <= 10)%Q
  /\ (AbuseDetector.is_abusive_of (AbuseDetector.analyze_text text) = true
      <-> (4 <= AbuseDetector.score_of (AbuseDetector.analyze_text text))%Q).
Proof.
  destruct (AbuseDetector.is_empty_text text) eqn:E.
  - unfold AbuseDetector.analyze_text. rewrite E.
    unfold AbuseDetector.score_of, AbuseDetector.is_abusive_of. simpl.
    repeat split; try lra; try discriminate; intros; lra.
  - destruct (analyze_text_score text E) as [-> ->].
    destruct (final_score_range text) as [H0 H10].
    repeat split; try assumption; apply Qle_bool_iff.
Qed.

(* ===================================================================== *)
(** * The running score as a maximum *)
(* ===================================================================== *)


Section MaximumFacts.
Import Text AbuseDetector Views.
#[local] Open Scope Q_scope.

Lemma maximum_nonneg (l : list Q) : 0 <= maximum l.
Proof.
  induction l as [|w l IH]; simpl; [lra|].
  eapply Qle_trans; [exact IH | apply Q.le_max_r].
Qed.

Lemma maximum_ge (l : list Q) (w : Q) : In w l -> w <= maximum l.
Proof.
  induction l as [|x l IH]; intros Hin; [destruct Hin|]. simpl.
  destruct Hin as [->|Hin].
  - apply Q.le_max_l.
  - eapply Qle_trans; [apply IH, Hin | apply Q.le_max_r].
Qed.

Lemma maximum_le (l : list Q) (w : Q) :
  0 <= w -> (forall x, In x l -> x <= w) -> maximum l <= w.
Proof.
  intros Hw. induction l as [|x l IH]; intros Hall; simpl; [exact Hw|].
  apply Q.max_lub.
  - apply Hall. left. reflexivity.
  - apply IH. intros y Hy. apply Hall. right. exact Hy.
Qed.

(** A left fold of [max] from a non-negative start is the maximum of the
    start and the list. *)
Lemma fold_left_max (l : list Q) (a : Q) :
  0 <= a -> fold_left Qmax l a == Qmax a (maximum l).
Proof.
  revert a. induction l as [|w l IH]; intros a Ha; simpl.
  - symmetry. apply Q.max_l. exact Ha.
  - rewrite IH by (apply Qmax_nonneg; exact Ha).
    symmetry. apply Q.max_assoc.
Qed.

Lemma keyword_loop_fst (t : string) (l : list (string * Q)) (acc : Q * list string) :
  fst (fold_left (keyword_step t) l acc)
  = fold_left Qmax (map snd (List.filter (fun e => contains (fst e) t) l)) (fst acc).
Proof.
  revert acc. induction l as [|e l IH]; intros acc; simpl; [reflexivity|].
  rewrite IH. unfold keyword_step at 1.
  destruct (contains (fst e) t); reflexivity.
Qed.

Lemma keyword_loop_snd (t : string) (l : list (string * Q)) (acc : Q * list string) :
  snd (fold_left (keyword_step t) l acc)
  = snd acc ++ map fst (List.filter (fun e => contains (fst e) t) l).
Proof.
  revert acc. induction l as [|e l IH]; intros acc; simpl.
  - symmetry. apply app_nil_r.
  - rewrite IH. unfold keyword_step at 1.
    destruct (contains (fst e) t); simpl; [|reflexivity].
    rewrite <- app_assoc. reflexivity.
Qed.

Lemma phrase_loop_fst (t : string) (l : list string) (acc : Q * list string) :
  fst (fold_left (phrase_step t) l acc)
  = fold_left Qmax
      (map (fun _ => phrase_score) (List.filter (fun p => contains p t) l)) (fst acc).
Proof.
  revert acc. induction l as [|e l IH]; intros acc; simpl; [reflexivity|].
  rewrite IH. unfold phrase_step at 1.
  destruct (contains e t); reflexivity.
Qed.

Lemma phrase_loop_snd (t : string) (l : list string) (acc : Q * list string) :
  snd (fold_left (phrase_step t) l acc)
  = snd acc ++ List.filter (fun p => contains p t) l.
Proof.
  revert acc. induction l as [|e l IH]; intros acc; simpl.
  - symmetry. apply app_nil_r.
  - rewrite IH. unfold phrase_step at 1.
    destruct (contains e t); simpl; [|reflexivity].
    rewrite <- app_assoc. reflexivity.
Qed.

Lemma pattern_loop_fst (t : string) (l : list Regex.pattern) (acc : Q * list string) :
  fst (fold_left (pattern_step t) l acc)
  = fold_left Qmax
      (map (fun _ => pattern_score) (List.filter (pattern_hit t) l)) (fst acc).
Proof.
  revert acc. induction l as [|e l IH]; intros acc; simpl; [reflexivity|].
  rewrite IH. unfold pattern_step at 1, pattern_hit at 2.
  destruct (Regex.findall e t); reflexivity.
Qed.

(** The score after the keyword and the phrase loop, as one fold. *)
Lemma keyword_phase_fold (t : string) :
  fst (keyword_phase t) = fold_left Qmax (matched_weights t) 0.
Proof.
  unfold keyword_phase, phrase_loop, keyword_loop, matched_weights.
  rewrite phrase_loop_fst, keyword_loop_fst, fold_left_app. reflexivity.
Qed.

Lemma keyword_phase_detected (t : string) :
  snd (keyword_phase t) = map fst (keyword_matches t) ++ phrase_matches t.
Proof.
  unfold keyword_phase, phrase_loop, keyword_loop.
  rewrite phrase_loop_snd, keyword_loop_snd. reflexivity.
Qed.

Lemma keyword_phase_maximum (t : string) :
  fst (keyword_phase t) == maximum (matched_weights t).
Proof.
  rewrite keyword_phase_fold, fold_left_max by lra.
  apply Q.max_r, maximum_nonneg.
Qed.

Lemma pattern_phase_fold (t : string) :
  fst (pattern_phase t)
  = fold_left Qmax
      (map (fun _ => pattern_score) (List.filter (pattern_hit t) abusive_patterns))
      (fst (keyword_phase t)).
Proof.
  unfold pattern_phase, pattern_loop. generalize (keyword_phase t).
  intros [q d]. rewrite pattern_loop_fst. reflexivity.
Qed.

Lemma maximum_const {A : Type} (c : Q) (l : list A) :
  0 <= c ->
  maximum (map (fun _ => c) l) == match l with [] => 0 | _ => c end.
Proof.
  intros Hc. induction l as [|x l IH]; simpl; [reflexivity|].
  rewrite IH. destruct l; [apply Q.max_l; exact Hc | apply Q.max_l; lra].
Qed.

Lemma existsb_filter {A : Type} (f : A -> bool) (l : list A) :
  existsb f l = match List.filter f l with [] => false | _ => true end.
Proof.
  induction l as [|x l IH]; simpl; [reflexivity|].
  destruct (f x); simpl; [reflexivity | exact IH].
Qed.

(** The pattern loop leaves the score alone or raises it to at least the
    pattern score. *)
Lemma pattern_phase_max (t : string) :
  fst (pattern_phase t)
  == if pattern_matches t
     then Qmax (fst (keyword_phase t)) pattern_score
     else fst (keyword_phase t).
Proof.
  rewrite pattern_phase_fold, fold_left_max by apply keyword_phase_nonneg.
  rewrite maximum_const by (unfold pattern_score; lra).
  unfold pattern_matches. rewrite existsb_filter.
  destruct (List.filter (pattern_hit t) abusive_patterns); [|reflexivity].
  apply Q.max_l, keyword_phase_nonneg.
Qed.

End MaximumFacts.

Section BlankFacts.
Import Text AbuseDetector Views.

Lemma truthy_rstrip (s : string) : truthy (rstrip s) = nonblank s.
Proof.
  induction s as [|c s IH]; [reflexivity|]. simpl.
  destruct (rstrip s); simpl in *; rewrite <- IH.
  - destruct (isspace c); reflexivity.
  - apply eq_sym, orb_true_r.
Qed.

Lemma nonblank_lstrip (s : string) : nonblank (lstrip s) = nonblank s.
Proof.
  induction s as [|c s IH]; [reflexivity|]. simpl.
  destruct (isspace c) eqn:E; simpl; [exact IH | rewrite E; reflexivity].
Qed.

Lemma truthy_strip (s : string) : truthy (strip s) = nonblank s.
Proof. unfold strip. rewrite truthy_rstrip. apply nonblank_lstrip. Qed.

Lemma isspace_lower_char (c : ascii) : isspace (lower_char c) = isspace c.
Proof. destruct c as [[] [] [] [] [] [] [] []]; reflexivity. Qed.

Lemma nonblank_lower (s : string) : nonblank (lower s) = nonblank s.
Proof.
  induction s as [|c s IH]; [reflexivity|]. simpl.
  rewrite isspace_lower_char, IH. reflexivity.
Qed.

(** A text that passes the guard of [analyze_text] is still non-empty once
    lower-cased and stripped. *)
Lemma text_lower_nonempty (text : string) :
  is_empty_text text = false ->
  (0 <? String.length (strip (lower text)))%nat = true.
Proof.
  unfold is_empty_text. intros H.
  apply orb_false_iff in H as [_ H]. apply negb_false_iff in H.
  rewrite truthy_strip in H.
  rewrite <- nonblank_lower, <- truthy_strip in H.
  destruct (strip (lower text)); [discriminate | reflexivity].
Qed.

End BlankFacts.

Section KeywordTable.
Import AbuseDetector.
#[local] Open Scope Q_scope.

Lemma abusive_keywords_positive (k : string) (w : Q) :
  In (k, w) abusive_keywords -> 0 <= w.
Proof.
  unfold abusive_keywords. simpl.
  intros H. repeat (destruct H as [H|H]; [inversion H; subst; lra|]).
  destruct H.
Qed.

End KeywordTable.

(** C6.  For a text that passes the emptiness guard, with [t] its
    lower-cased, stripped form:
    - the score after the keyword and phrase loops is the maximum of the
      weights of all matched keywords and phrases;
    - the pattern loop never lowers it, and any pattern match lifts it to at
      least 7;
    - the returned score is that base score plus the stylistic adjustments,
      capped at 10; with nothing matched and neither adjustment it is 0;
    - a matched keyword whose weight is not exceeded by any other match is
      alone the base score. *)
Theorem running_score_is_maximum_of_matches (text t : string) :
  AbuseDetector.is_empty_text text = false ->
  t = Text.strip (Text.lower text) ->
  (fst (AbuseDetector.keyword_phase t) == Views.maximum (Views.matched_weights t))%Q
  /\ (fst (AbuseDetector.keyword_phase t) <= fst (AbuseDetector.pattern_phase t))%Q
  /\ (Views.pattern_matches t = true -> (7 <= fst (AbuseDetector.pattern_phase t))%Q)
  /\ (AbuseDetector.score_of (AbuseDetector.analyze_text text)
      == Qmin (AbuseDetector.style_adjust text (fst (AbuseDetector.pattern_phase t))) 10)%Q
  /\ (Views.matched_weights t = [] ->
      Views.pattern_matches t = false ->
      AbuseDetector.shouting text = false ->
      AbuseDetector.aggressive_punctuation text = false ->
      (AbuseDetector.score_of (AbuseDetector.analyze_text text) == 0)%Q)
  /\ (forall k w,
        In (k, w) AbuseDetector.abusive_keywords ->
        Text.contains k t = true ->
        (forall w', In w' (Views.matched_weights t) -> (w' <= w)%Q) ->
        (Views.pattern_matches t = true -> (7 <= w)%Q) ->
        (fst (AbuseDetector.pattern_phase t) == w)%Q).
Proof.
  intros Hguard ->.
  set (t := Text.strip (Text.lower text)).
  pose proof (keyword_phase_maximum t) as Hkw.
  pose proof (pattern_phase_max t) as Hpat.
  assert (Hscore :
    AbuseDetector.score_of (AbuseDetector.analyze_text text)
    = Qmin (AbuseDetector.style_adjust text (fst (AbuseDetector.pattern_phase t))) 10).
  { destruct (analyze_text_score text Hguard) as [-> _].
    unfold Views.final_score. rewrite (text_lower_nonempty text Hguard).
    reflexivity. }
  split; [exact Hkw|].
  split.
  { rewrite Hpat. destruct (Views.pattern_matches t); [apply Q.le_max_l | lra]. }
  split.
  { intros Hm. rewrite Hpat, Hm. apply Q.le_max_r. }
  split; [rewrite Hscore; reflexivity|].
  split.
  { intros Hnone Hnopat Hcaps Hpunct. rewrite Hscore.
    unfold AbuseDetector.style_adjust. rewrite Hcaps, Hpunct.
    rewrite Hpat, Hnopat, Hkw, Hnone. reflexivity. }
  intros k w Hin Hk Hall Hseven.
  assert (Hw : (0 <= w)%Q) by exact (abusive_keywords_positive k w Hin).
  assert (Hmem : In w (Views.matched_weights t)).
  { unfold Views.matched_weights, Views.keyword_matches.
    apply in_or_app. left. apply in_map_iff. exists (k, w). split; [reflexivity|].
    apply filter_In. split; [exact Hin | exact Hk]. }
  assert (Hmax : (Views.maximum (Views.matched_weights t) == w)%Q).
  { apply Qle_antisym; [apply maximum_le; assumption | apply maximum_ge; exact Hmem]. }
  rewrite Hpat.
  destruct (Views.pattern_matches t); rewrite Hkw, Hmax; [|reflexivity].
  apply Q.max_l. apply Hseven. reflexivity.
Qed.

(** The text "you idiot" passes the guard; "idiot" (5.0) is its only match. *)
Lemma running_score_is_maximum_of_matches_witness :
  (fst (AbuseDetector.keyword_phase "you idiot") == 5)%Q
  /\ (fst (AbuseDetector.pattern_phase "you idiot") == 5)%Q.
Proof.
  pose proof (running_score_is_maximum_of_matches "You idiot" "you idiot"
                eq_refl eq_refl) as (H1 & _ & _ & _ & _ & H6).
  split.
  - rewrite H1. reflexivity.
  - apply (H6 "idiot" 5%Q).
    + unfold AbuseDetector.abusive_keywords. simpl. tauto.
    + reflexivity.
    + vm_compute. intros w' [<-|[]]. discriminate.
    + vm_compute. discriminate.
Defined.

(* ===================================================================== *)
(** * Category classification *)
(* ===================================================================== *)

Section CategoryFacts.
Import Text AbuseDetector Views.

Lemma classify_first_overlap (keywords patterns : list string) :
  _classify_abuse_type keywords patterns
  = first_overlap (lower (join " " keywords)) patterns.
Proof.
  unfold _classify_abuse_type, first_overlap, category_priority, overlaps.
  fold (violent_pattern patterns).
  cbn [find fst snd category_eqb andb].
  rewrite !orb_false_r.
  destruct (any_word_in threat_words _ || violent_pattern patterns); [reflexivity|].
  destruct (any_word_in mental_harassment_words _); [reflexivity|].
  destruct (any_word_in blackmail_words _); [reflexivity|].
  destruct (any_word_in exploitation_words _); [reflexivity|].
  destruct (any_word_in sexual_harassment_words _); [reflexivity|].
  destruct (any_word_in cyberbullying_words _); reflexivity.
Qed.

Lemma threat_words_lower (w : string) : In w threat_words -> lower w = w.
Proof.
  unfold threat_words. simpl. intros H.
  repeat (destruct H as [<-|H]; [reflexivity|]). destruct H.
Qed.

(** A detectable term that occurs in the text is among the detected
    keywords. *)
Lemma detected_of_detectable (t kw : string) :
  In kw detectable -> contains kw t = true -> In kw (snd (keyword_phase t)).
Proof.
  unfold detectable. intros Hin Hc.
  rewrite keyword_phase_detected.
  apply in_app_or in Hin as [Hin|Hin]; apply in_or_app; [left|right].
  - apply in_map_iff in Hin as ([k w] & <- & Hin).
    apply in_map_iff. exists (k, w). split; [reflexivity|].
    apply filter_In. split; [exact Hin | exact Hc].
  - apply filter_In. split; [exact Hin | exact Hc].
Qed.

Lemma threat_in_keywords (keywords patterns : list string) (kw w : string) :
  In kw keywords -> In w threat_words -> contains w kw = true ->
  _classify_abuse_type keywords patterns = THREAT.
Proof.
  intros Hkw Hw Hc. unfold _classify_abuse_type.
  assert (H : any_word_in threat_words (lower (join " " keywords)) = true).
  { unfold any_word_in. apply existsb_exists. exists w. split; [exact Hw|].
    rewrite <- (threat_words_lower w Hw). apply contains_lower.
    apply (contains_trans w kw); [exact Hc | apply contains_join, Hkw]. }
  rewrite H. reflexivity.
Qed.

Lemma category_of_text (text : string) :
  is_empty_text text = false ->
  category_of text
  = Some (_classify_abuse_type (snd (keyword_phase (strip (lower text))))
            (snd (pattern_phase (strip (lower text))))).
Proof.
  intros H. unfold category_of, analyze_text. rewrite H.
  destruct (pattern_phase (strip (lower text))) as [s pats]. reflexivity.
Qed.

End CategoryFacts.

(** C3, as the code has it.  [_classify_abuse_type] returns the first
    category, in the order THREAT, MENTAL_HARASSMENT, BLACKMAIL,
    EXPLOITATION, SEXUAL_HARASSMENT, CYBERBULLYING, one of whose words
    occurs in the space-joined detected keywords (THREAT also when a pattern
    match contains "kill" or "hurt"), and CYBERBULLYING when no category
    applies.  Hence a text in which a detectable keyword or phrase that
    contains a THREAT word occurs is classified THREAT, whatever other terms
    it contains. *)
Theorem classification_priority_over_detected_terms :
  (forall keywords patterns,
      AbuseDetector._classify_abuse_type keywords patterns
      = Views.first_overlap (Text.lower (Text.join " " keywords)) patterns)
  /\ (forall keywords_text,
        find (Views.overlaps keywords_text []) Views.category_priority = None ->
        Views.first_overlap keywords_text [] = AbuseDetector.CYBERBULLYING)
  /\ (forall text kw w,
        AbuseDetector.is_empty_text text = false ->
        In kw Views.detectable ->
        Text.contains kw (Text.strip (Text.lower text)) = true ->
        In w AbuseDetector.threat_words ->
        Text.contains w kw = true ->
        Views.category_of text = Some AbuseDetector.THREAT).
Proof.
  split; [exact classify_first_overlap|].
  split.
  - intros kt H. unfold Views.first_overlap. rewrite H. reflexivity.
  - intros text kw w Hguard Hkw Hc Hw Hwk.
    rewrite (category_of_text text Hguard). f_equal.
    apply (threat_in_keywords _ _ kw w); [|exact Hw|exact Hwk].
    apply detected_of_detectable; assumption.
Qed.

(** "You stupid loser, I will find you" holds two CYBERBULLYING terms and
    the detectable phrase "i will find you", which contains the THREAT word
    "find you". *)
Lemma classification_priority_over_detected_terms_witness :
  Views.category_of "You stupid loser, I will find you" = Some AbuseDetector.THREAT.
Proof.
  apply (proj2 (proj2 classification_priority_over_detected_terms)
           "You stupid loser, I will find you" "i will find you" "find you").
  - reflexivity.
  - unfold Views.detectable. simpl. tauto.
  - reflexivity.
  - unfold AbuseDetector.threat_words. simpl. tauto.
  - reflexivity.
Defined.

(** C3 as stated fails.  "stupid revenge" contains the CYBERBULLYING term
    "stupid" and the THREAT term "revenge", yet it is classified
    CYBERBULLYING: "revenge" is on no list the loops scan, so it never
    reaches [detected_keywords].  Nor are the six lists disjoint:
    "worthless" is a CYBERBULLYING and a MENTAL_HARASSMENT word. *)
Lemma classification_misses_undetected_threat_term :
  In "stupid" AbuseDetector.cyberbullying_words
  /\ Text.contains "stupid" (Text.strip (Text.lower "stupid revenge")) = true
  /\ In "revenge" AbuseDetector.threat_words
  /\ Text.contains "revenge" (Text.strip (Text.lower "stupid revenge")) = true
  /\ AbuseDetector.is_abusive_of (AbuseDetector.analyze_text "stupid revenge") = true
  /\ Views.category_of "stupid revenge" = Some AbuseDetector.CYBERBULLYING
  /\ Views.category_of "stupid revenge" <> Some AbuseDetector.THREAT
  /\ In "worthless" AbuseDetector.cyberbullying_words
  /\ In "worthless" AbuseDetector.mental_harassment_words.
Proof.
  unfold AbuseDetector.cyberbullying_words, AbuseDetector.threat_words,
    AbuseDetector.mental_harassment_words.
  repeat split; try reflexivity; try (simpl; tauto).
  vm_compute. discriminate.
Qed.

(* ===================================================================== *)
(** * Evidence packaging *)
(* ===================================================================== *)

Section EvidenceFacts.
Import Runtime Files Store AbuseDetector ConnectionManager TrackerViews.

Lemma read_file_snoc {A : Type} (path : string) (x : A) (files : list (string * A)) :
  read_file path (files ++ [(path, x)]) = Some x.
Proof.
  unfold read_file. rewrite rev_app_distr. simpl.
  rewrite String.eqb_refl. reflexivity.
Qed.

Lemma in_temp_snoc (name n : string) (img : image) (m : member) (l : list member) :
  n <> name ->
  existsb (fun x => String.eqb (member_name x) name)
    (List.filter (fun x => negb (String.eqb (member_name x) n))
       (l ++ [ImageFile name img]) ++ [m]) = true.
Proof.
  intros Hne. rewrite existsb_app. apply orb_true_iff. left.
  apply existsb_exists. exists (ImageFile name img). split.
  - apply filter_In. split; [apply in_or_app; right; left; reflexivity|].
    simpl. apply negb_true_iff, String.eqb_neq. congruence.
  - simpl. apply String.eqb_refl.
Qed.

Lemma readme_not_screenshot (env : environment) :
  "README.txt" <> screenshot_filename env.
Proof. unfold screenshot_filename. discriminate. Qed.

Lemma drawable_evidence_rows (env : environment) (su : User)
    (messages : list incident) :
  ScreenshotGenerator.drawable env
    (ScreenshotGenerator.evidence_rows (full_name su)
       (screenshot_messages_of env su messages))
  = readable env messages.
Proof.
  unfold ScreenshotGenerator.drawable, ScreenshotGenerator.evidence_rows,
    screenshot_messages_of, readable.
  induction messages as [|m ms IH]; [reflexivity|].
  cbn [map forallb shot_created_at]. rewrite IH. reflexivity.
Qed.

(** The entry the tracker logs is stamped with the present instant, which
    the renderer can read. *)
Lemma readable_incident_of (env : environment) (md : message_data) (i : Z) :
  readable env [incident_of env md i] = true.
Proof.
  change (readable env [incident_of env md i])
    with (parses (fromisoformat env) (now_iso env) && true).
  rewrite (now_iso_parses env). reflexivity.
Qed.

End EvidenceFacts.

(** Unfolds the renderer inside a report for at least one message. *)
Ltac open_renderer env su m ms :=
  unfold ScreenshotGenerator.generate_evidence_screenshot;
  pose proof (drawable_evidence_rows env su (m :: ms)) as Hdraw_;
  unfold ConnectionManager.screenshot_messages_of in Hdraw_ |- *;
  cbn [map] in Hdraw_ |- *;
  unfold ScreenshotGenerator.generate_chat_screenshot;
  rewrite Hdraw_; clear Hdraw_.

Section ReportFacts.
Import Runtime Files Store AbuseDetector ConnectionManager TrackerViews.

(** With the database up, both users on file, readable timestamps, a
    writable image and at least one message, the report is packaged in
    full. *)
Lemma generate_evidence_report_ok (env : environment) (s r : Z)
    (su ru : User) (messages : list incident) (st : state) :
  db_up env = true ->
  image_writable env = true ->
  readable env messages = true ->
  users (db st) !! s = Some su ->
  users (db st) !! r = Some ru ->
  messages <> [] ->
  generate_evidence_report env s r messages st
  = (set_fs (evidence_written env s r su ru messages) st, Ok (zip_path env)).
Proof.
  intros Hdb Himg Hread Hs Hr Hne.
  destruct st as [ac cnt d f w]. simpl in Hs, Hr.
  unfold generate_evidence_report, query_user, attributes, bind, get, ret.
  rewrite Hdb. cbn [db]. rewrite Hs, Hr.
  destruct messages as [|m ms]; [congruence|].
  open_renderer env su m ms. rewrite Hread, Himg.
  unfold write_temp, write_archive, rmtree_temp, bind, modify, ret, get, set_fs.
  cbn [fs screenshots archives temp active_connections abuse_counters db wire fst snd].
  rewrite read_file_snoc.
  cbn [fs screenshots archives temp active_connections abuse_counters db wire fst snd].
  unfold in_temp.
  cbn [fs screenshots archives temp active_connections abuse_counters db wire fst snd member_name].
  rewrite in_temp_snoc by apply readme_not_screenshot.
  reflexivity.
Qed.

(** Whatever happens, packaging touches nothing but the disk. *)
Lemma generate_evidence_report_frame (env : environment) (s r : Z)
    (messages : list incident) (st : state) :
  exists f',
    fst (generate_evidence_report env s r messages st) = set_fs (fun _ => f') st.
Proof.
  destruct st as [ac cnt d f w].
  unfold generate_evidence_report, query_user, attributes, bind, get, ret, raise.
  destruct (db_up env); [|eexists; reflexivity].
  cbn [db]. destruct (users d !! s) as [su|], (users d !! r) as [ru|];
    try (eexists; reflexivity).
  destruct messages as [|m ms].
  - unfold ScreenshotGenerator.generate_evidence_screenshot, screenshot_messages_of,
      write_temp, write_archive, bind, modify, ret, raise, get, set_fs.
    cbn [map fs screenshots archives temp active_connections abuse_counters db wire
         fst snd].
    eexists; reflexivity.
  - open_renderer env su m ms.
    unfold write_temp, write_archive, rmtree_temp, bind, modify, ret, raise, get, set_fs.
    destruct (readable env (m :: ms));
      cbn [fs screenshots archives temp active_connections abuse_counters db wire fst snd];
      [|eexists; reflexivity].
    destruct (image_writable env);
      cbn [fs screenshots archives temp active_connections abuse_counters db wire fst snd];
      [|eexists; reflexivity].
    rewrite read_file_snoc.
    cbn [fs screenshots archives temp active_connections abuse_counters db wire fst snd].
    eexists; reflexivity.
Qed.

(** When the renderer raises, its error leaves [generate_evidence_report]:
    no archive is written and no path returned.  The renderer raises
    ValueError when a timestamp cannot be read, and otherwise OSError when
    the image cannot be written. *)
Lemma generate_evidence_report_render_error (env : environment) (s r : Z)
    (su ru : User) (messages : list incident) (st : state) :
  db_up env = true ->
  users (db st) !! s = Some su ->
  users (db st) !! r = Some ru ->
  messages <> [] ->
  readable env messages = false \/ image_writable env = false ->
  snd (generate_evidence_report env s r messages st)
  = Raise (if readable env messages then OSError else ValueError)
  /\ archives (fs (fst (generate_evidence_report env s r messages st)))
     = archives (fs st).
Proof.
  intros Hdb Hs Hr Hne Hfail.
  destruct st as [ac cnt d f w]. simpl in Hs, Hr.
  unfold generate_evidence_report, query_user, attributes, bind, get, ret.
  rewrite Hdb. cbn [db]. rewrite Hs, Hr.
  destruct messages as [|m ms]; [congruence|].
  open_renderer env su m ms.
  destruct (readable env (m :: ms)); [|split; reflexivity].
  destruct Hfail as [Hfail|Hfail]; [discriminate|].
  rewrite Hfail. split; reflexivity.
Qed.

(** A report that returns has written exactly one archive, at the path it
    returns, and left the rest of the state alone. *)
Lemma generate_evidence_report_returns (env : environment) (s r : Z)
    (messages : list incident) (st st' : state) (path : string) :
  generate_evidence_report env s r messages st = (st', Ok path) ->
  path = zip_path env
  /\ db_up env = true
  /\ exists f' members,
       st' = set_fs (fun _ => f') st
       /\ archives f' = archives (fs st) ++ [(zip_path env, members)].
Proof.
  destruct st as [ac cnt d f w].
  unfold generate_evidence_report, query_user, attributes, bind, get, ret, raise.
  destruct (db_up env); [|discriminate].
  cbn [db]. destruct (users d !! s) as [su|], (users d !! r) as [ru|];
    try discriminate.
  destruct messages as [|m ms].
  - unfold ScreenshotGenerator.generate_evidence_screenshot, screenshot_messages_of,
      write_temp, write_archive, bind, modify, ret, raise, get, set_fs.
    cbn [map fs screenshots archives temp active_connections abuse_counters db wire
         fst snd].
    discriminate.
  - open_renderer env su m ms.
    unfold write_temp, write_archive, rmtree_temp, bind, modify, ret, raise, get, set_fs.
    destruct (readable env (m :: ms));
      cbn [fs screenshots archives temp active_connections abuse_counters db wire fst snd];
      [|discriminate].
    destruct (image_writable env);
      cbn [fs screenshots archives temp active_connections abuse_counters db wire fst snd];
      [|discriminate].
    rewrite read_file_snoc.
    cbn [fs screenshots archives temp active_connections abuse_counters db wire fst snd].
    intros H. injection H as <- <-.
    split; [reflexivity|]. split; [reflexivity|].
    eexists _, _. split; reflexivity.
Qed.

(** A report returns only if both participants are on file, every
    timestamp can be read and the image can be written. *)
Lemma generate_evidence_report_ok_inv (env : environment) (s r : Z)
    (messages : list incident) (st st' : state) (path : string) :
  generate_evidence_report env s r messages st = (st', Ok path) ->
  image_writable env = true
  /\ readable env messages = true
  /\ is_Some (users (db st) !! s)
  /\ is_Some (users (db st) !! r).
Proof.
  destruct st as [ac cnt d f w].
  unfold generate_evidence_report, query_user, attributes, bind, get, ret, raise.
  destruct (db_up env); [|discriminate].
  cbn [db]. destruct (users d !! s) as [su|], (users d !! r) as [ru|];
    try discriminate.
  destruct messages as [|m ms].
  - unfold ScreenshotGenerator.generate_evidence_screenshot, screenshot_messages_of,
      write_temp, write_archive, bind, modify, ret, raise, get, set_fs.
    cbn [map fs screenshots archives temp active_connections abuse_counters db wire
         fst snd].
    discriminate.
  - open_renderer env su m ms.
    unfold write_temp, write_archive, rmtree_temp, bind, modify, ret, raise, get, set_fs.
    destruct (readable env (m :: ms)); [|discriminate].
    destruct (image_writable env); [|discriminate].
    intros _. repeat split; eexists; reflexivity.
Qed.

End ReportFacts.

(* ===================================================================== *)
(** * The escalation tracker *)
(* ===================================================================== *)

Section TrackerFacts.
Import Runtime Files Store AbuseDetector ConnectionManager TrackerViews.

Lemma send_if_connected_run (user_id : Z) (p : payload) (st : state) :
  send_if_connected user_id p st = (deliver user_id p st, Ok tt).
Proof.
  unfold send_if_connected, deliver, bind, get.
  destruct (active_connections st !! user_id); reflexivity.
Qed.

Lemma alter_alter_lookup (f g : Pair.t -> Pair.t) (k : string) (p : Pair.t)
    (c : gmap string Pair.t) :
  c !! k = Some p -> alter f k (alter g k c) = <[k := f (g p)]> c.
Proof.
  intros H. apply map_eq. intros j.
  destruct (decide (k = j)) as [<-|Hne].
  - rewrite !lookup_alter_eq, lookup_insert_eq, H. reflexivity.
  - rewrite !lookup_alter_ne, lookup_insert_ne by exact Hne. reflexivity.
Qed.

(** The three updates that open [handle_abusive_message], as one insert. *)
Lemma record_incident_counters (env : environment) (md : message_data) (i : Z)
    (c : gmap string Pair.t) :
  alter (append_message (incident_of env md i)) (key_of md)
    (alter add_count (key_of md)
       (match c !! key_of md with
        | None => <[key_of md := fresh_pair env]> c
        | Some _ => c
        end))
  = recorded env md i c.
Proof.
  unfold recorded, pair_before.
  destruct (c !! key_of md) as [p|] eqn:E.
  - apply alter_alter_lookup, E.
  - rewrite !alter_insert_eq. reflexivity.
Qed.

Lemma bind_get {A : Type} (k : state -> M A) (st : state) :
  bind get k st = k st st.
Proof. reflexivity. Qed.

Lemma bind_modify {A : Type} (f : state -> state) (k : unit -> M A) (st : state) :
  bind (modify f) k st = k tt (f st).
Proof. reflexivity. Qed.

Lemma bind_ret {A B : Type} (a : A) (k : A -> M B) (st : state) :
  bind (ret a) k st = k a st.
Proof. reflexivity. Qed.

Lemma bind_raise {A B : Type} (e : exn) (k : A -> M B) (st : state) :
  bind (raise e) k st = (st, Raise e).
Proof. reflexivity. Qed.

Lemma bind_run {A B : Type} (m : M A) (k : A -> M B) (st : state) :
  bind m k st
  = match m st with
    | (st', Ok a) => k a st'
    | (st', Raise e) => (st', Raise e)
    end.
Proof. reflexivity. Qed.

(** Setters applied to an explicit record are computed away. *)
Ltac norm_state :=
  repeat match goal with
  | |- context [set_abuse_counters ?g (Build_state ?a ?c ?d ?f ?w)] =>
      change (set_abuse_counters g (Build_state a c d f w))
        with (Build_state a (g c) d f w)
  | |- context [set_db ?g (Build_state ?a ?c ?d ?f ?w)] =>
      change (set_db g (Build_state a c d f w)) with (Build_state a c (g d) f w)
  | |- context [set_fs ?g (Build_state ?a ?c ?d ?f ?w)] =>
      change (set_fs g (Build_state a c d f w)) with (Build_state a c d (g f) w)
  | |- context [set_wire ?g (Build_state ?a ?c ?d ?f ?w)] =>
      change (set_wire g (Build_state a c d f w)) with (Build_state a c d f (g w))
  | |- context [set_active_connections ?g (Build_state ?a ?c ?d ?f ?w)] =>
      change (set_active_connections g (Build_state a c d f w))
        with (Build_state (g a) c d f w)
  end;
  cbv beta;
  cbn [abuse_counters active_connections db fs wire].

Ltac run_step :=
  first [ rewrite bind_get | rewrite bind_modify | rewrite bind_ret
        | rewrite bind_raise ];
  cbv beta; norm_state.

Lemma counter_run (key : string) (p : Pair.t) (st : state) :
  abuse_counters st !! key = Some p -> counter key st = (st, Ok p).
Proof. intros H. unfold counter, bind, get. rewrite H. reflexivity. Qed.

Lemma handle_abusive_message_run (env : environment) (md : message_data)
    (a : analysis) (i : Z) (st : state) :
  id md = Some i ->
  handle_abusive_message env md a st = handle_outcome env md i st.
Proof.
  intros Hid.
  pose proof (record_incident_counters env md i (abuse_counters st)) as Hrec.
  unfold handle_outcome.
  pose proof (generate_evidence_report_frame env (sender_id md) (receiver_id md)
                [incident_of env md i] (set_abuse_counters (recorded env md i) st))
    as [f' Hframe].
  destruct st as [ac cnt d f w].
  unfold set_abuse_counters, set_fs in Hframe.
  cbn [abuse_counters active_connections db fs wire] in *.
  unfold handle_abusive_message, get_id. rewrite Hid.
  fold (key_of md). fold (incident_of env md i).
  run_step.
  assert (Hinit :
    forall K : unit -> M unit,
      bind (match cnt !! key_of md with
            | None => modify (set_abuse_counters
                                (fun c => <[key_of md := fresh_pair env]> c))
            | Some _ => ret tt
            end) K
        {| active_connections := ac; abuse_counters := cnt; db := d; fs := f; wire := w |}
      = K tt {| active_connections := ac;
                abuse_counters := match cnt !! key_of md with
                                  | None => <[key_of md := fresh_pair env]> cnt
                                  | Some _ => cnt
                                  end;
                db := d; fs := f; wire := w |}).
  { intros K. destruct (cnt !! key_of md); reflexivity. }
  rewrite Hinit. clear Hinit. cbv beta.
  do 3 run_step. fold (incident_of env md i). rewrite Hrec.
  rewrite bind_run, (counter_run _ _ _ (lookup_insert_eq _ _ _)).
  unfold last_message.
  cbn [Pair.messages append_message]. rewrite last_snoc. run_step.
  rewrite bind_run.
  destruct (generate_evidence_report env (sender_id md) (receiver_id md)
              [incident_of env md i]
              {| active_connections := ac; abuse_counters := recorded env md i cnt;
                 db := d; fs := f; wire := w |}) as [st2 [path|e]] eqn:G;
    [|reflexivity].
  cbn [fst] in Hframe. subst st2. norm_state.
  fold (report_of md i path).
  unfold commit at 1. destruct (db_up env) eqn:Hdb; [|reflexivity].
  run_step.
  rewrite bind_run, (counter_run _ _ _ (lookup_insert_eq _ _ _)).
  cbn [Pair.count append_message add_count].
  unfold escalated.
  destruct (Pair.count (pair_before env md cnt) + 1 =? 1)%Z.
  - apply send_if_connected_run.
  - destruct (3 <=? Pair.count (pair_before env md cnt) + 1)%Z; [|reflexivity].
    unfold commit. rewrite Hdb. run_step.
    fold (block_of md).
    rewrite bind_run, send_if_connected_run. reflexivity.
Qed.

Lemma handle_abusive_message_ok (env : environment) (md : message_data)
    (a : analysis) (i : Z) (su ru : User) (st : state) :
  id md = Some i ->
  db_up env = true ->
  image_writable env = true ->
  users (db st) !! sender_id md = Some su ->
  users (db st) !! receiver_id md = Some ru ->
  handle_abusive_message env md a st = (handled env md i su ru st, Ok tt).
Proof.
  intros Hid Hdb Himg Hs Hr.
  rewrite (handle_abusive_message_run env md a i st Hid).
  unfold handle_outcome.
  rewrite (generate_evidence_report_ok env _ _ su ru) by
    first [ assumption | apply readable_incident_of | discriminate ].
  rewrite Hdb. reflexivity.
Qed.

Lemma deliver_wire (user_id : Z) (p : payload) (st : state) :
  wire (deliver user_id p st) = wire st ++ sent_to st user_id p.
Proof.
  unfold deliver, sent_to.
  destruct (active_connections st !! user_id); simpl;
    [reflexivity | symmetry; apply app_nil_r].
Qed.

Lemma deliver_frame (user_id : Z) (p : payload) (st : state) :
  active_connections (deliver user_id p st) = active_connections st
  /\ abuse_counters (deliver user_id p st) = abuse_counters st
  /\ db (deliver user_id p st) = db st
  /\ fs (deliver user_id p st) = fs st.
Proof.
  unfold deliver. destruct (active_connections st !! user_id); repeat split.
Qed.

(** What a call that succeeds leaves, component by component. *)
Lemma handled_components (env : environment) (md : message_data) (i : Z)
    (su ru : User) (st : state) (n : Z) :
  n = (Pair.count (pair_before env md (abuse_counters st)) + 1)%Z ->
  active_connections (handled env md i su ru st) = active_connections st
  /\ users (db (handled env md i su ru st)) = users (db st)
  /\ messages (db (handled env md i su ru st)) = messages (db st)
  /\ reports (db (handled env md i su ru st))
     = reports (db st) ++ [report_of md i (zip_path env)]
  /\ archives (fs (handled env md i su ru st))
     = archives (fs st)
       ++ [(zip_path env,
            evidence_members env (sender_id md) (receiver_id md) su ru
              [incident_of env md i])]
  /\ wire (handled env md i su ru st)
     = wire st
       ++ (if (n =? 1)%Z then sent_to st (receiver_id md) warning_alert
           else if (3 <=? n)%Z then sent_to st (receiver_id md) block_alert
           else [])
  /\ blocked_users (db (handled env md i su ru st))
     = blocked_users (db st)
       ++ (if (n =? 1)%Z then [] else if (3 <=? n)%Z then [block_of md] else [])
  /\ abuse_counters (handled env md i su ru st)
     = (if (n =? 1)%Z then recorded env md i (abuse_counters st)
        else if (3 <=? n)%Z
             then <[key_of md := fresh_pair env]> (recorded env md i (abuse_counters st))
             else recorded env md i (abuse_counters st)).
Proof.
  intros ->. unfold handled, escalated.
  destruct st as [ac cnt d f w].
  cbn [abuse_counters].
  destruct (Pair.count (pair_before env md cnt) + 1 =? 1)%Z;
    [|destruct (3 <=? Pair.count (pair_before env md cnt) + 1)%Z].
  - unfold deliver, sent_to. cbn.
    destruct (ac !! receiver_id md); cbn; rewrite ?app_nil_r; repeat split.
  - unfold deliver, sent_to. cbn.
    destruct (ac !! receiver_id md); cbn; rewrite ?app_nil_r; repeat split.
  - cbn. rewrite ?app_nil_r. repeat split.
Qed.

End TrackerFacts.

Section EscalationFacts.
Import Runtime Files Store AbuseDetector ConnectionManager TrackerViews.

Lemma pair_before_lookup (env : environment) (md : message_data)
    (c : gmap string Pair.t) (p : Pair.t) :
  c !! key_of md = Some p -> pair_before env md c = p.
Proof. intros H. unfold pair_before. rewrite H. reflexivity. Qed.

Lemma pair_before_fresh (env : environment) (md : message_data) (st : state) :
  pair_is_fresh (key_of md) st ->
  Pair.count (pair_before env md (abuse_counters st)) = 0%Z
  /\ Pair.messages (pair_before env md (abuse_counters st)) = [].
Proof.
  unfold pair_is_fresh, pair_before.
  destruct (abuse_counters st !! key_of md); simpl; [tauto | split; reflexivity].
Qed.

Lemma recorded_lookup (env : environment) (md : message_data) (i : Z)
    (c : gmap string Pair.t) :
  recorded env md i c !! key_of md
  = Some (append_message (incident_of env md i) (add_count (pair_before env md c))).
Proof. unfold recorded. apply lookup_insert_eq. Qed.

End EscalationFacts.

(** C2, as the code has it.  Three abusive messages in a row from [s] to
    [r], on a pair with no incident on record, while the database and the
    evidence packaging work: all three calls return; the first sends one
    warning alert to the receiver's socket if the receiver has one (and
    nothing otherwise), the second sends nothing, the third writes one block
    row (receiver blocks sender) and sends one critical alert to the
    receiver's socket if there is one; no block row is written before the
    third, and after it the pair's counter is 0 and its log is empty. *)
Theorem three_incidents_warn_then_block
    (env1 env2 env3 : Runtime.environment)
    (md1 md2 md3 : Runtime.message_data)
    (a1 a2 a3 : AbuseDetector.analysis)
    (i1 i2 i3 s r : Z) (su ru : Store.User) (st : Runtime.state) :
  Forall (fun md => Runtime.sender_id md = s /\ Runtime.receiver_id md = r)
    [md1; md2; md3] ->
  Runtime.id md1 = Some i1 -> Runtime.id md2 = Some i2 -> Runtime.id md3 = Some i3 ->
  Forall (fun env => Runtime.db_up env = true /\ Runtime.image_writable env = true)
    [env1; env2; env3] ->
  Store.users (Runtime.db st) !! s = Some su ->
  Store.users (Runtime.db st) !! r = Some ru ->
  TrackerViews.pair_is_fresh (ConnectionManager.pair_key s r) st ->
  exists st1 st2 st3,
    ConnectionManager.handle_abusive_message env1 md1 a1 st = (st1, Runtime.Ok tt)
    /\ ConnectionManager.handle_abusive_message env2 md2 a2 st1 = (st2, Runtime.Ok tt)
    /\ ConnectionManager.handle_abusive_message env3 md3 a3 st2 = (st3, Runtime.Ok tt)
    /\ Runtime.wire st1
       = Runtime.wire st ++ TrackerViews.sent_to st r ConnectionManager.warning_alert
    /\ Store.blocked_users (Runtime.db st1) = Store.blocked_users (Runtime.db st)
    /\ Runtime.wire st2 = Runtime.wire st1
    /\ Store.blocked_users (Runtime.db st2) = Store.blocked_users (Runtime.db st)
    /\ Runtime.wire st3
       = Runtime.wire st2 ++ TrackerViews.sent_to st r ConnectionManager.block_alert
    /\ Store.blocked_users (Runtime.db st3)
       = Store.blocked_users (Runtime.db st)
         ++ [ {| Store.blocked_user_id_of := r;
                 Store.blocked_blocked_user_id := s;
                 Store.blocked_reason := ConnectionManager.block_reason |} ]
    /\ exists p,
         Runtime.abuse_counters st3 !! ConnectionManager.pair_key s r = Some p
         /\ Pair.count p = 0%Z /\ Pair.messages p = [].
Proof.
  intros Hpair Hi1 Hi2 Hi3 Henv Hs Hr Hfresh.
  apply Forall_cons in Hpair as [[Hs1 Hr1] Hpair].
  apply Forall_cons in Hpair as [[Hs2 Hr2] Hpair].
  apply Forall_cons in Hpair as [[Hs3 Hr3] _].
  apply Forall_cons in Henv as [[Hd1 Hw1] Henv].
  apply Forall_cons in Henv as [[Hd2 Hw2] Henv].
  apply Forall_cons in Henv as [[Hd3 Hw3] _].
  assert (Hk1 : TrackerViews.key_of md1 = ConnectionManager.pair_key s r)
    by (unfold TrackerViews.key_of; congruence).
  assert (Hk2 : TrackerViews.key_of md2 = ConnectionManager.pair_key s r)
    by (unfold TrackerViews.key_of; congruence).
  assert (Hk3 : TrackerViews.key_of md3 = ConnectionManager.pair_key s r)
    by (unfold TrackerViews.key_of; congruence).
  (* first message: the count becomes 1 *)
  rewrite <- Hk1 in Hfresh.
  destruct (pair_before_fresh env1 md1 st Hfresh) as [Hc0 Hm0].
  pose proof (handle_abusive_message_ok env1 md1 a1 i1 su ru st Hi1 Hd1 Hw1) as H1.
  rewrite Hs1, Hr1 in H1. specialize (H1 Hs Hr).
  set (st1 := TrackerViews.handled env1 md1 i1 su ru st) in *.
  destruct (handled_components env1 md1 i1 su ru st 1%Z)
    as (Hac1 & Hu1 & _ & _ & _ & Hwire1 & Hblk1 & Hcnt1);
    [rewrite Hc0; reflexivity|].
  fold st1 in Hac1, Hu1, Hwire1, Hblk1, Hcnt1. cbn [Z.eqb Pos.eqb] in Hwire1, Hblk1, Hcnt1.
  rewrite Hr1 in Hwire1. rewrite app_nil_r in Hblk1.
  (* second message: the count becomes 2 *)
  assert (Hp1 : Pair.count (TrackerViews.pair_before env2 md2 (Runtime.abuse_counters st1)) = 1%Z).
  { rewrite (pair_before_lookup env2 md2 _ _
               (eq_trans (f_equal (fun k => Runtime.abuse_counters st1 !! k) Hk2)
                  (eq_trans (f_equal (fun c => c !! ConnectionManager.pair_key s r) Hcnt1)
                     (eq_trans (f_equal (fun k => TrackerViews.recorded env1 md1 i1 (Runtime.abuse_counters st) !! k) (eq_sym Hk1))
                        (recorded_lookup env1 md1 i1 _))))).
    simpl. rewrite Hc0. reflexivity. }
  pose proof (handle_abusive_message_ok env2 md2 a2 i2 su ru st1 Hi2 Hd2 Hw2) as H2.
  rewrite Hs2, Hr2, Hu1 in H2. specialize (H2 Hs Hr).
  set (st2 := TrackerViews.handled env2 md2 i2 su ru st1) in *.
  destruct (handled_components env2 md2 i2 su ru st1 2%Z)
    as (Hac2 & Hu2 & _ & _ & _ & Hwire2 & Hblk2 & Hcnt2);
    [rewrite Hp1; reflexivity|].
  fold st2 in Hac2, Hu2, Hwire2, Hblk2, Hcnt2.
  cbn [Z.eqb Z.leb Z.compare Pos.eqb Pos.compare Pos.compare_cont] in Hwire2, Hblk2, Hcnt2.
  rewrite app_nil_r in Hwire2, Hblk2.
  (* third message: the count becomes 3 *)
  assert (Hp2 : Pair.count (TrackerViews.pair_before env3 md3 (Runtime.abuse_counters st2)) = 2%Z).
  { rewrite (pair_before_lookup env3 md3 _ _
               (eq_trans (f_equal (fun k => Runtime.abuse_counters st2 !! k) Hk3)
                  (eq_trans (f_equal (fun c => c !! ConnectionManager.pair_key s r) Hcnt2)
                     (eq_trans (f_equal (fun k => TrackerViews.recorded env2 md2 i2 (Runtime.abuse_counters st1) !! k) (eq_sym Hk2))
                        (recorded_lookup env2 md2 i2 _))))).
    simpl. rewrite Hp1. reflexivity. }
  pose proof (handle_abusive_message_ok env3 md3 a3 i3 su ru st2 Hi3 Hd3 Hw3) as H3.
  rewrite Hs3, Hr3, Hu2, Hu1 in H3. specialize (H3 Hs Hr).
  set (st3 := TrackerViews.handled env3 md3 i3 su ru st2) in *.
  destruct (handled_components env3 md3 i3 su ru st2 3%Z)
    as (_ & _ & _ & _ & _ & Hwire3 & Hblk3 & Hcnt3);
    [rewrite Hp2; reflexivity|].
  fold st3 in Hwire3, Hblk3, Hcnt3.
  cbn [Z.eqb Z.leb Z.compare Pos.eqb Pos.compare Pos.compare_cont] in Hwire3, Hblk3, Hcnt3.
  exists st1, st2, st3.
  split; [exact H1|]. split; [exact H2|]. split; [exact H3|].
  split; [exact Hwire1|]. split; [exact Hblk1|].
  split; [exact Hwire2|]. split; [congruence|].
  split.
  { rewrite Hwire3, Hr3. unfold TrackerViews.sent_to. rewrite Hac2, Hac1. reflexivity. }
  split.
  { rewrite Hblk3, Hblk2, Hblk1. unfold TrackerViews.block_of. rewrite Hs3, Hr3. reflexivity. }
  exists (ConnectionManager.fresh_pair env3).
  rewrite Hcnt3, Hk3, lookup_insert_eq. repeat split.
Qed.

(** Bob insults Alice three times while she is connected on socket 7. *)
Lemma three_incidents_warn_then_block_witness :
  exists st1 st2 st3,
    ConnectionManager.handle_abusive_message Fixture.fair (Fixture.insult 1)
      Fixture.insult_analysis Fixture.alice_online = (st1, Runtime.Ok tt)
    /\ ConnectionManager.handle_abusive_message Fixture.fair (Fixture.insult 2)
         Fixture.insult_analysis st1 = (st2, Runtime.Ok tt)
    /\ ConnectionManager.handle_abusive_message Fixture.fair (Fixture.insult 3)
         Fixture.insult_analysis st2 = (st3, Runtime.Ok tt)
    /\ Runtime.wire st3
       = [(7%nat, ConnectionManager.warning_alert); (7%nat, ConnectionManager.block_alert)]
    /\ List.length (Store.blocked_users (Runtime.db st3)) = 1%nat.
Proof.
  destruct (three_incidents_warn_then_block
              Fixture.fair Fixture.fair Fixture.fair
              (Fixture.insult 1) (Fixture.insult 2) (Fixture.insult 3)
              Fixture.insult_analysis Fixture.insult_analysis Fixture.insult_analysis
              1 2 3 2 1 Fixture.bob Fixture.alice Fixture.alice_online)
    as (st1 & st2 & st3 & H1 & H2 & H3 & W1 & B1 & W2 & B2 & W3 & B3 & _).
  - repeat constructor.
  - reflexivity.
  - reflexivity.
  - reflexivity.
  - repeat constructor.
  - reflexivity.
  - reflexivity.
  - vm_compute. exact I.
  - exists st1, st2, st3.
    split; [exact H1|]. split; [exact H2|]. split; [exact H3|].
    split.
    + rewrite W3, W2, W1. reflexivity.
    + rewrite B3. reflexivity.
Defined.

(** C2 as stated fails when the receiver is not connected: the first
    abusive message is counted (the pair's counter is 1) and the call
    returns, yet no warning alert is sent to anyone. *)
Lemma no_warning_when_receiver_offline :
  snd (ConnectionManager.handle_abusive_message Fixture.fair (Fixture.insult 1)
         Fixture.insult_analysis Fixture.offline) = Runtime.Ok tt
  /\ Pair.count
       <$> (Runtime.abuse_counters
              (fst (ConnectionManager.handle_abusive_message Fixture.fair
                      (Fixture.insult 1) Fixture.insult_analysis Fixture.offline))
            !! ConnectionManager.pair_key 2 1)
     = Some 1%Z
  /\ Runtime.wire
       (fst (ConnectionManager.handle_abusive_message Fixture.fair (Fixture.insult 1)
               Fixture.insult_analysis Fixture.offline)) = [].
Proof. vm_compute. repeat split. Qed.

(* ===================================================================== *)
(** * Errors of the evidence packaging *)
(* ===================================================================== *)

(** C4, as the code has it.  When the evidence packaging raises [e] while
    an incident is recorded, [handle_abusive_message] raises [e] too.  The
    incident stays counted and logged (the counter is one higher, the log
    one entry longer), but nothing was sent and the database is as it was:
    no report row, no warning, no block. *)
Theorem packaging_error_stops_escalation
    (env : Runtime.environment) (md : Runtime.message_data)
    (a : AbuseDetector.analysis) (i : Z) (st st2 : Runtime.state) (e : Runtime.exn) :
  Runtime.id md = Some i ->
  ConnectionManager.generate_evidence_report env
    (Runtime.sender_id md) (Runtime.receiver_id md)
    [TrackerViews.incident_of env md i]
    (Runtime.set_abuse_counters (TrackerViews.recorded env md i) st)
  = (st2, Runtime.Raise e) ->
  ConnectionManager.handle_abusive_message env md a st = (st2, Runtime.Raise e)
  /\ (exists p,
        Runtime.abuse_counters st2 !! TrackerViews.key_of md = Some p
        /\ Pair.count p
           = (Pair.count (TrackerViews.pair_before env md (Runtime.abuse_counters st)) + 1)%Z
        /\ Pair.messages p
           = Pair.messages (TrackerViews.pair_before env md (Runtime.abuse_counters st))
             ++ [TrackerViews.incident_of env md i])
  /\ Runtime.wire st2 = Runtime.wire st
  /\ Runtime.db st2 = Runtime.db st.
Proof.
  intros Hid Hgen.
  rewrite (handle_abusive_message_run env md a i st Hid).
  unfold TrackerViews.handle_outcome. rewrite Hgen.
  split; [reflexivity|].
  destruct (generate_evidence_report_frame env (Runtime.sender_id md)
              (Runtime.receiver_id md) [TrackerViews.incident_of env md i]
              (Runtime.set_abuse_counters (TrackerViews.recorded env md i) st))
    as [f' Hf].
  rewrite Hgen in Hf. cbn [fst] in Hf. subst st2.
  destruct st as [ac cnt d f w]. cbn.
  split; [|split; reflexivity].
  eexists. split; [apply recorded_lookup|]. split; reflexivity.
Qed.

(** Alice is connected, Bob's first insult arrives, and the renderer cannot
    write its image. *)
Lemma packaging_error_stops_escalation_witness :
  exists st2,
    ConnectionManager.handle_abusive_message Fixture.no_image (Fixture.insult 1)
      Fixture.insult_analysis Fixture.alice_online = (st2, Runtime.Raise Runtime.OSError)
    /\ Runtime.wire st2 = [].
Proof.
  exists (fst (ConnectionManager.handle_abusive_message Fixture.no_image
                 (Fixture.insult 1) Fixture.insult_analysis Fixture.alice_online)).
  destruct (packaging_error_stops_escalation Fixture.no_image (Fixture.insult 1)
              Fixture.insult_analysis 1 Fixture.alice_online
              (fst (ConnectionManager.handle_abusive_message Fixture.no_image
                      (Fixture.insult 1) Fixture.insult_analysis Fixture.alice_online))
              Runtime.OSError eq_refl) as (H & _ & Hw & _).
  - vm_compute. reflexivity.
  - split; [exact H | exact Hw].
Defined.

(** C4 as stated fails.  The renderer cannot write its image while Bob's
    first insult to Alice, who is connected, is recorded: the counter goes
    to 1, but the call ends with the renderer's error and the warning that
    a count of 1 calls for is never sent; no report row is written. *)
Lemma no_warning_when_packaging_fails :
  snd (ConnectionManager.handle_abusive_message Fixture.no_image (Fixture.insult 1)
         Fixture.insult_analysis Fixture.alice_online) = Runtime.Raise Runtime.OSError
  /\ Pair.count
       <$> (Runtime.abuse_counters
              (fst (ConnectionManager.handle_abusive_message Fixture.no_image
                      (Fixture.insult 1) Fixture.insult_analysis Fixture.alice_online))
            !! ConnectionManager.pair_key 2 1)
     = Some 1%Z
  /\ Runtime.active_connections Fixture.alice_online !! 1%Z = Some 7%nat
  /\ Runtime.wire
       (fst (ConnectionManager.handle_abusive_message Fixture.no_image
               (Fixture.insult 1) Fixture.insult_analysis Fixture.alice_online)) = []
  /\ Store.reports
       (Runtime.db
          (fst (ConnectionManager.handle_abusive_message Fixture.no_image
                  (Fixture.insult 1) Fixture.insult_analysis Fixture.alice_online))) = [].
Proof. vm_compute. repeat split. Qed.

Section ArchiveFacts.
Import Runtime Files Store AbuseDetector ConnectionManager TrackerViews.

(** The threshold actions leave the disk and the report rows alone. *)
Lemma escalated_keeps_evidence (env : environment) (md : message_data) (n : Z)
    (st : state) :
  fs (escalated env md n st) = fs st
  /\ reports (db (escalated env md n st)) = reports (db st).
Proof.
  unfold escalated.
  destruct (n =? 1)%Z; [|destruct (3 <=? n)%Z].
  - destruct (deliver_frame (receiver_id md) warning_alert st) as (_ & _ & -> & ->).
    split; reflexivity.
  - destruct st as [ac cnt d f w]. unfold deliver. cbn.
    destruct (ac !! receiver_id md); split; reflexivity.
  - split; reflexivity.
Qed.

End ArchiveFacts.

(** C5, as the code has it.  Every call of [handle_abusive_message] that
    returns has written exactly one archive and one report row that names
    it, whatever the pair's count: one archive per abusive message, not one
    per warning or block. *)
Theorem one_archive_per_abusive_message
    (env : Runtime.environment) (md : Runtime.message_data)
    (a : AbuseDetector.analysis) (i : Z) (st st' : Runtime.state) :
  Runtime.id md = Some i ->
  ConnectionManager.handle_abusive_message env md a st = (st', Runtime.Ok tt) ->
  (exists members,
      Files.archives (Runtime.fs st')
      = Files.archives (Runtime.fs st) ++ [(ConnectionManager.zip_path env, members)])
  /\ Store.reports (Runtime.db st')
     = Store.reports (Runtime.db st)
       ++ [TrackerViews.report_of md i (ConnectionManager.zip_path env)].
Proof.
  intros Hid H.
  rewrite (handle_abusive_message_run env md a i st Hid) in H.
  unfold TrackerViews.handle_outcome in H.
  destruct (ConnectionManager.generate_evidence_report env (Runtime.sender_id md)
              (Runtime.receiver_id md) [TrackerViews.incident_of env md i]
              (Runtime.set_abuse_counters (TrackerViews.recorded env md i) st))
    as [st2 [path|e]] eqn:G; [|discriminate].
  apply generate_evidence_report_returns in G
    as (-> & Hdb & f' & members & -> & Harch).
  rewrite Hdb in H. injection H as <-.
  match goal with
  | |- context [TrackerViews.escalated ?e ?m ?n ?s] =>
      destruct (escalated_keeps_evidence e m n s) as [-> ->]
  end.
  destruct st as [ac cnt d f w]. cbn in *.
  split; [exists members; exact Harch | reflexivity].
Qed.

(** Bob's second insult: the pair's count goes to 2. *)
Lemma one_archive_per_abusive_message_witness :
  List.length (Files.archives (Runtime.fs Fixture.after_second)) = 2%nat
  /\ List.length (Store.reports (Runtime.db Fixture.after_second)) = 2%nat.
Proof.
  destruct (one_archive_per_abusive_message Fixture.fair (Fixture.insult 2)
              Fixture.insult_analysis 2 Fixture.after_first Fixture.after_second
              eq_refl) as [[members Ha] Hr].
  - vm_compute. reflexivity.
  - rewrite Ha, Hr. split; reflexivity.
Defined.

(** C5 as stated fails.  Bob's second insult triggers neither a warning
    nor a block (the wire and the block table are as the first call left
    them), and still a second archive and a second report row are written. *)
Lemma archive_written_without_escalation :
  Runtime.wire Fixture.after_second = Runtime.wire Fixture.after_first
  /\ Store.blocked_users (Runtime.db Fixture.after_second) = []
  /\ List.length (Files.archives (Runtime.fs Fixture.after_first)) = 1%nat
  /\ List.length (Files.archives (Runtime.fs Fixture.after_second)) = 2%nat
  /\ List.length (Store.reports (Runtime.db Fixture.after_second)) = 2%nat.
Proof. vm_compute. repeat split. Qed.

(** C7, as the code has it.  With the database up and both users on file,
    packaging at least one message: if the renderer raises, its error
    leaves [generate_evidence_report], which returns no path and writes no
    archive.  The renderer raises ValueError when it meets a timestamp it
    cannot read, and OSError when it has drawn every message but cannot
    write its image.  If it draws and writes its image, the archive holds
    the JSON report, the image and the README, in this order, and its path
    is returned. *)
Theorem packaging_fails_when_renderer_raises
    (env : Runtime.environment) (s r : Z) (su ru : Store.User)
    (messages : list Files.incident) (st : Runtime.state) :
  Runtime.db_up env = true ->
  Store.users (Runtime.db st) !! s = Some su ->
  Store.users (Runtime.db st) !! r = Some ru ->
  messages <> [] ->
  (TrackerViews.readable env messages = false ->
   snd (ConnectionManager.generate_evidence_report env s r messages st)
   = Runtime.Raise Runtime.ValueError
   /\ Files.archives
        (Runtime.fs (fst (ConnectionManager.generate_evidence_report env s r messages st)))
      = Files.archives (Runtime.fs st))
  /\ (TrackerViews.readable env messages = true ->
      Runtime.image_writable env = false ->
      snd (ConnectionManager.generate_evidence_report env s r messages st)
      = Runtime.Raise Runtime.OSError
      /\ Files.archives
           (Runtime.fs (fst (ConnectionManager.generate_evidence_report env s r messages st)))
         = Files.archives (Runtime.fs st))
  /\ (TrackerViews.readable env messages = true ->
      Runtime.image_writable env = true ->
      snd (ConnectionManager.generate_evidence_report env s r messages st)
      = Runtime.Ok (ConnectionManager.zip_path env)
      /\ Files.archives
           (Runtime.fs (fst (ConnectionManager.generate_evidence_report env s r messages st)))
         = Files.archives (Runtime.fs st)
           ++ [(ConnectionManager.zip_path env,
                [ TrackerViews.json_member_of env s r su ru messages;
                  Files.ImageFile (ConnectionManager.screenshot_filename env)
                    (TrackerViews.evidence_image env su ru messages);
                  TrackerViews.readme_member_of env s r su ru messages ])]).
Proof.
  intros Hdb Hs Hr Hne. split; [|split].
  - intros Hread.
    destruct (generate_evidence_report_render_error env s r su ru messages st
                Hdb Hs Hr Hne (or_introl Hread)) as [H1 H2].
    rewrite Hread in H1. split; assumption.
  - intros Hread Himg.
    destruct (generate_evidence_report_render_error env s r su ru messages st
                Hdb Hs Hr Hne (or_intror Himg)) as [H1 H2].
    rewrite Hread in H1. split; assumption.
  - intros Hread Himg.
    rewrite (generate_evidence_report_ok env s r su ru) by assumption.
    destruct st as [ac cnt d f w]. split; reflexivity.
Qed.

(** One logged insult packaged for Bob and Alice while the renderer cannot
    write. *)
Lemma packaging_fails_when_renderer_raises_witness :
  snd (ConnectionManager.generate_evidence_report Fixture.no_image 2 1
         [TrackerViews.incident_of Fixture.no_image (Fixture.insult 1) 1]
         Fixture.offline)
  = Runtime.Raise Runtime.OSError.
Proof.
  apply (packaging_fails_when_renderer_raises Fixture.no_image 2 1
           Fixture.bob Fixture.alice
           [TrackerViews.incident_of Fixture.no_image (Fixture.insult 1) 1]
           Fixture.offline); try reflexivity.
  discriminate.
Defined.

(** C7 as stated fails.  The renderer raises (it cannot write the image):
    packaging does not return an archive path but raises, and no archive
    has been produced. *)
Lemma packaging_raises_with_failing_renderer :
  snd (ConnectionManager.generate_evidence_report Fixture.no_image 2 1
         [TrackerViews.incident_of Fixture.no_image (Fixture.insult 1) 1]
         Fixture.offline)
  = Runtime.Raise Runtime.OSError
  /\ Files.archives
       (Runtime.fs
          (fst (ConnectionManager.generate_evidence_report Fixture.no_image 2 1
                  [TrackerViews.incident_of Fixture.no_image (Fixture.insult 1) 1]
                  Fixture.offline))) = [].
Proof. vm_compute. split; reflexivity. Qed.

(* ===================================================================== *)
(** * The receive loop *)
(* ===================================================================== *)

Section LoopFacts.
Import Runtime Files Store AbuseDetector ConnectionManager TrackerViews Main.

Lemma store_message_run (env : environment) (md : message_data) (st : state) :
  store_message env md st
  = if db_up env
    then (set_db (add_message (row_of md (next_message_id (db st)))) st,
          Ok (row_of md (next_message_id (db st)),
              with_id md (next_message_id (db st))))
    else (st, Raise OperationalError).
Proof.
  unfold store_message, commit, bind, get, modify, ret, raise.
  destruct (db_up env); reflexivity.
Qed.

Lemma on_frame_db_down (env : environment) (data : envelope) (st : state) :
  db_up env = false -> on_frame env data st = (st, Raise OperationalError).
Proof.
  intros H. unfold on_frame.
  rewrite bind_run, store_message_run, H. reflexivity.
Qed.

Lemma on_frame_run (env : environment) (data : envelope) (st : state) :
  db_up env = true -> on_frame env data st = after_store env data st.
Proof.
  intros H. unfold on_frame, after_store.
  rewrite bind_run, store_message_run, H.
  cbn [snd].
  fold (stored data st). fold (forwarded data st).
  change (is_abusive (forwarded data st))
    with (is_abusive_of (analyze_text (env_content data))).
  unfold send_personal_message.
  destruct (is_abusive_of (analyze_text (env_content data))).
  - rewrite bind_run.
    destruct (handle_abusive_message env (forwarded data st)
                (analysis_of (analyze_text (env_content data))) (stored data st))
      as [st2 [[]|e]]; [|reflexivity].
    apply send_if_connected_run.
  - rewrite bind_ret. apply send_if_connected_run.
Qed.

Lemma recorded_consistent (env : environment) (md : message_data) (i : Z)
    (st : state) :
  counters_consistent st ->
  counters_consistent (set_abuse_counters (recorded env md i) st).
Proof.
  unfold counters_consistent. intros H.
  destruct st as [ac cnt d f w]. cbn in *.
  unfold recorded. apply map_Forall_insert_2; [|exact H].
  cbn. rewrite length_app. cbn.
  unfold pair_before. destruct (cnt !! key_of md) as [p|] eqn:E; cbn.
  - rewrite (H _ _ E). lia.
  - reflexivity.
Qed.

Lemma escalated_consistent (env : environment) (md : message_data) (n : Z)
    (st : state) :
  counters_consistent st -> counters_consistent (escalated env md n st).
Proof.
  unfold counters_consistent, escalated. intros H.
  destruct (n =? 1)%Z; [|destruct (3 <=? n)%Z].
  - destruct (deliver_frame (receiver_id md) warning_alert st) as (_ & -> & _).
    exact H.
  - destruct st as [ac cnt d f w]. unfold deliver. cbn in *.
    destruct (ac !! receiver_id md); cbn;
      (apply map_Forall_insert_2; [reflexivity | exact H]).
  - exact H.
Qed.

(** Whatever its outcome, a call keeps the counters and the logs in step. *)
Lemma handle_abusive_message_consistent (env : environment) (md : message_data)
    (a : analysis) (i : Z) (st : state) :
  id md = Some i ->
  counters_consistent st ->
  counters_consistent (fst (handle_abusive_message env md a st)).
Proof.
  intros Hid H.
  rewrite (handle_abusive_message_run env md a i st Hid).
  unfold handle_outcome.
  pose proof (recorded_consistent env md i st H) as H1.
  destruct (generate_evidence_report_frame env (sender_id md) (receiver_id md)
              [incident_of env md i] (set_abuse_counters (recorded env md i) st))
    as [f' Hf].
  destruct (generate_evidence_report env (sender_id md) (receiver_id md)
              [incident_of env md i] (set_abuse_counters (recorded env md i) st))
    as [st2 [path|e]]; cbn [fst] in *; subst st2.
  - destruct (db_up env); cbn [fst].
    + apply escalated_consistent. exact H1.
    + exact H1.
  - exact H1.
Qed.

Lemma on_frame_consistent (env : environment) (data : envelope) (st : state) :
  counters_consistent st -> counters_consistent (fst (on_frame env data st)).
Proof.
  intros H. destruct (db_up env) eqn:Hdb.
  - rewrite (on_frame_run env data st Hdb). unfold after_store.
    assert (Hst : counters_consistent (stored data st)) by exact H.
    destruct (is_abusive (forwarded data st)).
    + pose proof (handle_abusive_message_consistent env (forwarded data st)
                    (analysis_of (analyze_text (env_content data)))
                    (next_message_id (db st)) (stored data st) eq_refl Hst) as Hh.
      destruct (handle_abusive_message env (forwarded data st)
                  (analysis_of (analyze_text (env_content data))) (stored data st))
        as [st2 [[]|e]]; cbn [fst] in *; [|exact Hh].
      unfold counters_consistent.
      destruct (deliver_frame (receiver_id (forwarded data st))
                  (MessagePayload (forwarded data st)) st2) as (_ & -> & _).
      exact Hh.
    + cbn [fst]. unfold counters_consistent.
      destruct (deliver_frame (receiver_id (forwarded data st))
                  (MessagePayload (forwarded data st)) (stored data st)) as (_ & -> & _).
      exact Hst.
  - rewrite (on_frame_db_down env data st Hdb). exact H.
Qed.

Lemma step_consistent (st : state) (e : event) :
  counters_consistent st -> counters_consistent (step st e).
Proof.
  intros H. destruct e as [ws u|env data|u]; unfold step.
  - exact H.
  - apply on_frame_consistent, H.
  - exact H.
Qed.

End LoopFacts.

(** C10.  In every state the manager can reach from its start, through
    any sequence of connections, frames and disconnections, each pair's
    incident counter equals the length of its incident log.  A call of
    [handle_abusive_message] leaves the pair's entry with a counter one
    higher and a log one entry longer, or, when it completes with the
    counter at 3 or more, with counter 0 and an empty log. *)
Theorem counter_equals_log_length (d : Store.database) (events : list Main.event) :
  TrackerViews.counters_consistent (Main.run d events)
  /\ (forall env md a i st,
        Runtime.id md = Some i ->
        exists p,
          Runtime.abuse_counters
            (fst (ConnectionManager.handle_abusive_message env md a st))
          !! TrackerViews.key_of md = Some p
          /\ ((Pair.count p
               = (Pair.count (TrackerViews.pair_before env md (Runtime.abuse_counters st)) + 1)%Z
               /\ Pair.messages p
                  = Pair.messages (TrackerViews.pair_before env md (Runtime.abuse_counters st))
                    ++ [TrackerViews.incident_of env md i])
              \/ (Pair.count p = 0%Z /\ Pair.messages p = []
                  /\ (3 <= Pair.count
                             (TrackerViews.pair_before env md (Runtime.abuse_counters st)) + 1)%Z
                  /\ snd (ConnectionManager.handle_abusive_message env md a st)
                     = Runtime.Ok tt))).
Proof.
  split.
  - unfold Main.run.
    assert (H0 : TrackerViews.counters_consistent (ConnectionManager.init d))
      by apply map_Forall_empty.
    revert H0. generalize (ConnectionManager.init d).
    induction events as [|e events IH]; intros st H; simpl; [exact H|].
    apply IH, step_consistent, H.
  - intros env md a i st Hid.
    rewrite (handle_abusive_message_run env md a i st Hid).
    unfold TrackerViews.handle_outcome.
    destruct (generate_evidence_report_frame env (Runtime.sender_id md)
                (Runtime.receiver_id md) [TrackerViews.incident_of env md i]
                (Runtime.set_abuse_counters (TrackerViews.recorded env md i) st))
      as [f' Hf].
    destruct (ConnectionManager.generate_evidence_report env (Runtime.sender_id md)
                (Runtime.receiver_id md) [TrackerViews.incident_of env md i]
                (Runtime.set_abuse_counters (TrackerViews.recorded env md i) st))
      as [st2 [path|e]]; cbn [fst] in Hf; subst st2.
    + destruct (Runtime.db_up env).
      * unfold TrackerViews.escalated.
        destruct (Pair.count (TrackerViews.pair_before env md (Runtime.abuse_counters st)) + 1 =? 1)%Z;
          [|destruct (3 <=? Pair.count (TrackerViews.pair_before env md (Runtime.abuse_counters st)) + 1)%Z eqn:E3].
        -- cbn [fst].
           match goal with
           | |- context [TrackerViews.deliver ?u ?p ?s] =>
               destruct (deliver_frame u p s) as (_ & -> & _)
           end.
           destruct st as [ac cnt dd f w]. cbn.
           eexists. split; [apply recorded_lookup|]. left. split; reflexivity.
        -- destruct st as [ac cnt dd f w]. unfold TrackerViews.deliver. cbn.
           destruct (ac !! Runtime.receiver_id md); cbn;
             (eexists; split; [apply lookup_insert_eq|]; right;
              repeat split; apply Z.leb_le, E3).
        -- destruct st as [ac cnt dd f w]. cbn.
           eexists. split; [apply recorded_lookup|]. left. split; reflexivity.
      * destruct st as [ac cnt dd f w]. cbn.
        eexists. split; [apply recorded_lookup|]. left. split; reflexivity.
    + destruct st as [ac cnt dd f w]. cbn.
      eexists. split; [apply recorded_lookup|]. left. split; reflexivity.
Qed.

(** C8, as the code has it.  When the database refuses the write of an
    inbound message, the turn of the receive loop ends with that error and
    the state is untouched: nothing is stored, nothing is counted and
    nothing is forwarded to the receiver, connected or not. *)
Theorem storage_failure_prevents_forward
    (env : Runtime.environment) (data : Main.envelope) (st : Runtime.state) :
  Runtime.db_up env = false ->
  Main.on_frame env data st = (st, Runtime.Raise Runtime.OperationalError).
Proof. apply on_frame_db_down. Qed.

(** Bob greets Alice, who is connected, while the database is down. *)
Lemma storage_failure_prevents_forward_witness :
  Main.on_frame Fixture.db_down Fixture.greeting Fixture.alice_online
  = (Fixture.alice_online, Runtime.Raise Runtime.OperationalError).
Proof.
  apply (storage_failure_prevents_forward Fixture.db_down Fixture.greeting
           Fixture.alice_online).
  reflexivity.
Defined.

(** C8 as stated fails.  Alice is connected on socket 7 and the database
    is down when Bob's greeting arrives: the turn raises and nothing is put
    on Alice's socket. *)
Lemma message_not_forwarded_when_store_fails :
  Runtime.active_connections Fixture.alice_online !! 1%Z = Some 7%nat
  /\ snd (Main.on_frame Fixture.db_down Fixture.greeting Fixture.alice_online)
     = Runtime.Raise Runtime.OperationalError
  /\ Runtime.wire
       (fst (Main.on_frame Fixture.db_down Fixture.greeting Fixture.alice_online)) = [].
Proof. vm_compute. repeat split. Qed.

Section CompletionFacts.
Import Runtime Files Store AbuseDetector ConnectionManager TrackerViews Main.

(** The conditions under which the tracker's part of a turn goes through. *)
Lemma on_frame_completes (env : environment) (data : envelope) (st : state) :
  (exists st', on_frame env data st = (st', Ok tt))
  <-> db_up env = true
      /\ (is_abusive_of (analyze_text (env_content data)) = true ->
          image_writable env = true
          /\ is_Some (users (db st) !! env_sender_id data)
          /\ is_Some (users (db st) !! env_receiver_id data)).
Proof.
  destruct (db_up env) eqn:Hdb.
  2:{ rewrite (on_frame_db_down env data st Hdb). split.
      - intros [st' H]. discriminate H.
      - intros [H _]. discriminate H. }
  rewrite (on_frame_run env data st Hdb). unfold after_store.
  change (is_abusive (forwarded data st))
    with (is_abusive_of (analyze_text (env_content data))).
  destruct (is_abusive_of (analyze_text (env_content data))) eqn:E.
  - split.
    + intros [st' H]. split; [reflexivity|]. intros _.
      rewrite (handle_abusive_message_run env (forwarded data st) _
                 (next_message_id (db st)) (stored data st) eq_refl) in H.
      unfold handle_outcome in H.
      destruct (generate_evidence_report env (sender_id (forwarded data st))
                  (receiver_id (forwarded data st))
                  [incident_of env (forwarded data st) (next_message_id (db st))]
                  (set_abuse_counters
                     (recorded env (forwarded data st) (next_message_id (db st)))
                     (stored data st))) as [st2 [path|e]] eqn:G; [|discriminate H].
      apply generate_evidence_report_ok_inv in G as (Himg & _ & Hs & Hr).
      split; [exact Himg|]. split; [exact Hs | exact Hr].
    + intros [_ H]. destruct (H eq_refl) as (Himg & [su Hs] & [ru Hr]).
      rewrite (handle_abusive_message_ok env (forwarded data st) _
                 (next_message_id (db st)) su ru (stored data st)
                 eq_refl Hdb Himg Hs Hr).
      eexists. reflexivity.
  - split.
    + intros _. split; [reflexivity | discriminate].
    + intros _. eexists. reflexivity.
Qed.

(** What a turn that goes through has put on the wire last. *)
Lemma on_frame_delivers (env : environment) (data : envelope) (st : state) :
  db_up env = true ->
  (is_abusive_of (analyze_text (env_content data)) = true ->
   image_writable env = true
   /\ is_Some (users (db st) !! env_sender_id data)
   /\ is_Some (users (db st) !! env_receiver_id data)) ->
  exists st',
    on_frame env data st = (st', Ok tt)
    /\ match active_connections st !! env_receiver_id data with
       | Some websocket =>
           last (wire st') = Some (websocket, MessagePayload (forwarded data st))
       | None => wire st' = wire st
       end.
Proof.
  intros Hdb Hab.
  rewrite (on_frame_run env data st Hdb). unfold after_store.
  change (is_abusive (forwarded data st))
    with (is_abusive_of (analyze_text (env_content data))).
  change (receiver_id (forwarded data st)) with (env_receiver_id data).
  destruct (is_abusive_of (analyze_text (env_content data))) eqn:E.
  - destruct (Hab eq_refl) as (Himg & [su Hs] & [ru Hr]).
    rewrite (handle_abusive_message_ok env (forwarded data st) _
               (next_message_id (db st)) su ru (stored data st)
               eq_refl Hdb Himg Hs Hr).
    eexists. split; [reflexivity|].
    rewrite deliver_wire.
    destruct (handled_components env (forwarded data st)
                (next_message_id (db st)) su ru (stored data st) _ eq_refl)
      as (Hac & _ & _ & _ & _ & Hw & _).
    unfold sent_to in *. rewrite Hac in *.
    change (active_connections (stored data st)) with (active_connections st) in *.
    change (receiver_id (forwarded data st)) with (env_receiver_id data) in *.
    destruct (active_connections st !! env_receiver_id data).
    + apply last_snoc.
    + rewrite app_nil_r, Hw.
      destruct (_ =? 1)%Z; [|destruct (3 <=? _)%Z]; rewrite app_nil_r; reflexivity.
  - eexists. split; [reflexivity|].
    rewrite deliver_wire. unfold sent_to.
    change (active_connections (stored data st)) with (active_connections st).
    destruct (active_connections st !! env_receiver_id data).
    + apply last_snoc.
    + apply app_nil_r.
Qed.

(** A turn that raises has sent nothing. *)
Lemma on_frame_raise_wire (env : environment) (data : envelope) (st st' : state)
    (e : exn) :
  on_frame env data st = (st', Raise e) -> wire st' = wire st.
Proof.
  destruct (db_up env) eqn:Hdb.
  2:{ rewrite (on_frame_db_down env data st Hdb). intros H. injection H as <- _.
      reflexivity. }
  rewrite (on_frame_run env data st Hdb). unfold after_store.
  destruct (is_abusive (forwarded data st)); [|discriminate].
  rewrite (handle_abusive_message_run env (forwarded data st) _
             (next_message_id (db st)) (stored data st) eq_refl).
  unfold handle_outcome.
  destruct (generate_evidence_report_frame env (sender_id (forwarded data st))
              (receiver_id (forwarded data st))
              [incident_of env (forwarded data st) (next_message_id (db st))]
              (set_abuse_counters
                 (recorded env (forwarded data st) (next_message_id (db st)))
                 (stored data st))) as [f' Hf].
  destruct (generate_evidence_report env (sender_id (forwarded data st))
              (receiver_id (forwarded data st))
              [incident_of env (forwarded data st) (next_message_id (db st))]
              (set_abuse_counters
                 (recorded env (forwarded data st) (next_message_id (db st)))
                 (stored data st))) as [st2 [path|e2]]; cbn [fst] in Hf; subst st2.
  - rewrite Hdb. discriminate.
  - intros H. injection H as <- _. destruct st as [ac cnt d f w]. reflexivity.
Qed.

End CompletionFacts.

(** C9, as the code has it.  [send_personal_message] to a participant with
    no live connection changes nothing and returns.  In the receive loop
    the send is the last statement of a turn, so the message is forwarded
    exactly in the turns that complete: a turn that returns has put the
    message, with its classification and id, on the receiver's socket as
    its last frame if the receiver has a live connection, abusive or not,
    and has put nothing on the wire if the receiver has none; a turn that
    raises has put nothing on the wire at all.  A turn returns exactly when
    the database accepts the statements of the turn and, if the message is
    abusive, the evidence packaging succeeds (image writable, sender and
    receiver on file). *)
Theorem message_forwarded_when_turn_completes
    (env : Runtime.environment) (data : Main.envelope) (st : Runtime.state) :
  (forall m u st0,
      Runtime.active_connections st0 !! u = None ->
      ConnectionManager.send_personal_message m u st0 = (st0, Runtime.Ok tt))
  /\ ((exists st', Main.on_frame env data st = (st', Runtime.Ok tt))
      <-> Runtime.db_up env = true
          /\ (AbuseDetector.is_abusive_of
                (AbuseDetector.analyze_text (Main.env_content data)) = true ->
              Runtime.image_writable env = true
              /\ is_Some (Store.users (Runtime.db st) !! Main.env_sender_id data)
              /\ is_Some (Store.users (Runtime.db st) !! Main.env_receiver_id data)))
  /\ (forall st',
        Main.on_frame env data st = (st', Runtime.Ok tt) ->
        match Runtime.active_connections st !! Main.env_receiver_id data with
        | Some websocket =>
            last (Runtime.wire st')
            = Some (websocket, Runtime.MessagePayload (TrackerViews.forwarded data st))
        | None => Runtime.wire st' = Runtime.wire st
        end)
  /\ (forall st' e,
        Main.on_frame env data st = (st', Runtime.Raise e) ->
        Runtime.wire st' = Runtime.wire st).
Proof.
  split.
  { intros m u st0 Hu. unfold ConnectionManager.send_personal_message.
    rewrite send_if_connected_run. unfold TrackerViews.deliver. rewrite Hu.
    reflexivity. }
  split; [apply on_frame_completes|].
  split.
  - intros st' H.
    assert (Hex : exists st1, Main.on_frame env data st = (st1, Runtime.Ok tt))
      by (exists st'; exact H).
    apply on_frame_completes in Hex as [Hdb Hab].
    destruct (on_frame_delivers env data st Hdb Hab) as (st1 & H1 & Hw).
    rewrite H in H1. injection H1 as <-. exact Hw.
  - intros st' e H. exact (on_frame_raise_wire env data st st' e H).
Qed.

(** Bob's insult reaches Alice, who is connected, while everything works. *)
Lemma message_forwarded_when_turn_completes_witness :
  exists st',
    Main.on_frame Fixture.fair Fixture.insult_frame Fixture.alice_online
    = (st', Runtime.Ok tt)
    /\ last (Runtime.wire st')
       = Some (7%nat, Runtime.MessagePayload (Fixture.insult 1)).
Proof.
  destruct (message_forwarded_when_turn_completes Fixture.fair Fixture.insult_frame
              Fixture.alice_online) as (_ & Hiff & Hdel & _).
  destruct (proj2 Hiff) as [st' H].
  - split; [reflexivity|]. intros _.
    split; [reflexivity|]. split; eexists; reflexivity.
  - exists st'. split; [exact H|]. exact (Hdel st' H).
Defined.

(** C9 as stated fails.  Alice is connected on socket 7; Bob's insult is
    classified abusive and the renderer cannot write its image: the turn
    ends with the renderer's error and the message is never put on Alice's
    socket, although it has been stored. *)
Lemma abusive_message_not_delivered_when_packaging_fails :
  Runtime.active_connections Fixture.alice_online !! 1%Z = Some 7%nat
  /\ AbuseDetector.is_abusive_of (AbuseDetector.analyze_text "you idiot") = true
  /\ snd (Main.on_frame Fixture.no_image Fixture.insult_frame Fixture.alice_online)
     = Runtime.Raise Runtime.OSError
  /\ Runtime.wire
       (fst (Main.on_frame Fixture.no_image Fixture.insult_frame Fixture.alice_online))
     = []
  /\ List.length
       (Store.messages
          (Runtime.db
             (fst (Main.on_frame Fixture.no_image Fixture.insult_frame
                     Fixture.alice_online)))) = 1%nat.
Proof. vm_compute. repeat split. Qed.

(* ===================================================================== *)
(** * Further properties of the classifier *)
(* ===================================================================== *)

Section DetectorEdgeFacts.
Import Text AbuseDetector Views.
#[local] Open Scope Q_scope.

Lemma is_empty_text_nonblank (text : string) :
  is_empty_text text = negb (nonblank text).
Proof.
  unfold is_empty_text. rewrite truthy_strip.
  destruct text as [|c s]; [reflexivity|]. reflexivity.
Qed.

Lemma severity_low (score : Q) :
  get_abuse_severity score = "LOW"%string <-> Qle_bool 4 score = false.
Proof.
  unfold get_abuse_severity.
  destruct (Qle_bool 8 score) eqn:E8.
  - apply Qle_bool_iff in E8. split; [discriminate|].
    intros H. apply not_true_iff_false in H. exfalso. apply H.
    apply Qle_bool_iff. lra.
  - destruct (Qle_bool 6 score) eqn:E6.
    + apply Qle_bool_iff in E6. split; [discriminate|].
      intros H. apply not_true_iff_false in H. exfalso. apply H.
      apply Qle_bool_iff. lra.
    + destruct (Qle_bool 4 score); split; try discriminate; reflexivity.
Qed.

End DetectorEdgeFacts.

(** On ASCII texts [analyze_text] takes its early exit, returning (False,
    0.0, the "Empty text" reason), exactly for the texts that hold no
    character other than white space; every other ASCII text gets a full
    analysis.  (Beyond ASCII, [strip] also removes the Unicode spaces, which
    the text model does not have.) *)
Theorem empty_result_iff_only_white_space (text : string) :
  DetectorViews.ascii_only text = true ->
  AbuseDetector.analyze_text text
  = (false, 0%Q, AbuseDetector.Reason "Empty text")
  <-> Views.nonblank text = false.
Proof.
  intros _. split.
  - intros H. destruct (Views.nonblank text) eqn:E; [|reflexivity].
    exfalso. unfold AbuseDetector.analyze_text in H.
    rewrite is_empty_text_nonblank, E in H. simpl in H.
    destruct (AbuseDetector.pattern_phase (Text.strip (Text.lower text))).
    discriminate.
  - intros H. unfold AbuseDetector.analyze_text.
    rewrite is_empty_text_nonblank, H. reflexivity.
Qed.

(** A blank, a tab and a line feed. *)
Lemma empty_result_iff_only_white_space_witness :
  AbuseDetector.analyze_text (String " " (String "009" (String "010" "")))
  = (false, 0%Q, AbuseDetector.Reason "Empty text").
Proof.
  apply (empty_result_iff_only_white_space
           (String " " (String "009" (String "010" "")))); reflexivity.
Defined.

(** The severity label agrees with the verdict: for every text,
    [get_abuse_severity] of the returned score is "LOW" exactly when the
    text is not flagged, that is, exactly when [is_safe_content] holds. *)
Theorem severity_low_iff_safe_content (text : string) :
  (AbuseDetector.get_abuse_severity
     (AbuseDetector.score_of (AbuseDetector.analyze_text text)) = "LOW"%string
   <-> AbuseDetector.is_abusive_of (AbuseDetector.analyze_text text) = false)
  /\ (AbuseDetector.is_safe_content text = true
      <-> AbuseDetector.get_abuse_severity
            (AbuseDetector.score_of (AbuseDetector.analyze_text text)) = "LOW"%string).
Proof.
  assert (H : AbuseDetector.is_abusive_of (AbuseDetector.analyze_text text)
              = Qle_bool 4 (AbuseDetector.score_of (AbuseDetector.analyze_text text))).
  { destruct (AbuseDetector.is_empty_text text) eqn:E.
    - unfold AbuseDetector.analyze_text. rewrite E. reflexivity.
    - destruct (analyze_text_score text E) as [-> ->]. reflexivity. }
  split.
  - rewrite severity_low, H. reflexivity.
  - unfold AbuseDetector.is_safe_content. rewrite severity_low, H.
    apply negb_true_iff.
Qed.

Section StripFacts.
Import Text AbuseDetector Views DetectorViews.

Lemma contains_nonempty (k s : string) :
  truthy k = true -> contains k s = true -> truthy s = true.
Proof.
  destruct k as [|a k]; [discriminate|]. intros _.
  destruct s; [discriminate | reflexivity].
Qed.

Lemma contains_lstrip (k s : string) :
  solid k = true -> contains k s = true -> contains k (lstrip s) = true.
Proof.
  destruct k as [|a k]; [discriminate|]. intros Hk.
  apply andb_true_iff in Hk as [Ha _]. apply negb_true_iff in Ha.
  induction s as [|c s IH]; intros H; [exact H|]. simpl.
  destruct (isspace c) eqn:Ec; [|exact H].
  simpl in H. apply orb_true_iff in H as [H|H]; [|exact (IH H)].
  apply andb_true_iff in H as [Hac _]. apply Ascii.eqb_eq in Hac. congruence.
Qed.

Lemma rstrip_cons (c : ascii) (s : string) :
  truthy (rstrip s) = true -> rstrip (String c s) = String c (rstrip s).
Proof. simpl. destruct (rstrip s); [discriminate | reflexivity]. Qed.

Lemma startswith_nonempty (k s : string) :
  truthy k = true -> startswith k s = true -> truthy s = true.
Proof.
  destruct k; [discriminate|]. destruct s; [discriminate | reflexivity].
Qed.

Lemma ends_solid_truthy (k : string) : ends_solid k = true -> truthy k = true.
Proof. destruct k; [discriminate | reflexivity]. Qed.

Lemma startswith_rstrip (k s : string) :
  ends_solid k = true -> startswith k s = true -> startswith k (rstrip s) = true.
Proof.
  revert s. induction k as [|a k IH]; intros s Hk H; [discriminate|].
  destruct s as [|b s]; [discriminate|].
  simpl in H. apply andb_true_iff in H as [Hab Hs].
  apply Ascii.eqb_eq in Hab. subst b.
  destruct k as [|a' k'].
  - simpl in Hk. apply negb_true_iff in Hk.
    simpl. destruct (rstrip s); [rewrite Hk|]; simpl;
      rewrite Ascii.eqb_refl; reflexivity.
  - assert (Hk' : ends_solid (String a' k') = true) by exact Hk.
    specialize (IH s Hk' Hs).
    rewrite rstrip_cons
      by (eapply startswith_nonempty; [|exact IH]; reflexivity).
    simpl. rewrite Ascii.eqb_refl. exact IH.
Qed.

Lemma contains_rstrip (k s : string) :
  ends_solid k = true -> contains k s = true -> contains k (rstrip s) = true.
Proof.
  intros Hk. induction s as [|c s IH]; intros H.
  - apply ends_solid_truthy in Hk. destruct k; discriminate.
  - simpl in H. apply orb_true_iff in H as [H|H].
    + apply startswith_contains, startswith_rstrip; assumption.
    + specialize (IH H).
      rewrite rstrip_cons
        by (eapply contains_nonempty; [apply ends_solid_truthy, Hk | exact IH]).
      simpl. rewrite IH. apply orb_true_r.
Qed.

(** [strip] never cuts into an occurrence of a solid term. *)
Lemma contains_strip (k s : string) :
  solid k = true -> contains k s = true -> contains k (strip s) = true.
Proof.
  intros Hk H. unfold strip. apply contains_rstrip.
  - destruct k; [discriminate|]. apply andb_true_iff in Hk as [_ Hk]. exact Hk.
  - apply contains_lstrip; assumption.
Qed.

Lemma nonblank_app (a b : string) :
  nonblank (a +:+ b) = nonblank a || nonblank b.
Proof.
  induction a as [|c a IH]; [reflexivity|].
  rewrite append_cons. simpl. rewrite IH. apply orb_assoc.
Qed.

Lemma solid_nonblank (k : string) : solid k = true -> nonblank k = true.
Proof.
  destruct k as [|c k]; [discriminate|]. intros H.
  apply andb_true_iff in H as [H _]. simpl. rewrite H. reflexivity.
Qed.

Lemma contains_nonblank (k s : string) :
  solid k = true -> contains k s = true -> nonblank s = true.
Proof.
  intros Hk H. destruct (contains_split _ _ H) as (a & b & ->).
  rewrite !nonblank_app, (solid_nonblank k Hk).
  rewrite orb_true_l. apply orb_true_r.
Qed.

Lemma detectable_solid (k : string) : In k detectable -> solid k = true.
Proof.
  unfold detectable, abusive_keywords, phrases_to_check. simpl. intros H.
  repeat (destruct H as [<-|H]; [reflexivity|]). destruct H.
Qed.

Lemma abusive_keywords_at_most_ten (k : string) (w : Q) :
  In (k, w) abusive_keywords -> (w <= 10)%Q.
Proof.
  unfold abusive_keywords. simpl.
  intros H. repeat (destruct H as [H|H]; [inversion H; subst; lra|]).
  destruct H.
Qed.

(** A text in which a detectable term occurs passes the guard. *)
Lemma occurrence_passes_guard (text k : string) :
  In k detectable -> contains k (lower text) = true ->
  is_empty_text text = false.
Proof.
  intros Hk H. rewrite is_empty_text_nonblank, <- nonblank_lower.
  rewrite (contains_nonblank k _ (detectable_solid k Hk) H). reflexivity.
Qed.

Lemma final_score_floor (text : string) (w : Q) :
  (w <= 10)%Q ->
  (w <= fst (pattern_phase (strip (lower text))))%Q ->
  (w <= final_score text)%Q.
Proof.
  intros H10 Hw. unfold final_score.
  apply Q.min_glb; [|exact H10].
  destruct (0 <? String.length (strip (lower text)))%nat; [|exact Hw].
  eapply Qle_trans; [exact Hw | apply style_adjust_ge].
Qed.

Lemma pattern_phase_ge_keyword_phase (t : string) :
  (fst (keyword_phase t) <= fst (pattern_phase t))%Q.
Proof.
  rewrite (pattern_phase_max t).
  destruct (pattern_matches t); [apply Q.le_max_l | apply Qle_refl].
Qed.

End StripFacts.

(** A listed keyword cannot be diluted or hidden.  If a keyword of
    [abusive_keywords] with weight [w] occurs anywhere in the text, in any
    letter case and even inside a longer word, the returned score is at
    least [w]; if one of the checked phrases occurs, the score is at least
    7.0.  Hence every keyword of weight 4.0 or more and every phrase flags
    the text. *)
Theorem occurrence_sets_score_floor (text : string) :
  (forall k w,
      In (k, w) AbuseDetector.abusive_keywords ->
      Text.contains k (Text.lower text) = true ->
      (w <= AbuseDetector.score_of (AbuseDetector.analyze_text text))%Q
      /\ ((4 <= w)%Q ->
          AbuseDetector.is_abusive_of (AbuseDetector.analyze_text text) = true))
  /\ (forall p,
        In p AbuseDetector.phrases_to_check ->
        Text.contains p (Text.lower text) = true ->
        (7 <= AbuseDetector.score_of (AbuseDetector.analyze_text text))%Q
        /\ AbuseDetector.is_abusive_of (AbuseDetector.analyze_text text) = true).
Proof.
  assert (Hfloor : forall k w,
    In k Views.detectable ->
    Text.contains k (Text.lower text) = true ->
    In w (Views.matched_weights (Text.strip (Text.lower text))) ->
    (w <= 10)%Q ->
    (w <= AbuseDetector.score_of (AbuseDetector.analyze_text text))%Q
    /\ ((4 <= w)%Q ->
        AbuseDetector.is_abusive_of (AbuseDetector.analyze_text text) = true)).
  { intros k w Hk Hc Hw H10.
    pose proof (occurrence_passes_guard text k Hk Hc) as Hguard.
    destruct (analyze_text_score text Hguard) as [-> ->].
    assert (Hs : (w <= Views.final_score text)%Q).
    { apply final_score_floor; [exact H10|].
      eapply Qle_trans; [|apply pattern_phase_ge_keyword_phase].
      rewrite keyword_phase_maximum. apply maximum_ge, Hw. }
    split; [exact Hs|].
    intros H4. apply Qle_bool_iff. lra. }
  split.
  - intros k w Hin Hc.
    assert (Hk : In k Views.detectable).
    { unfold Views.detectable. apply in_or_app. left.
      apply in_map_iff. exists (k, w). split; [reflexivity | exact Hin]. }
    apply (Hfloor k w Hk Hc).
    + unfold Views.matched_weights, Views.keyword_matches.
      apply in_or_app. left. apply in_map_iff. exists (k, w).
      split; [reflexivity|]. apply filter_In. split; [exact Hin|].
      apply contains_strip; [apply detectable_solid, Hk | exact Hc].
    + apply (abusive_keywords_at_most_ten k w Hin).
  - intros p Hin Hc.
    assert (Hp : In p Views.detectable).
    { unfold Views.detectable. apply in_or_app. right. exact Hin. }
    destruct (Hfloor p 7%Q Hp Hc) as [H7 Hab].
    + unfold Views.matched_weights, Views.phrase_matches.
      apply in_or_app. right. apply in_map_iff. exists p.
      split; [reflexivity|]. apply filter_In. split; [exact Hin|].
      apply contains_strip; [apply detectable_solid, Hp | exact Hc].
    + lra.
    + split; [exact H7|]. apply Hab. lra.
Qed.

Section HalfIntegerFacts.
Import Text AbuseDetector Views DetectorViews.
#[local] Open Scope Q_scope.

Lemma half_integer_int (z : Z) : half_integer (inject_Z z).
Proof.
  exists (2 * z)%Z. unfold Qeq, inject_Z. simpl. lia.
Qed.

Lemma half_integer_max (a b : Q) :
  half_integer a -> half_integer b -> half_integer (Qmax a b).
Proof.
  intros [n Hn] [m Hm].
  destruct (Q.max_dec a b) as [H|H]; [exists n | exists m]; rewrite H; assumption.
Qed.

Lemma half_integer_min (a b : Q) :
  half_integer a -> half_integer b -> half_integer (Qmin a b).
Proof.
  intros [n Hn] [m Hm].
  destruct (Q.min_dec a b) as [H|H]; [exists n | exists m]; rewrite H; assumption.
Qed.

Lemma half_integer_plus (a b : Q) :
  half_integer a -> half_integer b -> half_integer (a + b).
Proof.
  intros [n Hn] [m Hm]. exists (n + m)%Z. rewrite Hn, Hm.
  unfold Qeq, Qplus. simpl. lia.
Qed.

Lemma abusive_keywords_half_integer (k : string) (w : Q) :
  In (k, w) abusive_keywords -> half_integer w.
Proof.
  unfold abusive_keywords. simpl. intros H.
  repeat (destruct H as [H|H];
          [inversion H; subst;
           first [ apply (half_integer_int 9) | apply (half_integer_int 10)
                 | apply (half_integer_int 7) | apply (half_integer_int 6)
                 | apply (half_integer_int 5) | apply (half_integer_int 4)
                 | apply (half_integer_int 3) | apply (half_integer_int 8)
                 | (eexists; reflexivity) ] |]).
  destruct H.
Qed.

Lemma fold_left_max_half_integer (l : list Q) (a : Q) :
  half_integer a -> (forall w, In w l -> half_integer w) ->
  half_integer (fold_left Qmax l a).
Proof.
  revert a. induction l as [|w l IH]; intros a Ha Hl; simpl; [exact Ha|].
  apply IH.
  - apply half_integer_max; [exact Ha | apply Hl; left; reflexivity].
  - intros x Hx. apply Hl. right. exact Hx.
Qed.

Lemma matched_weights_half_integer (t : string) (w : Q) :
  In w (matched_weights t) -> half_integer w.
Proof.
  unfold matched_weights, keyword_matches, phrase_matches. intros H.
  apply in_app_or in H as [H|H]; apply in_map_iff in H as (x & <- & Hx).
  - apply filter_In in Hx as [Hx _]. destruct x as [k w].
    apply (abusive_keywords_half_integer k w Hx).
  - apply (half_integer_int 7).
Qed.

Lemma pattern_phase_half_integer (t : string) :
  half_integer (fst (pattern_phase t)).
Proof.
  rewrite pattern_phase_fold. apply fold_left_max_half_integer.
  - rewrite keyword_phase_fold. apply fold_left_max_half_integer.
    + apply (half_integer_int 0).
    + apply matched_weights_half_integer.
  - intros w H. apply in_map_iff in H as (x & <- & _).
    apply (half_integer_int 7).
Qed.

Lemma style_adjust_half_integer (text : string) (s : Q) :
  half_integer s -> half_integer (style_adjust text s).
Proof.
  intros H. unfold style_adjust.
  assert (H1 : half_integer (if shouting text then s + 1 else s)).
  { destruct (shouting text); [|exact H].
    apply half_integer_plus; [exact H | apply (half_integer_int 1)]. }
  destruct (aggressive_punctuation text); [|exact H1].
  apply half_integer_plus; [exact H1 | exists 1%Z; reflexivity].
Qed.

Lemma final_score_half_integer (text : string) : half_integer (final_score text).
Proof.
  unfold final_score. apply half_integer_min; [|apply (half_integer_int 10)].
  destruct (0 <? String.length (strip (lower text)))%nat.
  - apply style_adjust_half_integer, pattern_phase_half_integer.
  - apply pattern_phase_half_integer.
Qed.

End HalfIntegerFacts.

(** Every score [analyze_text] returns is one of 0, 0.5, 1, ..., 10: a
    whole number of halves between 0 and 20.  (All the floats involved are
    therefore exact, and so are [max], [min] and the two additions.) *)
Theorem score_is_multiple_of_one_half (text : string) :
  exists n : Z,
    (0 <= n <= 20)%Z
    /\ (AbuseDetector.score_of (AbuseDetector.analyze_text text) == n # 2)%Q.
Proof.
  assert (H : DetectorViews.half_integer
                (AbuseDetector.score_of (AbuseDetector.analyze_text text))).
  { destruct (AbuseDetector.is_empty_text text) eqn:E.
    - unfold AbuseDetector.analyze_text. rewrite E. exists 0%Z. reflexivity.
    - destruct (analyze_text_score text E) as [-> _].
      apply final_score_half_integer. }
  destruct H as [n Hn]. exists n. split; [|exact Hn].
  assert (R : (0 <= AbuseDetector.score_of (AbuseDetector.analyze_text text)
               /\ AbuseDetector.score_of (AbuseDetector.analyze_text text) <= 10)%Q).
  { destruct (AbuseDetector.is_empty_text text) eqn:E.
    - unfold AbuseDetector.analyze_text. rewrite E.
      unfold AbuseDetector.score_of. simpl. split; lra.
    - destruct (analyze_text_score text E) as [-> _]. apply final_score_range. }
  rewrite Hn in R. destruct R as [R0 R10].
  unfold Qle in R0, R10. simpl in R0, R10. lia.
Qed.

Section PatternFacts.
Import Text AbuseDetector Views DetectorViews.
#[local] Open Scope Q_scope.

Lemma take_startswith (n : nat) (s : string) : startswith (take n s) s = true.
Proof.
  revert s. induction n as [|n IH]; intros s; [reflexivity|].
  destruct s as [|c s]; [reflexivity|]. simpl.
  rewrite Ascii.eqb_refl. apply IH.
Qed.

Lemma contains_cons (m : string) (c : ascii) (s : string) :
  contains m s = true -> contains m (String c s) = true.
Proof. intros H. simpl. rewrite H. apply orb_true_r. Qed.

(** Every string [findall] returns occurs in the subject. *)
Lemma scan_contains (pat : Regex.pattern) (s : string) :
  forall prev skip m,
    In m (Regex.scan pat prev s skip) -> contains m s = true.
Proof.
  induction s as [|c s IH]; intros prev skip m H.
  - destruct skip; simpl in H; [|destruct H].
    destruct (Regex.match_at pat (prev, "")); simpl in H; [|destruct H].
    destruct H as [<-|[]]. destruct n; reflexivity.
  - destruct skip as [|k]; simpl in H.
    + destruct (Regex.match_at pat (prev, String c s)) as [n|].
      * destruct H as [<-|H].
        -- apply startswith_contains, take_startswith.
        -- apply contains_cons, (IH _ _ _ H).
      * apply contains_cons, (IH _ _ _ H).
    + apply contains_cons, (IH _ _ _ H).
Qed.

Lemma pattern_loop_snd_in (t : string) (l : list Regex.pattern)
    (acc : Q * list string) (m : string) :
  In m (snd (fold_left (pattern_step t) l acc)) ->
  In m (snd acc) \/ exists pat, In pat l /\ In m (Regex.findall pat t).
Proof.
  revert acc. induction l as [|p l IH]; intros acc H; simpl in H; [left; exact H|].
  destruct (IH _ H) as [Hacc|(pat & Hp & Hm)].
  - unfold pattern_step in Hacc.
    destruct (Regex.findall p t) as [|x xs] eqn:E; [left; exact Hacc|].
    simpl in Hacc. apply in_app_or in Hacc as [Hacc|Hacc]; [left; exact Hacc|].
    right. exists p. split; [left; reflexivity | rewrite E; exact Hacc].
  - right. exists pat. split; [right; exact Hp | exact Hm].
Qed.

Lemma analysis_lists (text : string) :
  is_empty_text text = false ->
  keywords_of text = snd (keyword_phase (strip (lower text)))
  /\ patterns_of text = snd (pattern_phase (strip (lower text))).
Proof.
  intros H. unfold keywords_of, patterns_of, analyze_text. rewrite H.
  destruct (pattern_phase (strip (lower text))). split; reflexivity.
Qed.

Lemma analysis_lists_empty (text : string) :
  is_empty_text text = true ->
  keywords_of text = [] /\ patterns_of text = [] /\ category_of text = None.
Proof.
  intros H. unfold keywords_of, patterns_of, category_of, analyze_text.
  rewrite H. repeat split.
Qed.

Lemma pattern_hit_matches (t : string) (pat : Regex.pattern) (m : string) :
  In pat abusive_patterns -> In m (Regex.findall pat t) ->
  pattern_matches t = true.
Proof.
  intros Hp Hm. unfold pattern_matches. apply existsb_exists.
  exists pat. split; [exact Hp|]. unfold pattern_hit.
  destruct (Regex.findall pat t); [destruct Hm | reflexivity].
Qed.

End PatternFacts.

(** Whatever [analyze_text] lists under [detected_patterns] is a span of
    the lower-cased, stripped text, and one such match is enough to flag
    the text: the score is then at least 7.0. *)
Theorem detected_pattern_is_span_and_flags (text m : string) :
  In m (DetectorViews.patterns_of text) ->
  Text.contains m (Text.strip (Text.lower text)) = true
  /\ (7 <= AbuseDetector.score_of (AbuseDetector.analyze_text text))%Q
  /\ AbuseDetector.is_abusive_of (AbuseDetector.analyze_text text) = true.
Proof.
  intros H.
  destruct (AbuseDetector.is_empty_text text) eqn:E.
  { destruct (analysis_lists_empty text E) as (_ & Hp & _).
    rewrite Hp in H. destruct H. }
  destruct (analysis_lists text E) as [_ Hp]. rewrite Hp in H.
  unfold AbuseDetector.pattern_phase, AbuseDetector.pattern_loop in H.
  apply pattern_loop_snd_in in H as [[]|(pat & Hpat & Hm)].
  split; [apply (scan_contains pat _ None 0%nat m Hm)|].
  destruct (analyze_text_score text E) as [-> ->].
  assert (H7 : (7 <= Views.final_score text)%Q).
  { apply final_score_floor; [lra|].
    rewrite (pattern_phase_max (Text.strip (Text.lower text))).
    rewrite (pattern_hit_matches _ pat m Hpat Hm). apply Q.le_max_r. }
  split; [exact H7|]. apply Qle_bool_iff. lra.
Qed.

(** "You are so stupid" matches the first pattern. *)
Lemma detected_pattern_is_span_and_flags_witness :
  Text.contains "you are so stupid" "you are so stupid" = true
  /\ AbuseDetector.is_abusive_of (AbuseDetector.analyze_text "You are so stupid") = true.
Proof.
  destruct (detected_pattern_is_span_and_flags "You are so stupid" "you are so stupid")
    as (H1 & _ & H3).
  - vm_compute. left. reflexivity.
  - split; [exact H1 | exact H3].
Defined.

Section CaseFacts.
Import Text AbuseDetector Views DetectorViews.
#[local] Open Scope Q_scope.

Lemma lower_char_idempotent (c : ascii) : lower_char (lower_char c) = lower_char c.
Proof. destruct c as [[] [] [] [] [] [] [] []]; reflexivity. Qed.

Lemma isupper_lower_char (c : ascii) : isupper (lower_char c) = false.
Proof. destruct c as [[] [] [] [] [] [] [] []]; reflexivity. Qed.

Lemma is_punct_lower_char (c : ascii) : is_punct (lower_char c) = is_punct c.
Proof. destruct c as [[] [] [] [] [] [] [] []]; reflexivity. Qed.

Lemma lower_idempotent (s : string) : lower (lower s) = lower s.
Proof.
  induction s as [|c s IH]; [reflexivity|]. simpl.
  rewrite lower_char_idempotent, IH. reflexivity.
Qed.

Lemma length_lower (s : string) : String.length (lower s) = String.length s.
Proof. induction s as [|c s IH]; [reflexivity|]. simpl. now rewrite IH. Qed.

Lemma count_upper_lower (s : string) : count isupper (lower s) = 0%nat.
Proof.
  induction s as [|c s IH]; [reflexivity|]. simpl.
  rewrite isupper_lower_char, IH. reflexivity.
Qed.

Lemma count_punct_lower (s : string) : count is_punct (lower s) = count is_punct s.
Proof.
  induction s as [|c s IH]; [reflexivity|]. simpl.
  rewrite is_punct_lower_char, IH. reflexivity.
Qed.

Lemma shouting_lower (text : string) : shouting (lower text) = false.
Proof.
  unfold shouting, ratio. rewrite count_upper_lower. reflexivity.
Qed.

Lemma aggressive_punctuation_lower (text : string) :
  aggressive_punctuation (lower text) = aggressive_punctuation text.
Proof.
  unfold aggressive_punctuation. rewrite count_punct_lower, length_lower.
  reflexivity.
Qed.

Lemma is_empty_text_lower (text : string) :
  is_empty_text (lower text) = is_empty_text text.
Proof. rewrite !is_empty_text_nonblank, nonblank_lower. reflexivity. Qed.

Lemma final_score_lower (text : string) :
  final_score (lower text) <= final_score text.
Proof.
  unfold final_score. rewrite lower_idempotent.
  apply Q.min_le_compat_r.
  destruct (0 <? String.length (strip (lower text)))%nat; [|apply Qle_refl].
  unfold style_adjust.
  rewrite shouting_lower, aggressive_punctuation_lower.
  destruct (shouting text), (aggressive_punctuation text); lra.
Qed.

End CaseFacts.

(** Letter case changes nothing but the shouting bonus.  An ASCII text
    and its lower-cased form have the same detected keywords, the same
    detected patterns and the same category, and lower-casing never raises
    the score.  (Beyond ASCII, [lower] can change the length of a text and
    leave upper-case characters behind.) *)
Theorem detection_ignores_letter_case (text : string) :
  DetectorViews.ascii_only text = true ->
  DetectorViews.keywords_of (Text.lower text) = DetectorViews.keywords_of text
  /\ DetectorViews.patterns_of (Text.lower text) = DetectorViews.patterns_of text
  /\ Views.category_of (Text.lower text) = Views.category_of text
  /\ (AbuseDetector.score_of (AbuseDetector.analyze_text (Text.lower text))
      <= AbuseDetector.score_of (AbuseDetector.analyze_text text))%Q.
Proof.
  intros _.
  destruct (AbuseDetector.is_empty_text text) eqn:E.
  - pose proof (is_empty_text_lower text) as El. rewrite E in El.
    destruct (analysis_lists_empty text E) as (-> & -> & ->).
    destruct (analysis_lists_empty _ El) as (-> & -> & ->).
    repeat split.
    unfold AbuseDetector.analyze_text. rewrite E, El. apply Qle_refl.
  - pose proof (is_empty_text_lower text) as El. rewrite E in El.
    destruct (analysis_lists text E) as [-> ->].
    destruct (analysis_lists _ El) as [-> ->].
    rewrite (category_of_text text E), (category_of_text _ El).
    rewrite lower_idempotent.
    repeat split.
    destruct (analyze_text_score text E) as [-> _].
    destruct (analyze_text_score _ El) as [-> _].
    apply final_score_lower.
Qed.

(** A shouted insult and its lower-cased form. *)
Lemma detection_ignores_letter_case_witness :
  DetectorViews.keywords_of (Text.lower "YOU ARE AN IDIOT")
  = DetectorViews.keywords_of "YOU ARE AN IDIOT"
  /\ (AbuseDetector.score_of (AbuseDetector.analyze_text (Text.lower "YOU ARE AN IDIOT"))
      <= AbuseDetector.score_of (AbuseDetector.analyze_text "YOU ARE AN IDIOT"))%Q.
Proof.
  destruct (detection_ignores_letter_case "YOU ARE AN IDIOT" eq_refl)
    as (Hk & _ & _ & Hs).
  split; [exact Hk | exact Hs].
Defined.

(* ===================================================================== *)
(** * Further properties of the connection manager *)
(* ===================================================================== *)

(** One step of a computation on an explicit state record. *)
Ltac on_record :=
  repeat match goal with
  | |- context [Runtime.set_abuse_counters ?g (Runtime.Build_state ?a ?c ?d ?f ?w)] =>
      change (Runtime.set_abuse_counters g (Runtime.Build_state a c d f w))
        with (Runtime.Build_state a (g c) d f w)
  | |- context [Runtime.set_db ?g (Runtime.Build_state ?a ?c ?d ?f ?w)] =>
      change (Runtime.set_db g (Runtime.Build_state a c d f w))
        with (Runtime.Build_state a c (g d) f w)
  | |- context [Runtime.set_fs ?g (Runtime.Build_state ?a ?c ?d ?f ?w)] =>
      change (Runtime.set_fs g (Runtime.Build_state a c d f w))
        with (Runtime.Build_state a c d (g f) w)
  | |- context [Runtime.set_wire ?g (Runtime.Build_state ?a ?c ?d ?f ?w)] =>
      change (Runtime.set_wire g (Runtime.Build_state a c d f w))
        with (Runtime.Build_state a c d f (g w))
  | |- context [Runtime.set_active_connections ?g (Runtime.Build_state ?a ?c ?d ?f ?w)] =>
      change (Runtime.set_active_connections g (Runtime.Build_state a c d f w))
        with (Runtime.Build_state (g a) c d f w)
  end;
  cbv beta;
  cbn [Runtime.abuse_counters Runtime.active_connections Runtime.db Runtime.fs
       Runtime.wire].

Ltac exec_step :=
  first [ rewrite bind_get | rewrite bind_modify | rewrite bind_ret
        | rewrite bind_raise ];
  cbv beta; on_record.

Section RegistryFacts.
Import Runtime Files Store AbuseDetector ConnectionManager TrackerViews.

Lemma connect_run (websocket : socket) (user_id : Z) (st : state) :
  connect websocket user_id st
  = (set_active_connections (fun c => <[user_id := websocket]> c) st, Ok tt).
Proof. reflexivity. Qed.

Lemma disconnect_run (user_id : Z) (st : state) :
  disconnect user_id st
  = (set_active_connections (fun c => delete user_id c) st, Ok tt).
Proof.
  unfold disconnect, modify, set_active_connections.
  destruct st as [ac cnt d f w]. cbn [active_connections abuse_counters db fs wire].
  destruct (ac !! user_id) eqn:E; [reflexivity|].
  rewrite delete_id by exact E. reflexivity.
Qed.

End RegistryFacts.

(** The registry is last-writer-wins.  After [connect] of a socket for a
    participant, a personal message to that participant goes to that socket
    and to no other, whatever socket was registered before; after
    [disconnect], a personal message to the participant puts nothing on the
    wire; [disconnect] of a participant who is not connected changes
    nothing; and neither operation touches another participant's entry. *)
Theorem registry_last_writer_wins
    (websocket : Runtime.socket) (u v : Z) (m : Runtime.message_data)
    (st : Runtime.state) :
  Runtime.wire
    (fst (ConnectionManager.send_personal_message m u
            (fst (ConnectionManager.connect websocket u st))))
  = Runtime.wire st ++ [(websocket, Runtime.MessagePayload m)]
  /\ Runtime.wire
       (fst (ConnectionManager.send_personal_message m u
               (fst (ConnectionManager.disconnect u st))))
     = Runtime.wire st
  /\ (Runtime.active_connections st !! u = None ->
      ConnectionManager.disconnect u st = (st, Runtime.Ok tt))
  /\ (u <> v ->
      Runtime.active_connections (fst (ConnectionManager.connect websocket u st)) !! v
      = Runtime.active_connections st !! v
      /\ Runtime.active_connections (fst (ConnectionManager.disconnect u st)) !! v
         = Runtime.active_connections st !! v).
Proof.
  destruct st as [ac cnt d f w].
  unfold ConnectionManager.send_personal_message.
  rewrite !send_if_connected_run, connect_run, disconnect_run.
  unfold TrackerViews.deliver. cbn.
  rewrite lookup_insert_eq, lookup_delete_eq. cbn.
  repeat split.
  - intros H. unfold Runtime.set_active_connections. cbn.
    rewrite delete_id by exact H. reflexivity.
  - apply lookup_insert_ne. assumption.
  - apply lookup_delete_ne. assumption.
Qed.

Section MissingKeyFacts.
Import Runtime Files Store AbuseDetector ConnectionManager TrackerViews.

Lemma count_incident_counters (env : environment) (md : message_data)
    (c : gmap string Pair.t) :
  alter add_count (key_of md)
    (match c !! key_of md with
     | None => <[key_of md := fresh_pair env]> c
     | Some _ => c
     end)
  = counted env md c.
Proof.
  unfold counted, pair_before.
  destruct (c !! key_of md) as [p|] eqn:E; cbn.
  - apply map_eq. intros j. destruct (decide (key_of md = j)) as [<-|Hne].
    + rewrite lookup_alter_eq, lookup_insert_eq, E. reflexivity.
    + rewrite lookup_alter_ne, lookup_insert_ne by exact Hne. reflexivity.
  - apply alter_insert_eq.
Qed.

Lemma handle_abusive_message_no_id (env : environment) (md : message_data)
    (a : analysis) (st : state) :
  id md = None ->
  handle_abusive_message env md a st
  = (set_abuse_counters (counted env md) st, Raise (KeyError "id")).
Proof.
  intros Hid.
  pose proof (count_incident_counters env md (abuse_counters st)) as Hc.
  destruct st as [ac cnt d f w]. cbn [abuse_counters] in Hc.
  unfold handle_abusive_message, get_id. rewrite Hid.
  fold (key_of md). exec_step.
  assert (Hinit :
    forall K : unit -> M unit,
      bind (match cnt !! key_of md with
            | None => modify (set_abuse_counters
                                (fun c => <[key_of md := fresh_pair env]> c))
            | Some _ => ret tt
            end) K
        {| active_connections := ac; abuse_counters := cnt; db := d; fs := f; wire := w |}
      = K tt {| active_connections := ac;
                abuse_counters := match cnt !! key_of md with
                                  | None => <[key_of md := fresh_pair env]> cnt
                                  | Some _ => cnt
                                  end;
                db := d; fs := f; wire := w |}).
  { intros K. destruct (cnt !! key_of md); reflexivity. }
  rewrite Hinit. clear Hinit. cbv beta.
  do 2 exec_step. rewrite Hc. reflexivity.
Qed.

End MissingKeyFacts.

(** A message without an id is counted but not logged.  Called on a
    [message_data] that has no ["id"] key, [handle_abusive_message] raises
    KeyError after the pair's counter was incremented and before the log
    entry is appended: the counter is one higher, the log is unchanged and
    nothing else happened, so the counter no longer equals the length of the
    log. *)
Theorem missing_id_counts_without_logging
    (env : Runtime.environment) (md : Runtime.message_data)
    (a : AbuseDetector.analysis) (st : Runtime.state) :
  Runtime.id md = None ->
  TrackerViews.counters_consistent st ->
  exists st' p,
    ConnectionManager.handle_abusive_message env md a st
    = (st', Runtime.Raise (Runtime.KeyError "id"))
    /\ Runtime.abuse_counters st' !! TrackerViews.key_of md = Some p
    /\ Pair.count p
       = (Pair.count (TrackerViews.pair_before env md (Runtime.abuse_counters st)) + 1)%Z
    /\ Pair.messages p
       = Pair.messages (TrackerViews.pair_before env md (Runtime.abuse_counters st))
    /\ Pair.count p = (Z.of_nat (List.length (Pair.messages p)) + 1)%Z
    /\ Runtime.wire st' = Runtime.wire st
    /\ Runtime.db st' = Runtime.db st
    /\ Runtime.fs st' = Runtime.fs st.
Proof.
  intros Hid Hcons.
  rewrite (handle_abusive_message_no_id env md a st Hid).
  destruct st as [ac cnt d f w]. cbn in *.
  eexists _, _. split; [reflexivity|].
  split; [unfold TrackerViews.counted; apply lookup_insert_eq|].
  cbn. repeat split.
  unfold TrackerViews.pair_before.
  destruct (cnt !! TrackerViews.key_of md) as [p|] eqn:E; cbn.
  - rewrite (Hcons _ _ E). reflexivity.
  - reflexivity.
Qed.

(** Bob's insult, handed to the tracker before it was stored. *)
Lemma missing_id_counts_without_logging_witness :
  exists st',
    ConnectionManager.handle_abusive_message Fixture.fair
      (Main.classified Fixture.insult_frame) Fixture.insult_analysis Fixture.offline
    = (st', Runtime.Raise (Runtime.KeyError "id")).
Proof.
  destruct (missing_id_counts_without_logging Fixture.fair
              (Main.classified Fixture.insult_frame) Fixture.insult_analysis
              Fixture.offline eq_refl) as (st' & p & H & _).
  - apply map_Forall_empty.
  - exists st'. exact H.
Defined.

(* ===================================================================== *)
(** * Further properties of the evidence packaging *)
(* ===================================================================== *)

(** A report for a participant who is not on file fails before anything is
    written.  With the database up, if the sender or the receiver is not a
    row of [users], [generate_evidence_report] raises AttributeError (the
    read of [.username] on [None]) before any file is written: the
    registry, the counters, the tables and every file are as they were. *)
Theorem report_for_unknown_user_writes_nothing
    (env : Runtime.environment) (s r : Z) (messages : list Files.incident)
    (st : Runtime.state) :
  Runtime.db_up env = true ->
  Store.users (Runtime.db st) !! s = None \/ Store.users (Runtime.db st) !! r = None ->
  ConnectionManager.generate_evidence_report env s r messages st
  = (st, Runtime.Raise (Runtime.AttributeError "username")).
Proof.
  intros Hdb H.
  unfold ConnectionManager.generate_evidence_report, ConnectionManager.query_user,
    ConnectionManager.attributes, Runtime.bind, Runtime.get, Runtime.ret, Runtime.raise.
  rewrite Hdb.
  destruct (Store.users (Runtime.db st) !! s) as [su|],
           (Store.users (Runtime.db st) !! r) as [ru|];
    try reflexivity.
  destruct H; discriminate.
Qed.

(** User 9 is not on file. *)
Lemma report_for_unknown_user_writes_nothing_witness :
  ConnectionManager.generate_evidence_report Fixture.fair 2 9
    [TrackerViews.incident_of Fixture.fair (Fixture.insult 1) 1] Fixture.offline
  = (Fixture.offline, Runtime.Raise (Runtime.AttributeError "username")).
Proof.
  apply (report_for_unknown_user_writes_nothing Fixture.fair 2 9).
  - reflexivity.
  - right. reflexivity.
Defined.

(** Packaging an empty list of messages fails half-way.  With the database
    up and both users on file, [generate_evidence_report] on [[]] gets no
    screenshot, never binds [temp_screenshot_path] and raises
    UnboundLocalError on reading it inside the ZIP block: an archive holding
    only the JSON report is left on disk, no path is returned, and the JSON
    and README working files stay in the temp directory. *)
Theorem empty_report_leaves_partial_archive
    (env : Runtime.environment) (s r : Z) (su ru : Store.User) (st : Runtime.state) :
  Runtime.db_up env = true ->
  Store.users (Runtime.db st) !! s = Some su ->
  Store.users (Runtime.db st) !! r = Some ru ->
  exists st',
    ConnectionManager.generate_evidence_report env s r [] st
    = (st', Runtime.Raise (Runtime.UnboundLocalError "temp_screenshot_path"))
    /\ Files.archives (Runtime.fs st')
       = Files.archives (Runtime.fs st)
         ++ [(ConnectionManager.zip_path env,
              [TrackerViews.json_member_of env s r su ru []])]
    /\ Files.screenshots (Runtime.fs st') = Files.screenshots (Runtime.fs st)
    /\ ConnectionManager.in_temp (ConnectionManager.json_filename env) (Runtime.fs st')
       = true
    /\ ConnectionManager.in_temp "README.txt" (Runtime.fs st') = true.
Proof.
  intros Hdb Hs Hr.
  destruct st as [ac cnt d f w]. simpl in Hs, Hr.
  unfold ConnectionManager.generate_evidence_report, ConnectionManager.query_user,
    ConnectionManager.attributes, Runtime.bind, Runtime.get, Runtime.ret.
  rewrite Hdb. cbn [Runtime.db]. rewrite Hs, Hr.
  unfold ConnectionManager.screenshot_messages_of,
    ScreenshotGenerator.generate_evidence_screenshot,
    ConnectionManager.write_temp, ConnectionManager.write_archive,
    Runtime.bind, Runtime.modify, Runtime.ret, Runtime.raise, Runtime.get,
    Runtime.set_fs.
  cbn [map Runtime.fs Files.screenshots Files.archives Files.temp
       Runtime.active_connections Runtime.abuse_counters Runtime.db Runtime.wire
       fst snd].
  eexists. split; [reflexivity|].
  cbn [Runtime.fs Files.screenshots Files.archives Files.temp].
  split; [reflexivity|]. split; [reflexivity|].
  unfold ConnectionManager.in_temp. cbn [Files.temp Files.member_name].
  split.
  - rewrite existsb_app. apply orb_true_iff. left.
    apply existsb_exists. eexists. split.
    + apply filter_In. split.
      * apply in_or_app. right. left. reflexivity.
      * reflexivity.
    + apply String.eqb_refl.
  - rewrite existsb_app. apply orb_true_iff. right. reflexivity.
Qed.

Lemma empty_report_leaves_partial_archive_witness :
  snd (ConnectionManager.generate_evidence_report Fixture.fair 2 1 [] Fixture.offline)
  = Runtime.Raise (Runtime.UnboundLocalError "temp_screenshot_path").
Proof.
  destruct (empty_report_leaves_partial_archive Fixture.fair 2 1 Fixture.bob
              Fixture.alice Fixture.offline eq_refl eq_refl eq_refl)
    as (st' & H & _).
  rewrite H. reflexivity.
Defined.

(* --------------------------------------------------------------------- *)
(** ** The aggregates of the JSON report *)

Section AggregateFacts.
Import Runtime Files Store AbuseDetector ConnectionManager.
Open Scope Q_scope.

Lemma Qgtb_lt (a c : Q) : Qgtb a c = true <-> c < a.
Proof.
  unfold Qgtb. rewrite negb_true_iff.
  split.
  - intros H. apply Qnot_le_lt. intros Hle.
    apply Qle_bool_iff in Hle. congruence.
  - intros H. destruct (Qle_bool a c) eqn:E; [|reflexivity].
    apply Qle_bool_iff in E. exfalso. apply (Qlt_not_le _ _ H E).
Qed.

Lemma fold_max_lt {A : Type} (g : A -> Q) (c : Q) (rest : list A) (a : Q) :
  c < fold_left (fun m x => Qmax m (g x)) rest a
  <-> c < a \/ Exists (fun x => c < g x) rest.
Proof.
  revert a. induction rest as [|x rest IH]; intros a; simpl.
  - split; [tauto|]. intros [H|H]; [exact H | inversion H].
  - rewrite IH, Q.max_lt_iff, List.Exists_cons. tauto.
Qed.

Lemma fold_max_ge {A : Type} (g : A -> Q) (rest : list A) (a : Q) :
  a <= fold_left (fun m x => Qmax m (g x)) rest a
  /\ Forall (fun x => g x <= fold_left (fun m x => Qmax m (g x)) rest a) rest.
Proof.
  revert a. induction rest as [|x rest IH]; intros a; simpl.
  - split; [apply Qle_refl | constructor].
  - destruct (IH (Qmax a (g x))) as [H1 H2]. split; [|constructor].
    + eapply Qle_trans; [apply Q.le_max_l | exact H1].
    + eapply Qle_trans; [apply Q.le_max_r | exact H1].
    + exact H2.
Qed.

Lemma severity_of_high (messages : list incident) :
  severity_of messages = "HIGH"%string
  <-> Exists (fun msg => 8 < get_abuse_score msg) messages.
Proof.
  unfold severity_of.
  destruct (existsb (fun msg => Qgtb (get_abuse_score msg) 8) messages) eqn:E.
  - split; [intros _ | reflexivity].
    apply existsb_exists in E as (x & Hin & Hx).
    apply List.Exists_exists. exists x. split; [exact Hin | apply Qgtb_lt, Hx].
  - split; [discriminate|]. intros H. exfalso.
    apply List.Exists_exists in H as (x & Hin & Hx).
    assert (existsb (fun msg => Qgtb (get_abuse_score msg) 8) messages = true)
      by (apply existsb_exists; exists x; split; [exact Hin | apply Qgtb_lt, Hx]).
    congruence.
Qed.

Lemma highest_score_above (messages : list incident) (c : Q) :
  0 <= c ->
  c < highest_score_of messages
  <-> Exists (fun msg => c < get_abuse_score msg) messages.
Proof.
  intros Hc. destruct messages as [|m rest]; simpl.
  - split; [intros H; exfalso; apply (Qlt_not_le _ _ H Hc) | intros H; inversion H].
  - rewrite fold_max_lt, List.Exists_cons. tauto.
Qed.

Lemma evidence_level_high (score : Q) :
  evidence_level_of score = "HIGH"%string <-> 8 < score.
Proof.
  unfold evidence_level_of. rewrite <- Qgtb_lt.
  destruct (Qgtb score 8); [tauto|].
  destruct (Qgtb score 6); split; discriminate.
Qed.

End AggregateFacts.

(** The fields of one JSON report agree with each other.  For every list of
    messages, [severity] is "HIGH" exactly when [highest_abuse_score]
    exceeds 8, which is exactly when some listed message has evidence level
    "HIGH"; otherwise it is "MEDIUM".  No listed message scores above
    [highest_abuse_score], [total_abusive_messages] counts the listed
    messages, and the README states the same severity. *)
Theorem report_severity_follows_highest_score
    (env : Runtime.environment) (s r : Z) (su ru : Store.User)
    (messages : list Files.incident) :
  let data := ConnectionManager.report_data_of env s r su ru messages in
  (Files.severity data = "HIGH"%string <-> (8 < Files.highest_abuse_score data)%Q)
  /\ (Files.severity data = "HIGH"%string
      <-> Exists (fun m => Files.rm_evidence_level m = "HIGH"%string)
            (Files.evidence_messages data))
  /\ (Files.severity data <> "HIGH"%string -> Files.severity data = "MEDIUM"%string)
  /\ Forall (fun m => (Files.rm_abuse_score m <= Files.highest_abuse_score data)%Q)
        (Files.evidence_messages data)
  /\ Files.total_abusive_messages data = List.length (Files.evidence_messages data)
  /\ Files.readme_severity (ConnectionManager.readme_of env s r su ru messages)
     = Files.severity data.
Proof.
  cbv zeta.
  cbn [ConnectionManager.report_data_of ConnectionManager.readme_of
       Files.severity Files.highest_abuse_score Files.evidence_messages
       Files.total_abusive_messages Files.readme_severity].
  repeat split.
  - intros H. apply highest_score_above; [discriminate|]. apply severity_of_high, H.
  - intros H. apply severity_of_high. apply highest_score_above in H; [exact H|discriminate].
  - intros H. apply severity_of_high in H.
    apply List.Exists_exists in H as (x & Hin & Hx).
    apply List.Exists_exists. exists (ConnectionManager.report_message_of x).
    split; [apply in_map, Hin|]. apply evidence_level_high, Hx.
  - intros H. apply severity_of_high.
    apply List.Exists_exists in H as (m & Hin & Hm).
    apply in_map_iff in Hin as (x & <- & Hin).
    apply List.Exists_exists. exists x. split; [exact Hin|].
    apply evidence_level_high, Hm.
  - unfold ConnectionManager.severity_of.
    destruct (existsb _ messages); [intros H; exfalso; apply H; reflexivity | reflexivity].
  - apply List.Forall_forall. intros m Hin.
    apply in_map_iff in Hin as (x & <- & Hin).
    cbn [Files.rm_abuse_score ConnectionManager.report_message_of].
    destruct messages as [|m0 rest]; [inversion Hin|].
    cbn [ConnectionManager.highest_score_of].
    destruct (fold_max_ge ConnectionManager.get_abuse_score rest
                (ConnectionManager.get_abuse_score m0)) as [H1 H2].
    destruct Hin as [<-|Hin]; [exact H1|].
    rewrite List.Forall_forall in H2. apply H2, Hin.
  - symmetry. apply length_map.
Qed.

(* --------------------------------------------------------------------- *)
(** ** What the tracker hands to the packaging *)

(** The evidence the tracker writes never carries the classifier's
    category.  The log entry [handle_abusive_message] appends has no
    ["abuse_type"] key, so whatever [message_data["abuse_type"]] and the
    analysis say, the archive of a call that succeeds lists the message with
    its own content and score but as CYBERBULLYING, in the JSON report, in
    the rows of the image and in the README alike. *)
Theorem tracker_evidence_drops_classification
    (env : Runtime.environment) (md : Runtime.message_data)
    (a : AbuseDetector.analysis) (i : Z) (su ru : Store.User) (st : Runtime.state) :
  Runtime.id md = Some i ->
  Runtime.db_up env = true ->
  Runtime.image_writable env = true ->
  Store.users (Runtime.db st) !! Runtime.sender_id md = Some su ->
  Store.users (Runtime.db st) !! Runtime.receiver_id md = Some ru ->
  exists st' data img text,
    ConnectionManager.handle_abusive_message env md a st = (st', Runtime.Ok tt)
    /\ last (Files.archives (Runtime.fs st'))
       = Some (ConnectionManager.zip_path env,
               [ Files.JsonFile (ConnectionManager.json_filename env) data;
                 Files.ImageFile (ConnectionManager.screenshot_filename env) img;
                 Files.ReadmeFile "README.txt" text ])
    /\ map Files.rm_content (Files.evidence_messages data) = [Some (Runtime.content md)]
    /\ map Files.rm_abuse_score (Files.evidence_messages data) = [Runtime.abuse_score md]
    /\ map Files.rm_abuse_type (Files.evidence_messages data)
       = [AbuseDetector.CYBERBULLYING]
    /\ Files.abuse_types_detected data = [AbuseDetector.CYBERBULLYING]
    /\ map Files.shot_abuse_type (Files.image_rows img) = [AbuseDetector.CYBERBULLYING]
    /\ Files.readme_abuse_types text = [AbuseDetector.CYBERBULLYING].
Proof.
  intros Hid Hdb Himg Hs Hr.
  eexists _, _, _, _. split.
  - apply (handle_abusive_message_ok env md a i su ru st); assumption.
  - destruct (handled_components env md i su ru st _ eq_refl)
      as (_ & _ & _ & _ & -> & _).
    rewrite last_snoc. unfold TrackerViews.evidence_members.
    split; [reflexivity|].
    repeat split.
Qed.

(** A threat, classified THREAT with score 10, reaches the tracker. *)
Lemma tracker_evidence_drops_classification_witness :
  exists st' data img text,
    ConnectionManager.handle_abusive_message Fixture.fair (Samples.threat 1)
      (AbuseDetector.analysis_of (AbuseDetector.analyze_text "i will kill you"))
      Fixture.offline = (st', Runtime.Ok tt)
    /\ last (Files.archives (Runtime.fs st'))
       = Some (ConnectionManager.zip_path Fixture.fair,
               [ Files.JsonFile (ConnectionManager.json_filename Fixture.fair) data;
                 Files.ImageFile (ConnectionManager.screenshot_filename Fixture.fair) img;
                 Files.ReadmeFile "README.txt" text ])
    /\ map Files.rm_content (Files.evidence_messages data)
       = [Some (Runtime.content (Samples.threat 1))]
    /\ map Files.rm_abuse_score (Files.evidence_messages data)
       = [Runtime.abuse_score (Samples.threat 1)]
    /\ map Files.rm_abuse_type (Files.evidence_messages data)
       = [AbuseDetector.CYBERBULLYING]
    /\ Files.abuse_types_detected data = [AbuseDetector.CYBERBULLYING]
    /\ map Files.shot_abuse_type (Files.image_rows img) = [AbuseDetector.CYBERBULLYING]
    /\ Files.readme_abuse_types text = [AbuseDetector.CYBERBULLYING].
Proof.
  apply (tracker_evidence_drops_classification Fixture.fair (Samples.threat 1) _ 1
           Fixture.bob Fixture.alice Fixture.offline); reflexivity.
Defined.

(* --------------------------------------------------------------------- *)
(** ** Every way a report can end *)

Section OutcomeFacts.
Import Runtime Files Store AbuseDetector ConnectionManager TrackerViews.

Lemma existsb_snoc_name (name : string) (l : list member) (m : member) :
  member_name m = name ->
  existsb (fun x => String.eqb (member_name x) name) (l ++ [m]) = true.
Proof.
  intros <-. rewrite existsb_app. apply orb_true_iff. right.
  simpl. rewrite String.eqb_refl. reflexivity.
Qed.

(** A report either returns the archive's path with the temp directory
    emptied, or raises one of five errors: before anything is written (the
    database is down, or a participant is not on file), or with the JSON
    working file left behind (the renderer could not read a timestamp or
    could not write its image, or there was no message to render). *)
Lemma generate_evidence_report_outcome (env : environment) (s r : Z)
    (messages : list incident) (st st' : state) (res : result string) :
  generate_evidence_report env s r messages st = (st', res) ->
  match res with
  | Ok path =>
      path = zip_path env /\ temp (fs st') = [] /\ messages <> []
      /\ db_up env = true /\ readable env messages = true
      /\ image_writable env = true
  | Raise e =>
      (st' = st
       /\ (e = OperationalError /\ db_up env = false
           \/ e = AttributeError "username" /\ db_up env = true))
      \/ (in_temp (json_filename env) (fs st') = true
          /\ archives (fs st') = archives (fs st)
          /\ messages <> []
          /\ (e = ValueError /\ readable env messages = false
              \/ e = OSError /\ readable env messages = true
                 /\ image_writable env = false))
      \/ (in_temp (json_filename env) (fs st') = true
          /\ e = UnboundLocalError "temp_screenshot_path" /\ messages = [])
  end.
Proof.
  destruct st as [ac cnt d f w].
  unfold generate_evidence_report, query_user, attributes, bind, get, ret, raise.
  destruct (db_up env).
  2:{ intros H. injection H as <- <-. left. split; [reflexivity|]. left. split; reflexivity. }
  cbn [db]. destruct (users d !! s) as [su|], (users d !! r) as [ru|];
    try (intros H; injection H as <- <-; left; split; [reflexivity|];
         right; split; reflexivity).
  destruct messages as [|m ms].
  - unfold ScreenshotGenerator.generate_evidence_screenshot, screenshot_messages_of,
      write_temp, write_archive, bind, modify, ret, raise, get, set_fs.
    cbn [map fs screenshots archives temp active_connections abuse_counters db wire
         fst snd].
    intros H. injection H as <- <-. right. right.
    unfold in_temp. cbn [fs temp].
    split; [|split; reflexivity].
    rewrite existsb_app. apply orb_true_iff. left.
    apply existsb_exists. eexists. split.
    + apply filter_In. split; [apply in_or_app; right; left; reflexivity | reflexivity].
    + apply String.eqb_refl.
  - open_renderer env su m ms.
    unfold write_temp, write_archive, rmtree_temp, bind, modify, ret, raise, get, set_fs.
    destruct (readable env (m :: ms));
      cbn [fs screenshots archives temp active_connections abuse_counters db wire fst snd].
    + destruct (image_writable env);
        cbn [fs screenshots archives temp active_connections abuse_counters db wire
             fst snd].
      * rewrite read_file_snoc.
        cbn [fs screenshots archives temp active_connections abuse_counters db wire
             fst snd].
        intros H. injection H as <- <-.
        repeat split; discriminate.
      * intros H. injection H as <- <-. right. left.
        unfold in_temp. cbn [fs temp archives].
        split; [apply existsb_snoc_name; reflexivity|].
        split; [reflexivity|]. split; [discriminate|].
        right. repeat split.
    + intros H. injection H as <- <-. right. left.
      unfold in_temp. cbn [fs temp archives].
      split; [apply existsb_snoc_name; reflexivity|].
      split; [reflexivity|]. split; [discriminate|].
      left. split; reflexivity.
Qed.

End OutcomeFacts.

(** The working files are removed only when the report succeeds.  A call
    of [generate_evidence_report] that returns has emptied the temp
    directory and returns the archive's path; a call that raises either
    wrote nothing at all (database down: OperationalError; participant not
    on file: AttributeError) or leaves the JSON working file in the temp
    directory (the renderer raised, ValueError at a timestamp it cannot read
    or OSError at an image it cannot write, and no archive is written; or the
    message list is empty: UnboundLocalError).  No other error leaves the
    function. *)
Theorem working_files_removed_only_on_success
    (env : Runtime.environment) (s r : Z) (messages : list Files.incident)
    (st st' : Runtime.state) (res : Runtime.result string) :
  ConnectionManager.generate_evidence_report env s r messages st = (st', res) ->
  match res with
  | Runtime.Ok path =>
      path = ConnectionManager.zip_path env
      /\ Files.temp (Runtime.fs st') = []
  | Runtime.Raise e =>
      (st' = st
       /\ (e = Runtime.OperationalError \/ e = Runtime.AttributeError "username"))
      \/ (ConnectionManager.in_temp (ConnectionManager.json_filename env) (Runtime.fs st')
          = true
          /\ ((e = Runtime.ValueError /\ TrackerViews.readable env messages = false
               \/ e = Runtime.OSError /\ TrackerViews.readable env messages = true)
              /\ Files.archives (Runtime.fs st') = Files.archives (Runtime.fs st)
              \/ e = Runtime.UnboundLocalError "temp_screenshot_path"
                 /\ messages = []))
  end.
Proof.
  intros H. apply generate_evidence_report_outcome in H.
  destruct res as [path|e].
  - destruct H as (-> & Ht & _). split; [reflexivity | exact Ht].
  - destruct H as [(-> & [[-> _]|[-> _]])
                  | [(Ht & Ha & _ & [[-> Hr]|(-> & Hr & _)]) | (Ht & -> & ->)]].
    + left. split; [reflexivity | left; reflexivity].
    + left. split; [reflexivity | right; reflexivity].
    + right. split; [exact Ht|]. left. split; [left; split; [reflexivity | exact Hr] | exact Ha].
    + right. split; [exact Ht|]. left. split; [right; split; [reflexivity | exact Hr] | exact Ha].
    + right. split; [exact Ht | right; split; reflexivity].
Qed.

(** The renderer cannot write: the JSON file stays behind. *)
Lemma working_files_removed_only_on_success_witness :
  ConnectionManager.in_temp (ConnectionManager.json_filename Fixture.no_image)
    (Runtime.fs
       (fst (ConnectionManager.generate_evidence_report Fixture.no_image 2 1
               [TrackerViews.incident_of Fixture.no_image (Fixture.insult 1) 1]
               Fixture.offline)))
  = true.
Proof.
  pose proof (working_files_removed_only_on_success Fixture.no_image 2 1
                [TrackerViews.incident_of Fixture.no_image (Fixture.insult 1) 1]
                Fixture.offline _ _ (surjective_pairing _)) as H.
  vm_compute in H.
  vm_compute.
  destruct H as [[H _]|[H _]]; [discriminate H | exact H].
Defined.

(* ===================================================================== *)
(** * Further properties of the receive loop *)
(* ===================================================================== *)

Section FrameFacts.
Import Runtime Files Store AbuseDetector ConnectionManager TrackerViews Main.

Lemma escalated_frame (env : environment) (md : message_data) (n : Z) (st : state) :
  active_connections (escalated env md n st) = active_connections st
  /\ users (db (escalated env md n st)) = users (db st)
  /\ messages (db (escalated env md n st)) = messages (db st).
Proof.
  unfold escalated. destruct st as [ac cnt d f w].
  destruct (n =? 1)%Z; [|destruct (3 <=? n)%Z]; unfold deliver; cbn;
    try destruct (ac !! receiver_id md); cbn; repeat split.
Qed.

(** What one call of the tracker leaves alone, and what it cannot raise. *)
Lemma handle_outcome_frame (env : environment) (md : message_data) (i : Z)
    (st : state) :
  active_connections (fst (handle_outcome env md i st)) = active_connections st
  /\ users (db (fst (handle_outcome env md i st))) = users (db st)
  /\ messages (db (fst (handle_outcome env md i st))) = messages (db st)
  /\ snd (handle_outcome env md i st) <> Raise WebSocketDisconnect.
Proof.
  unfold handle_outcome.
  destruct (generate_evidence_report_frame env (sender_id md) (receiver_id md)
              [incident_of env md i] (set_abuse_counters (recorded env md i) st))
    as [f' Hf].
  destruct (generate_evidence_report env (sender_id md) (receiver_id md)
              [incident_of env md i] (set_abuse_counters (recorded env md i) st))
    as [st2 [path|e]] eqn:G; cbn [fst] in Hf; subst st2.
  - destruct (db_up env).
    + cbn [fst snd].
      match goal with
      | |- context [escalated ?e ?m ?n ?s] =>
          destruct (escalated_frame e m n s) as (-> & -> & ->)
      end.
      destruct st as [ac cnt d f w]. cbn. repeat split. discriminate.
    + destruct st as [ac cnt d f w]. cbn. repeat split. discriminate.
  - apply generate_evidence_report_outcome in G.
    destruct st as [ac cnt d f w]. cbn. repeat split.
    intros H. injection H as ->.
    destruct G as [(_ & [[G _]|[G _]])
                  | [(_ & _ & _ & [[G _]|[G _]]) | (_ & G & _)]];
      discriminate G.
Qed.

(** What one turn of the receive loop leaves alone, what it cannot raise,
    and the row it has stored when it completes. *)
Lemma on_frame_frame (env : environment) (data : envelope) (st : state) :
  active_connections (fst (on_frame env data st)) = active_connections st
  /\ snd (on_frame env data st) <> Raise WebSocketDisconnect
  /\ (snd (on_frame env data st) = Ok tt ->
      messages (db (fst (on_frame env data st)))
      = messages (db st) ++ [row_of (classified data) (next_message_id (db st))]).
Proof.
  destruct (db_up env) eqn:Hdb.
  2:{ rewrite on_frame_db_down by exact Hdb. cbn. repeat split; discriminate. }
  rewrite on_frame_run by exact Hdb. unfold after_store.
  destruct (is_abusive (forwarded data st)).
  - rewrite (handle_abusive_message_run env (forwarded data st) _
               (next_message_id (db st)) (stored data st) eq_refl).
    destruct (handle_outcome_frame env (forwarded data st) (next_message_id (db st))
                (stored data st)) as (Ha & _ & Hm & Hx).
    destruct (handle_outcome env (forwarded data st) (next_message_id (db st))
                (stored data st)) as [st2 [[]|e]]; cbn [fst snd] in *.
    + destruct (deliver_frame (receiver_id (forwarded data st))
                  (MessagePayload (forwarded data st)) st2) as (-> & _ & -> & _).
      rewrite Ha, Hm. destruct st as [ac cnt d f w]. cbn.
      repeat split. discriminate.
    + rewrite Ha. destruct st as [ac cnt d f w]. cbn.
      repeat split; [exact Hx | discriminate].
  - cbn [fst snd].
    destruct (deliver_frame (receiver_id (forwarded data st))
                (MessagePayload (forwarded data st)) (stored data st))
      as (-> & _ & -> & _).
    destruct st as [ac cnt d f w]. cbn. repeat split. discriminate.
Qed.

(** The loop never returns: it ends with the client's disconnect once every
    frame is stored, or with the first error a frame raises. *)
Lemma receive_loop_frame (frames : list (environment * envelope)) (st : state) :
  active_connections (fst (receive_loop frames st)) = active_connections st
  /\ (forall u, snd (receive_loop frames st) <> Ok u)
  /\ (snd (receive_loop frames st) = Raise WebSocketDisconnect ->
      List.length (messages (db (fst (receive_loop frames st))))
      = (List.length (messages (db st)) + List.length frames)%nat).
Proof.
  revert st. induction frames as [|[env data] rest IH]; intros st.
  - cbn. repeat split; [discriminate | lia].
  - cbn [receive_loop]. rewrite bind_run.
    destruct (on_frame_frame env data st) as (Ha & Hx & Hm).
    destruct (on_frame env data st) as [st1 [[]|e]]; cbn [fst snd] in *.
    + destruct (IH st1) as (Ha' & Hno & Hlen).
      rewrite Ha', Ha. split; [reflexivity|]. split; [exact Hno|].
      intros H. rewrite (Hlen H), (Hm eq_refl), length_app. cbn. lia.
    + split; [exact Ha|]. split; [discriminate|].
      intros H. contradiction.
Qed.

End FrameFacts.

(** A session unregisters its user only when the client disconnects.  If
    [websocket_endpoint] returns, the user's entry is gone from
    [active_connections] and one message row was stored for every frame the
    client sent.  If it raises, the error is not the client's disconnect but
    the first error of a frame (the database, the packaging), and the
    session's socket is still registered under the user's id. *)
Theorem session_unregisters_only_on_disconnect
    (websocket : Runtime.socket) (user_id : Z)
    (frames : list (Runtime.environment * Main.envelope))
    (st st' : Runtime.state) (res : Runtime.result unit) :
  Main.websocket_endpoint websocket user_id frames st = (st', res) ->
  match res with
  | Runtime.Ok _ =>
      Runtime.active_connections st' = delete user_id (Runtime.active_connections st)
      /\ List.length (Store.messages (Runtime.db st'))
         = (List.length (Store.messages (Runtime.db st)) + List.length frames)%nat
  | Runtime.Raise e =>
      e <> Runtime.WebSocketDisconnect
      /\ Runtime.active_connections st'
         = <[user_id := websocket]> (Runtime.active_connections st)
  end.
Proof.
  unfold Main.websocket_endpoint. rewrite bind_run, connect_run. cbn [fst snd].
  unfold Runtime.try_except.
  destruct (receive_loop_frame frames
              (Runtime.set_active_connections (fun c => <[user_id := websocket]> c) st))
    as (Ha & Hno & Hlen).
  destruct (Main.receive_loop frames
              (Runtime.set_active_connections (fun c => <[user_id := websocket]> c) st))
    as [st1 [u|e]]; cbn [fst snd] in *.
  - exfalso. apply (Hno u). reflexivity.
  - destruct e; cbn [Main.is_disconnect];
      try (intros H; injection H as <- <-; split; [discriminate | exact Ha]).
    rewrite disconnect_run. intros H. injection H as <- <-.
    unfold Runtime.set_active_connections at 1. cbn. rewrite Ha.
    cbn. rewrite delete_insert_eq.
    split; [reflexivity|]. rewrite (Hlen eq_refl). reflexivity.
Qed.

(** Bob sends a greeting and goes away. *)
Lemma session_unregisters_only_on_disconnect_witness :
  Runtime.active_connections
    (fst (Main.websocket_endpoint 5%nat 2 [(Fixture.fair, Fixture.greeting)]
            Fixture.alice_online))
  = delete 2%Z (Runtime.active_connections Fixture.alice_online).
Proof.
  pose proof (session_unregisters_only_on_disconnect 5%nat 2
                [(Fixture.fair, Fixture.greeting)] Fixture.alice_online _ _
                (surjective_pairing _)) as H.
  destruct (snd (Main.websocket_endpoint 5%nat 2 [(Fixture.fair, Fixture.greeting)]
                   Fixture.alice_online)) eqn:E.
  - exact (proj1 H).
  - vm_compute in E. discriminate E.
Defined.

(* --------------------------------------------------------------------- *)
(** ** The block table and the WebSocket path *)

Section BlockTableFacts.
Import Runtime Files Store AbuseDetector ConnectionManager TrackerViews Main
  SessionViews.

Lemma agree_refl (st : state) : agree_but_blocks st st.
Proof. repeat split. Qed.

Lemma agree_set_db (g : database -> database) (st1 st2 : state) :
  (forall d1 d2, users d1 = users d2 -> messages d1 = messages d2 ->
                 reports d1 = reports d2 ->
                 users (g d1) = users (g d2) /\ messages (g d1) = messages (g d2)
                 /\ reports (g d1) = reports (g d2)) ->
  agree_but_blocks st1 st2 ->
  agree_but_blocks (set_db g st1) (set_db g st2).
Proof.
  intros Hg (Ha & Hc & Hu & Hm & Hr & Hf & Hw).
  destruct (Hg _ _ Hu Hm Hr) as (Hu' & Hm' & Hr').
  repeat split; assumption.
Qed.

Lemma agree_add_message (m : Message) (st1 st2 : state) :
  agree_but_blocks st1 st2 ->
  agree_but_blocks (set_db (add_message m) st1) (set_db (add_message m) st2).
Proof.
  apply agree_set_db. intros d1 d2 Hu Hm Hr. cbn. rewrite Hm. repeat split; assumption.
Qed.

Lemma agree_add_report (x : Report) (st1 st2 : state) :
  agree_but_blocks st1 st2 ->
  agree_but_blocks (set_db (add_report x) st1) (set_db (add_report x) st2).
Proof.
  apply agree_set_db. intros d1 d2 Hu Hm Hr. cbn. rewrite Hr. repeat split; assumption.
Qed.

Lemma agree_add_block (b1 b2 : BlockedUser) (st1 st2 : state) :
  agree_but_blocks st1 st2 ->
  agree_but_blocks (set_db (add_block b1) st1) (set_db (add_block b2) st2).
Proof.
  intros (Ha & Hc & Hu & Hm & Hr & Hf & Hw). repeat split; assumption.
Qed.

Lemma agree_blocked_by (u b : Z) (st : state) :
  agree_but_blocks st (blocked_by u b st).
Proof. repeat split. Qed.

Lemma agree_set_abuse_counters (g : gmap string Pair.t -> gmap string Pair.t)
    (st1 st2 : state) :
  agree_but_blocks st1 st2 ->
  agree_but_blocks (set_abuse_counters g st1) (set_abuse_counters g st2).
Proof.
  intros (Ha & Hc & Hu & Hm & Hr & Hf & Hw). repeat split; try assumption.
  cbn. rewrite Hc. reflexivity.
Qed.

Lemma agree_set_fs (g : filesystem -> filesystem) (st1 st2 : state) :
  agree_but_blocks st1 st2 ->
  agree_but_blocks (set_fs g st1) (set_fs g st2).
Proof.
  intros (Ha & Hc & Hu & Hm & Hr & Hf & Hw). repeat split; try assumption.
  cbn. rewrite Hf. reflexivity.
Qed.

Lemma agree_deliver (user_id : Z) (p : payload) (st1 st2 : state) :
  agree_but_blocks st1 st2 ->
  agree_but_blocks (deliver user_id p st1) (deliver user_id p st2).
Proof.
  intros (Ha & Hc & Hu & Hm & Hr & Hf & Hw). unfold deliver. rewrite Ha.
  destruct (active_connections st2 !! user_id).
  - repeat split; try assumption. cbn. rewrite Hw. reflexivity.
  - repeat split; assumption.
Qed.

Lemma agree_escalated (env : environment) (md : message_data) (n : Z)
    (st1 st2 : state) :
  agree_but_blocks st1 st2 ->
  agree_but_blocks (escalated env md n st1) (escalated env md n st2).
Proof.
  intros H. unfold escalated.
  destruct (n =? 1)%Z; [apply agree_deliver, H|].
  destruct (3 <=? n)%Z; [|exact H].
  apply agree_set_abuse_counters, agree_deliver, agree_add_block, H.
Qed.

(** Packaging reads the [users] table and the disk, and nothing else. *)
Lemma generate_evidence_report_reads (env : environment) (s r : Z)
    (messages : list incident) (st1 st2 : state) :
  users (db st1) = users (db st2) ->
  fs st1 = fs st2 ->
  snd (generate_evidence_report env s r messages st1)
  = snd (generate_evidence_report env s r messages st2)
  /\ fs (fst (generate_evidence_report env s r messages st1))
     = fs (fst (generate_evidence_report env s r messages st2)).
Proof.
  destruct st1 as [ac1 cnt1 d1 f1 w1], st2 as [ac2 cnt2 d2 f2 w2].
  cbn [db fs]. intros Hu ->.
  unfold generate_evidence_report, query_user, attributes, bind, get, ret, raise.
  destruct (db_up env); [|split; reflexivity].
  cbn [db]. rewrite Hu.
  destruct (users d2 !! s) as [su|], (users d2 !! r) as [ru|];
    try (split; reflexivity).
  destruct messages as [|m ms].
  - unfold ScreenshotGenerator.generate_evidence_screenshot, screenshot_messages_of,
      write_temp, write_archive, bind, modify, ret, raise, get, set_fs.
    cbn [map fs screenshots archives temp active_connections abuse_counters db wire
         fst snd].
    split; reflexivity.
  - open_renderer env su m ms.
    unfold write_temp, write_archive, rmtree_temp, bind, modify, ret, raise, get, set_fs.
    destruct (readable env (m :: ms));
      cbn [fs screenshots archives temp active_connections abuse_counters db wire fst snd];
      [|split; reflexivity].
    destruct (image_writable env);
      cbn [fs screenshots archives temp active_connections abuse_counters db wire fst snd];
      [|split; reflexivity].
    rewrite !read_file_snoc.
    cbn [fs screenshots archives temp active_connections abuse_counters db wire fst snd].
    split; reflexivity.
Qed.

Lemma agree_generate_evidence_report (env : environment) (s r : Z)
    (messages : list incident) (st1 st2 : state) :
  agree_but_blocks st1 st2 ->
  snd (generate_evidence_report env s r messages st1)
  = snd (generate_evidence_report env s r messages st2)
  /\ agree_but_blocks (fst (generate_evidence_report env s r messages st1))
       (fst (generate_evidence_report env s r messages st2)).
Proof.
  intros H.
  destruct (generate_evidence_report_reads env s r messages st1 st2) as [Hres Hfs].
  { apply H. }
  { apply H. }
  split; [exact Hres|].
  destruct (generate_evidence_report_frame env s r messages st1) as [f1 H1].
  destruct (generate_evidence_report_frame env s r messages st2) as [f2 H2].
  rewrite H1, H2 in Hfs |- *. cbn [fs set_fs] in Hfs. subst f2.
  apply agree_set_fs, H.
Qed.

Lemma agree_handle_outcome (env : environment) (md : message_data) (i : Z)
    (st1 st2 : state) :
  agree_but_blocks st1 st2 ->
  snd (handle_outcome env md i st1) = snd (handle_outcome env md i st2)
  /\ agree_but_blocks (fst (handle_outcome env md i st1))
       (fst (handle_outcome env md i st2)).
Proof.
  intros H. unfold handle_outcome.
  assert (Hc : abuse_counters st1 = abuse_counters st2) by apply H.
  destruct (agree_generate_evidence_report env (sender_id md) (receiver_id md)
              [incident_of env md i]
              (set_abuse_counters (recorded env md i) st1)
              (set_abuse_counters (recorded env md i) st2))
    as [Hres Hst].
  { apply agree_set_abuse_counters, H. }
  destruct (generate_evidence_report env (sender_id md) (receiver_id md)
              [incident_of env md i] (set_abuse_counters (recorded env md i) st1))
    as [s1 r1].
  destruct (generate_evidence_report env (sender_id md) (receiver_id md)
              [incident_of env md i] (set_abuse_counters (recorded env md i) st2))
    as [s2 r2].
  cbn [fst snd] in Hres, Hst. subst r2.
  destruct r1 as [path|e]; [|split; [reflexivity | exact Hst]].
  destruct (db_up env); [|split; [reflexivity | exact Hst]].
  cbn [fst snd]. split; [reflexivity|].
  rewrite Hc. apply agree_escalated, agree_add_report, Hst.
Qed.

Lemma agree_on_frame (env : environment) (data : envelope) (st1 st2 : state) :
  agree_but_blocks st1 st2 ->
  snd (on_frame env data st1) = snd (on_frame env data st2)
  /\ agree_but_blocks (fst (on_frame env data st1)) (fst (on_frame env data st2)).
Proof.
  intros H.
  destruct (db_up env) eqn:Hdb.
  2:{ rewrite !on_frame_db_down by exact Hdb. split; [reflexivity | exact H]. }
  rewrite !on_frame_run by exact Hdb. unfold after_store.
  assert (Hn : next_message_id (db st1) = next_message_id (db st2)).
  { unfold next_message_id. destruct H as (_ & _ & _ & -> & _). reflexivity. }
  assert (Hfw : forwarded data st1 = forwarded data st2).
  { unfold forwarded. rewrite Hn. reflexivity. }
  assert (Hst : agree_but_blocks (stored data st1) (stored data st2)).
  { unfold stored. rewrite Hn. apply agree_add_message, H. }
  rewrite Hfw.
  destruct (is_abusive (forwarded data st2)).
  - rewrite !(handle_abusive_message_run env (forwarded data st2) _
                (next_message_id (db st2)) _ eq_refl).
    destruct (agree_handle_outcome env (forwarded data st2) (next_message_id (db st2))
                (stored data st1) (stored data st2) Hst) as [Hres Hag].
    destruct (handle_outcome env (forwarded data st2) (next_message_id (db st2))
                (stored data st1)) as [s1 r1].
    destruct (handle_outcome env (forwarded data st2) (next_message_id (db st2))
                (stored data st2)) as [s2 r2].
    cbn [fst snd] in Hres, Hag. subst r2.
    destruct r1 as [[]|e]; cbn [fst snd].
    + split; [reflexivity | apply agree_deliver, Hag].
    + split; [reflexivity | exact Hag].
  - cbn [fst snd]. split; [reflexivity | apply agree_deliver, Hst].
Qed.

End BlockTableFacts.

(** The WebSocket path never reads the block table.  If two states differ
    at most in the rows of [blocked_users], one turn of the receive loop
    ends the same way in both (same return or same error), sends the same
    frames to the same sockets, and stores the same message, report,
    counters and files; the states again differ at most in the block table.
    In particular a message from a sender the receiver has blocked is
    forwarded all the same. *)
Theorem receive_loop_ignores_block_table
    (env : Runtime.environment) (data : Main.envelope) (st1 st2 : Runtime.state) :
  SessionViews.agree_but_blocks st1 st2 ->
  snd (Main.on_frame env data st1) = snd (Main.on_frame env data st2)
  /\ Runtime.wire (fst (Main.on_frame env data st1))
     = Runtime.wire (fst (Main.on_frame env data st2))
  /\ SessionViews.agree_but_blocks (fst (Main.on_frame env data st1))
       (fst (Main.on_frame env data st2)).
Proof.
  intros H. destruct (agree_on_frame env data st1 st2 H) as [Hres Hag].
  split; [exact Hres|]. split; [apply Hag | exact Hag].
Qed.

(** Alice has blocked Bob; Bob's greeting reaches her socket all the same. *)
Lemma receive_loop_ignores_block_table_witness :
  Runtime.wire
    (fst (Main.on_frame Fixture.fair Fixture.greeting
            (SessionViews.blocked_by 1 2 Fixture.alice_online)))
  = [(7%nat,
      Runtime.MessagePayload
        (TrackerViews.forwarded Fixture.greeting Fixture.alice_online))].
Proof.
  destruct (receive_loop_ignores_block_table Fixture.fair Fixture.greeting
              Fixture.alice_online (SessionViews.blocked_by 1 2 Fixture.alice_online))
    as (_ & <- & _).
  - repeat split.
  - vm_compute. reflexivity.
Defined.

(* ===================================================================== *)
(** * The counter keys *)
(* ===================================================================== *)

Section PairKeyFacts.
Import Runtime Files Store AbuseDetector ConnectionManager TrackerViews PairViews.

Lemma pretty_N_char_no_underscore (x : N) :
  Ascii.eqb (pretty_N_char x) "_" = false.
Proof. unfold pretty_N_char. repeat case_match; reflexivity. Qed.

Lemma pretty_N_go_no_underscore (x : N) (s : string) :
  mentions "_" (pretty_N_go x s) = mentions "_" s.
Proof.
  revert s. induction (N.lt_wf_0 x) as [x _ IH]; intros s.
  assert (x = 0 \/ 0 < x)%N as [->|Hx] by lia.
  - rewrite pretty_N_go_0. reflexivity.
  - rewrite pretty_N_go_step by exact Hx.
    rewrite IH by (apply N.div_lt; lia).
    cbn [mentions]. rewrite pretty_N_char_no_underscore. reflexivity.
Qed.

Lemma pretty_N_no_underscore (x : N) : mentions "_" (pretty x) = false.
Proof.
  unfold pretty, pretty_N. destruct (decide (x = 0%N)); [reflexivity|].
  apply pretty_N_go_no_underscore.
Qed.

Lemma pretty_Z_no_underscore (z : Z) : mentions "_" (pretty z) = false.
Proof.
  destruct z as [|p|p].
  - reflexivity.
  - exact (pretty_N_no_underscore (N.pos p)).
  - change (pretty (Z.neg p)) with ("-" +:+ pretty (N.pos p)).
    rewrite append_cons, append_nil. cbn [mentions].
    rewrite pretty_N_no_underscore. reflexivity.
Qed.

(** The first underscore of a key is the separator. *)
Lemma split_at_separator (a a' b b' : string) :
  mentions "_" a = false ->
  mentions "_" a' = false ->
  a +:+ "_" +:+ b = a' +:+ "_" +:+ b' ->
  a = a' /\ b = b'.
Proof.
  revert a'. induction a as [|x a IH]; intros [|x' a'];
    rewrite ?append_cons, ?append_nil; cbn [mentions]; intros Ha Ha' H.
  - injection H as ->. split; reflexivity.
  - injection H as <- _. discriminate Ha'.
  - injection H as -> _. discriminate Ha.
  - injection H as -> H.
    apply orb_false_iff in Ha as [_ Ha], Ha' as [_ Ha'].
    destruct (IH a' Ha Ha' H) as [-> ->]. split; reflexivity.
Qed.

Lemma pair_key_inj (s r s' r' : Z) :
  pair_key s r = pair_key s' r' -> s = s' /\ r = r'.
Proof.
  unfold pair_key. intros H.
  apply split_at_separator in H as [Hs Hr]; try apply pretty_Z_no_underscore.
  split; apply (inj pretty); assumption.
Qed.

Lemma escalated_counters_other (env : environment) (md : message_data) (n : Z)
    (st : state) (k : string) :
  k <> key_of md ->
  abuse_counters (escalated env md n st) !! k = abuse_counters st !! k.
Proof.
  intros Hk. unfold escalated.
  destruct (n =? 1)%Z; [|destruct (3 <=? n)%Z].
  - destruct (deliver_frame (receiver_id md) warning_alert st) as (_ & -> & _).
    reflexivity.
  - destruct st as [ac cnt d f w]. unfold deliver. cbn.
    destruct (ac !! receiver_id md); cbn; apply lookup_insert_ne; congruence.
  - reflexivity.
Qed.

Lemma handle_abusive_message_counters_other (env : environment) (md : message_data)
    (a : analysis) (st : state) (k : string) :
  k <> key_of md ->
  abuse_counters (fst (handle_abusive_message env md a st)) !! k
  = abuse_counters st !! k.
Proof.
  intros Hk. destruct (id md) as [i|] eqn:Hid.
  - rewrite (handle_abusive_message_run env md a i st Hid). unfold handle_outcome.
    destruct (generate_evidence_report_frame env (sender_id md) (receiver_id md)
                [incident_of env md i] (set_abuse_counters (recorded env md i) st))
      as [f' Hf].
    destruct (generate_evidence_report env (sender_id md) (receiver_id md)
                [incident_of env md i] (set_abuse_counters (recorded env md i) st))
      as [st2 [path|e]]; cbn [fst] in Hf; subst st2.
    + destruct (db_up env); cbn [fst].
      * rewrite escalated_counters_other by exact Hk.
        destruct st as [ac cnt d f w]. cbn.
        unfold recorded. apply lookup_insert_ne. congruence.
      * destruct st as [ac cnt d f w]. cbn.
        unfold recorded. apply lookup_insert_ne. congruence.
    + destruct st as [ac cnt d f w]. cbn.
      unfold recorded. apply lookup_insert_ne. congruence.
  - rewrite (handle_abusive_message_no_id env md a st Hid).
    destruct st as [ac cnt d f w]. cbn.
    unfold counted. apply lookup_insert_ne. congruence.
Qed.

End PairKeyFacts.

(** Pairs never share a counter.  The key ["{sender_id}_{receiver_id}"]
    determines the ordered pair, so for any other ordered pair (the reverse
    direction included) the key differs, and a call of
    [handle_abusive_message], however it ends, leaves that pair's counter
    and log exactly as they were. *)
Theorem pairs_never_share_a_counter
    (env : Runtime.environment) (md : Runtime.message_data)
    (a : AbuseDetector.analysis) (st : Runtime.state) (s r : Z) :
  (s, r) <> (Runtime.sender_id md, Runtime.receiver_id md) ->
  ConnectionManager.pair_key s r
  <> ConnectionManager.pair_key (Runtime.sender_id md) (Runtime.receiver_id md)
  /\ Runtime.abuse_counters
       (fst (ConnectionManager.handle_abusive_message env md a st))
     !! ConnectionManager.pair_key s r
     = Runtime.abuse_counters st !! ConnectionManager.pair_key s r.
Proof.
  intros Hne.
  assert (Hk : ConnectionManager.pair_key s r <> TrackerViews.key_of md).
  { intros H. apply pair_key_inj in H as [-> ->]. apply Hne. reflexivity. }
  split; [exact Hk|].
  apply handle_abusive_message_counters_other, Hk.
Qed.

(** Bob insults Alice a second time: the counter for Alice's messages to
    Bob is not touched. *)
Lemma pairs_never_share_a_counter_witness :
  Runtime.abuse_counters Fixture.after_second !! ConnectionManager.pair_key 1 2
  = Runtime.abuse_counters Fixture.after_first !! ConnectionManager.pair_key 1 2.
Proof.
  apply (pairs_never_share_a_counter Fixture.fair (Fixture.insult 2)
           Fixture.insult_analysis Fixture.after_first 1 2).
  discriminate.
Defined.

(* ===================================================================== *)
(** * The message table *)
(* ===================================================================== *)

Section RowFacts.
Import Text Runtime Files Store AbuseDetector ConnectionManager TrackerViews Main RowViews.

Lemma flagged_has_classification (text : string) :
  is_abusive_of (analyze_text text) = true ->
  get_classification (analysis_of (analyze_text text)) <> None.
Proof.
  unfold analyze_text. destruct (is_empty_text text); [discriminate|].
  destruct (pattern_phase (strip (lower text))) as [s pats].
  intros _. discriminate.
Qed.

Lemma flag_is_threshold (text : string) :
  is_abusive_of (analyze_text text) = true
  <-> (4 <= score_of (analyze_text text))%Q.
Proof.
  destruct (is_empty_text text) eqn:E.
  - unfold analyze_text. rewrite E. unfold score_of, is_abusive_of. cbn.
    split; [discriminate | intros H; exfalso; revert H; apply Qlt_not_le; reflexivity].
  - destruct (analyze_text_score text E) as [-> ->]. apply Qle_bool_iff.
Qed.

Lemma classified_graded (data : envelope) (i : Z) :
  graded (row_of (classified data) i).
Proof.
  unfold graded, row_of, classified.
  cbn [message_is_abusive message_abuse_score message_abuse_type message_content
       is_abusive abuse_score abuse_type content].
  split; [reflexivity|]. split; [reflexivity|].
  split; [apply flag_is_threshold|].
  destruct (is_abusive_of (analyze_text (env_content data))) eqn:E.
  - split; [|discriminate]. intros H.
    exfalso. exact (flagged_has_classification _ E H).
  - split; reflexivity.
Qed.

(** A turn of the loop appends the frame's row whenever the database takes
    it, whatever happens afterwards. *)
Lemma on_frame_messages (env : environment) (data : envelope) (st : state) :
  messages (db (fst (on_frame env data st)))
  = messages (db st)
    ++ (if db_up env then [row_of (classified data) (next_message_id (db st))] else []).
Proof.
  destruct (db_up env) eqn:Hdb.
  2:{ rewrite on_frame_db_down by exact Hdb. cbn. symmetry. apply app_nil_r. }
  rewrite on_frame_run by exact Hdb. unfold after_store.
  destruct (is_abusive (forwarded data st)).
  - rewrite (handle_abusive_message_run env (forwarded data st) _
               (next_message_id (db st)) (stored data st) eq_refl).
    destruct (handle_outcome_frame env (forwarded data st) (next_message_id (db st))
                (stored data st)) as (_ & _ & Hm & _).
    destruct (handle_outcome env (forwarded data st) (next_message_id (db st))
                (stored data st)) as [st2 [[]|e]]; cbn [fst snd] in *.
    + destruct (deliver_frame (receiver_id (forwarded data st))
                  (MessagePayload (forwarded data st)) st2) as (_ & _ & -> & _).
      rewrite Hm. reflexivity.
    + rewrite Hm. reflexivity.
  - cbn [fst].
    destruct (deliver_frame (receiver_id (forwarded data st))
                (MessagePayload (forwarded data st)) (stored data st))
      as (_ & _ & -> & _).
    reflexivity.
Qed.

Lemma step_messages (st : state) (e : event) :
  exists added,
    messages (db (step st e)) = messages (db st) ++ added
    /\ Forall graded added.
Proof.
  destruct e as [ws u|env data|u]; unfold step.
  - exists []. split; [symmetry; apply app_nil_r | constructor].
  - rewrite on_frame_messages. eexists. split; [reflexivity|].
    destruct (db_up env); [|constructor].
    constructor; [apply classified_graded | constructor].
  - exists []. rewrite disconnect_run. split; [symmetry; apply app_nil_r | constructor].
Qed.

Lemma steps_messages (events : list event) (st : state) :
  exists added,
    messages (db (fold_left step events st)) = messages (db st) ++ added
    /\ Forall graded added.
Proof.
  revert st. induction events as [|e events IH]; intros st; cbn [fold_left].
  - exists []. split; [symmetry; apply app_nil_r | constructor].
  - destruct (IH (step st e)) as (l2 & H2 & F2).
    destruct (step_messages st e) as (l1 & H1 & F1).
    exists (l1 ++ l2). split.
    + rewrite H2, H1, app_assoc. reflexivity.
    + apply Forall_app. split; assumption.
Qed.

End RowFacts.

(** Every frame the database accepts leaves a graded row.  One turn of the
    receive loop appends exactly one row to the message table when the
    database accepts it, whatever happens later in the turn (the turn may
    still raise in the tracker), and no row when the database refuses it.
    The row holds the frame's sender, receiver and content and carries the
    classifier's verdict on that content: its flag and score are those
    [analyze_text] returns, the flag is set exactly when the score is at
    least 4, and the category is present exactly when the flag is set.
    Hence, through any sequence of connections, frames and disconnections,
    the rows on file at the start stay in place and every row added since
    is graded. *)
Theorem stored_rows_are_graded (d : Store.database) (events : list Main.event) :
  (forall env data st,
      Store.messages (Runtime.db (fst (Main.on_frame env data st)))
      = Store.messages (Runtime.db st)
        ++ (if Runtime.db_up env
            then [TrackerViews.row_of (Main.classified data)
                    (Store.next_message_id (Runtime.db st))]
            else []))
  /\ (forall data i,
        let row := TrackerViews.row_of (Main.classified data) i in
        Store.message_sender_id row = Main.env_sender_id data
        /\ Store.message_receiver_id row = Main.env_receiver_id data
        /\ Store.message_content row = Main.env_content data
        /\ RowViews.graded row)
  /\ exists added,
       Store.messages (Runtime.db (Main.run d events)) = Store.messages d ++ added
       /\ Forall RowViews.graded added.
Proof.
  split; [exact on_frame_messages|].
  split; [|apply steps_messages].
  intros data i. cbv zeta.
  split; [reflexivity|]. split; [reflexivity|]. split; [reflexivity|].
  apply classified_graded.
Qed.

(* ===================================================================== *)
(** * The transcript image *)
(* ===================================================================== *)

Section LayoutFacts.
Import Text Files AbuseDetector Layout.
Open Scope Z_scope.

Lemma length_take (n : nat) (s : string) : (String.length (take n s) <= n)%nat.
Proof.
  revert s. induction n as [|n IH]; intros [|c s]; cbn; try lia.
  specialize (IH s). lia.
Qed.

Lemma length_append (a b : string) :
  String.length (a +:+ b) = (String.length a + String.length b)%nat.
Proof.
  induction a as [|c a IH]; rewrite ?append_nil, ?append_cons; cbn; [reflexivity|].
  rewrite IH. reflexivity.
Qed.

Lemma length_shown (content : string) : (String.length (shown content) <= 63)%nat.
Proof.
  unfold shown. destruct (60 <? String.length content)%nat eqn:E.
  - rewrite length_append. pose proof (length_take 60 content) as H.
    change (String.length "...") with 3%nat. lia.
  - apply Nat.ltb_ge in E. lia.
Qed.

Lemma draw_message_placed (clock : string -> option string)
    (message : screenshot_message) (y : Z) (current_sender : string)
    (b : bubble) (y' : Z) :
  _draw_message clock message y current_sender = Some (b, y') ->
  y' = y + message_height + 10 /\ well_placed y b.
Proof.
  unfold _draw_message.
  destruct (clock (shot_created_at message)) as [time_str|]; [|discriminate].
  intros H. injection H as <- <-. split; [reflexivity|].
  unfold well_placed, anchored, width, bubble_width, padding, message_height.
  cbn [bubble_top bubble_bottom bubble_left bubble_right bubble_labels].
  pose proof (length_shown (shot_content message)) as Hlen.
  destruct (String.eqb (shot_sender_name message) current_sender),
           (shot_is_abusive message);
    cbn [app];
    repeat match goal with
           | |- _ /\ _ => split
           | |- Forall _ [] => apply Forall_nil
           | |- Forall _ (_ :: _) => apply Forall_cons
           end;
    cbn [label_x label_y label_caption];
    first [ lia | exact Hlen | exact I ].
Qed.

Lemma draw_messages_placed (clock : string -> option string)
    (messages : list screenshot_message) (y : Z) (sender_name : string)
    (bubbles : list bubble) (y_end : Z) :
  draw_messages clock messages y sender_name = Some (bubbles, y_end) ->
  y_end = y + Z.of_nat (List.length messages) * (message_height + 10)
  /\ List.length bubbles = List.length messages
  /\ stacked y bubbles
  /\ Forall (fun b => y <= bubble_top b /\ bubble_bottom b + 10 <= y_end
                      /\ well_placed (bubble_top b) b) bubbles.
Proof.
  revert y bubbles. induction messages as [|m rest IH]; intros y bubbles;
    cbn [draw_messages].
  - intros H. injection H as <- <-. cbn [List.length stacked].
    split; [lia|]. split; [reflexivity|]. split; [exact I | constructor].
  - destruct (_draw_message clock m y sender_name) as [[b y1]|] eqn:E; [|discriminate].
    destruct (draw_messages clock rest y1 sender_name) as [[bs y2]|] eqn:R;
      [|discriminate].
    intros H. injection H as <- <-.
    apply draw_message_placed in E as (-> & Hb).
    apply IH in R as (-> & Hlen & Hst & Hall).
    pose proof Hb as (Htop & Hbot & _).
    unfold message_height in *.
    split; [cbn [List.length]; lia|].
    split; [cbn [List.length]; rewrite Hlen; reflexivity|].
    split; [cbn [stacked]; split; [exact Htop | rewrite Hbot; exact Hst]|].
    constructor.
    + rewrite Htop.
      split; [lia|]. split; [rewrite Hbot; lia | exact Hb].
    + eapply List.Forall_impl; [|exact Hall].
      intros b' (H1 & H2 & H3).
      split; [lia|]. split; [lia | exact H3].
Qed.

Lemma draw_messages_some (clock : string -> option string)
    (messages : list screenshot_message) (y : Z) (sender_name : string) :
  draw_messages clock messages y sender_name <> None
  <-> Forall (fun m => clock (shot_created_at m) <> None) messages.
Proof.
  revert y. induction messages as [|m rest IH]; intros y; cbn [draw_messages].
  - split; [constructor | discriminate].
  - unfold _draw_message.
    destruct (clock (shot_created_at m)) as [t|] eqn:E.
    + specialize (IH (y + message_height + 10)).
      destruct (draw_messages clock rest (y + message_height + 10) sender_name)
        as [[bs y2]|].
      * split; [|discriminate]. intros _. constructor; [congruence|].
        apply IH. discriminate.
      * split; [intros H; contradiction|].
        intros H. inversion H as [|? ? _ H']; subst. apply IH in H'. contradiction.
    + split; [intros H; contradiction|].
      intros H. inversion H as [|? ? H' _]; subst. contradiction.
Qed.

(** The renderer's check of the timestamps is the one the drawing loop
    makes. *)
Lemma drawable_iff_drawn (env : Runtime.environment)
    (messages : list screenshot_message) (sender_name receiver_name : string) :
  ScreenshotGenerator.drawable env messages = true
  <-> generate_chat_screenshot (Runtime.fromisoformat env) messages
        sender_name receiver_name <> None.
Proof.
  unfold generate_chat_screenshot, ScreenshotGenerator.drawable.
  rewrite forallb_forall.
  pose proof (draw_messages_some (Runtime.fromisoformat env) messages
                (header_height + padding) sender_name) as H.
  rewrite List.Forall_forall in H.
  destruct (draw_messages (Runtime.fromisoformat env) messages
              (header_height + padding) sender_name) as [[bs y]|].
  - split; [discriminate|]. intros _ m Hin.
    assert (Hm : Runtime.fromisoformat env (shot_created_at m) <> None)
      by (apply H; [discriminate | exact Hin]).
    unfold Runtime.parses.
    destruct (Runtime.fromisoformat env (shot_created_at m)); [reflexivity | contradiction].
  - split; [|intros Hn; exfalso; apply Hn; reflexivity].
    intros Hall. exfalso. apply (proj2 H); [|reflexivity].
    intros m Hin. specialize (Hall m Hin). unfold Runtime.parses in Hall.
    destruct (Runtime.fromisoformat env (shot_created_at m)); [discriminate | discriminate Hall].
Qed.

End LayoutFacts.

(** Every message gets a bubble that lies on the canvas.  When
    [generate_chat_screenshot] draws its image, the canvas is 800 pixels
    wide and [total_height] high; there is one bubble per message, the
    first 20 pixels below the header and each next one 10 pixels below the
    one before; every bubble is 500 by 80 pixels, keeps 20 pixels from the
    left and right edge and ends at least 30 pixels above the bottom edge;
    the anchor of each of its texts lies on the bubble, and the content it
    shows has at most 63 characters. *)
Theorem bubbles_fit_the_canvas
    (fromisoformat : string -> option string)
    (messages : list Files.screenshot_message) (sender_name receiver_name : string)
    (w h : Z) (bubbles : list Layout.bubble) :
  Layout.generate_chat_screenshot fromisoformat messages sender_name receiver_name
  = Some (w, h, bubbles) ->
  w = 800%Z
  /\ h = (100 + 90 * Z.of_nat (List.length messages))%Z
  /\ List.length bubbles = List.length messages
  /\ Layout.stacked 80 bubbles
  /\ Forall (fun b =>
               (20 <= Layout.bubble_left b)%Z
               /\ (Layout.bubble_right b = Layout.bubble_left b + 500)%Z
               /\ (Layout.bubble_right b <= w - 20)%Z
               /\ (80 <= Layout.bubble_top b)%Z
               /\ (Layout.bubble_bottom b = Layout.bubble_top b + 80)%Z
               /\ (Layout.bubble_bottom b <= h - 30)%Z
               /\ Forall (Layout.anchored b) (Layout.bubble_labels b)
               /\ Forall (fun l => match Layout.label_caption l with
                                   | Layout.Content text =>
                                       (String.length text <= 63)%nat
                                   | _ => True
                                   end) (Layout.bubble_labels b))
        bubbles.
Proof.
  unfold Layout.generate_chat_screenshot.
  destruct (Layout.draw_messages fromisoformat messages
              (Layout.header_height + Layout.padding) sender_name)
    as [[bs y_end]|] eqn:E; [|discriminate].
  intros H. injection H as <- <- <-.
  apply draw_messages_placed in E as (-> & Hlen & Hst & Hall).
  unfold Layout.total_height, Layout.width, Layout.header_height, Layout.padding,
    Layout.message_height in *.
  split; [reflexivity|]. split; [lia|]. split; [exact Hlen|]. split; [exact Hst|].
  eapply List.Forall_impl; [|exact Hall].
  intros b (H1 & H2 & (_ & Hbot & Hl & Hr & Hw & Ha & Hc)).
  unfold Layout.width, Layout.bubble_width, Layout.padding, Layout.message_height in *.
  repeat split; try assumption; lia.
Qed.

(** The image of two logged messages. *)
Lemma bubbles_fit_the_canvas_witness :
  exists bubbles,
    Layout.generate_chat_screenshot Samples.clock Samples.rows "Bob Smith" "Alice Johnson"
    = Some (800%Z, 280%Z, bubbles)
    /\ List.length bubbles = 2%nat.
Proof.
  destruct (Layout.generate_chat_screenshot Samples.clock Samples.rows
              "Bob Smith" "Alice Johnson") as [[[w h] bubbles]|] eqn:E.
  - destruct (bubbles_fit_the_canvas Samples.clock Samples.rows
                "Bob Smith" "Alice Johnson" w h bubbles E) as (-> & -> & Hlen & _).
    exists bubbles. split; [reflexivity | exact Hlen].
  - vm_compute in E. discriminate E.
Defined.

(** One unreadable timestamp costs the whole image.
    [generate_chat_screenshot] draws its image exactly when the timestamp of
    every message parses; if one does not, the ValueError leaves
    [_draw_message] and nothing is drawn or saved, whatever the other
    messages are. *)
Theorem screenshot_drawn_iff_timestamps_parse
    (fromisoformat : string -> option string)
    (messages : list Files.screenshot_message) (sender_name receiver_name : string) :
  Layout.generate_chat_screenshot fromisoformat messages sender_name receiver_name
  <> None
  <-> Forall (fun m => fromisoformat (Files.shot_created_at m) <> None) messages.
Proof.
  unfold Layout.generate_chat_screenshot.
  rewrite <- (draw_messages_some fromisoformat messages
                (Layout.header_height + Layout.padding) sender_name).
  destruct (Layout.draw_messages fromisoformat messages
              (Layout.header_height + Layout.padding) sender_name) as [[bs y]|];
    split; intros H; try discriminate; exfalso; apply H; reflexivity.
Qed.

(* ===================================================================== *)
(** * The keyword fallback of the REST detector *)
(* ===================================================================== *)

Section FallbackFacts.
Import Text KeywordFallback.

Lemma length_filter_le {A : Type} (f g : A -> bool) (l : list A) :
  (forall x, f x = true -> g x = true) ->
  (List.length (List.filter f l) <= List.length (List.filter g l))%nat.
Proof.
  intros H. induction l as [|x l IH]; cbn [List.filter]; [lia|].
  destruct (f x) eqn:E.
  - rewrite (H x E). cbn [List.length]. lia.
  - destruct (g x); cbn [List.length]; lia.
Qed.

Lemma matches_of_grow (text longer : string) :
  contains text longer = true ->
  (List.length (matches_of text) <= List.length (matches_of longer))%nat.
Proof.
  intros H. unfold matches_of. apply length_filter_le.
  intros k Hk. apply (contains_trans k (lower text)); [exact Hk|].
  apply contains_lower, H.
Qed.

Lemma matches_of_lower (text : string) : matches_of (lower text) = matches_of text.
Proof. unfold matches_of. rewrite lower_idempotent. reflexivity. Qed.

Lemma matches_of_nonempty (text : string) :
  matches_of text <> []
  <-> exists keyword, In keyword abusive_keywords
                      /\ contains keyword (lower text) = true.
Proof.
  unfold matches_of. generalize abusive_keywords. intros l. split.
  - intros H.
    destruct (List.filter (fun keyword => contains keyword (lower text)) l)
      as [|k ks] eqn:E; [contradiction|].
    assert (Hin : In k (List.filter (fun keyword => contains keyword (lower text)) l))
      by (rewrite E; left; reflexivity).
    apply filter_In in Hin. exists k. exact Hin.
  - intros (k & Hin & Hk) E.
    assert (Hin' : In k (List.filter (fun keyword => contains keyword (lower text)) l))
      by (apply filter_In; split; assumption).
    rewrite E in Hin'. exact Hin'.
Qed.

Lemma length_filter_two {A : Type} (f : A -> bool) (l l1 l2 : list A) (a b : A) :
  l = l1 ++ a :: b :: l2 ->
  f a = true -> f b = true ->
  (2 <= List.length (List.filter f l))%nat.
Proof.
  intros -> Ha Hb. rewrite List.filter_app, List.length_app.
  cbn [List.filter]. rewrite Ha, Hb. cbn [List.length]. lia.
Qed.

Lemma matches_of_retarded (text : string) :
  contains "retarded" (lower text) = true ->
  (2 <= List.length (matches_of text))%nat.
Proof.
  intros H.
  assert (H' : contains "retard" (lower text) = true).
  { apply (contains_trans _ "retarded"); [reflexivity | exact H]. }
  unfold matches_of.
  apply (length_filter_two _ abusive_keywords
           [ "idiot"; "stupid"; "dumb"; "moron"; "loser";
             "bitch"; "slut"; "whore"; "cunt"; "pussy";
             "kill yourself"; "kys"; "die"; "hate you";
             "ugly"; "fat"; "worthless"; "pathetic"; "useless" ]
           [ "fuck you"; "fucking"; "asshole" ] "retard" "retarded" eq_refl H' H).
Qed.

End FallbackFacts.

(** The fallback score counts keywords.  For every text the score of
    [_analyze_with_keywords] is 0, 25, 50, 75 or 100: 25 for each listed
    keyword that occurs in the lowered text, capped at 100.  The text is
    flagged exactly when some listed keyword occurs, which is exactly when
    the score is not 0 and exactly when [matched_keywords] is not empty.
    Letter case does not matter, and a text that contains another text
    never scores lower than it.  Keywords that contain each other count
    separately: a text with "retarded" scores at least 50. *)
Theorem fallback_score_counts_keywords (text : string) :
  let r := KeywordFallback._analyze_with_keywords text in
  (exists n, (0 <= n <= 4)%Z /\ KeywordFallback.score_of r = (25 * n)%Z
             /\ n = Z.min 4 (Z.of_nat (List.length (KeywordFallback.matches_of text))))
  /\ (KeywordFallback.is_abusive_of r = true
      <-> exists keyword, In keyword KeywordFallback.abusive_keywords
                          /\ Text.contains keyword (Text.lower text) = true)
  /\ (KeywordFallback.is_abusive_of r = true <-> KeywordFallback.score_of r <> 0%Z)
  /\ (KeywordFallback.is_abusive_of r = true
      <-> KeywordFallback.matched_keywords (KeywordFallback.analysis_of r) <> [])
  /\ KeywordFallback._analyze_with_keywords (Text.lower text) = r
  /\ (forall longer,
        Text.contains text longer = true ->
        (KeywordFallback.score_of r
         <= KeywordFallback.score_of (KeywordFallback._analyze_with_keywords longer))%Z)
  /\ (Text.contains "retarded" (Text.lower text) = true ->
      (50 <= KeywordFallback.score_of r)%Z).
Proof.
  cbv zeta.
  unfold KeywordFallback._analyze_with_keywords, KeywordFallback.is_abusive_of,
    KeywordFallback.score_of, KeywordFallback.analysis_of.
  cbn [fst snd KeywordFallback.matched_keywords].
  rewrite (matches_of_lower text).
  pose proof (matches_of_nonempty text) as Hne.
  pose proof (matches_of_retarded text) as Hret.
  assert (Hmono : forall longer, Text.contains text longer = true ->
            (List.length (KeywordFallback.matches_of text)
             <= List.length (KeywordFallback.matches_of longer))%nat)
    by (intros longer; apply matches_of_grow).
  destruct (KeywordFallback.matches_of text) as [|k ks] eqn:E.
  - cbn [List.length]. change (Z.of_nat 0) with 0%Z.
    change (0 =? 0)%Z with true. change (25 <=? 0)%Z with false. cbv iota.
    split; [exists 0%Z; repeat split; lia|].
    split.
    { split; [discriminate|]. intros H. apply Hne in H. contradiction. }
    split; [split; [discriminate | intros H; contradiction]|].
    split; [split; [discriminate | intros H; contradiction]|].
    split; [reflexivity|].
    split.
    + intros longer _.
      destruct (Z.of_nat (List.length (KeywordFallback.matches_of longer)) =? 0)%Z; lia.
    + intros H. apply Hret in H. cbn [List.length] in H. lia.
  - set (n := Z.of_nat (List.length (k :: ks))) in *.
    assert (Hn : (1 <= n)%Z) by (subst n; cbn [List.length]; lia).
    destruct (n =? 0)%Z eqn:En; [apply Z.eqb_eq in En; lia|].
    assert (Hflag : (25 <=? Z.min 100 (n * 25))%Z = true) by (apply Z.leb_le; lia).
    rewrite Hflag.
    split; [exists (Z.min 4 n); repeat split; lia|].
    split.
    { split; [intros _; apply Hne; discriminate | reflexivity]. }
    split; [split; [intros _; lia | reflexivity]|].
    split; [split; [intros _; discriminate | reflexivity]|].
    split; [reflexivity|].
    split.
    + intros longer H. specialize (Hmono longer H).
      assert (Hm : (n <= Z.of_nat (List.length (KeywordFallback.matches_of longer)))%Z)
        by (subst n; lia).
      destruct (Z.of_nat (List.length (KeywordFallback.matches_of longer)) =? 0)%Z
        eqn:E0; [apply Z.eqb_eq in E0; lia | lia].
    + intros H. apply Hret in H.
      assert (2 <= n)%Z by (subst n; lia). lia.
Qed.
